(** * Spectrum sweep engine of the QS-UV-K1 firmware (App/app/spectrum.c)

    A shallow embedding of the sweep scheduler, RSSI acquisition, peak
    tracker, automatic trigger, waterfall buffer and listen loop of
    [App/app/spectrum.c], with the properties of the engine stated and
    proved (or refuted) on it.

    Conventions.
    - C integers are [Z]; every conversion to a fixed width is written out
      with [u8], [u16], [u32] (unsigned wrap) or [s16] (two's complement).
      Arithmetic on [int] operands is plain [Z] arithmetic: every [int]
      expression of the engine stays far inside 32 bits.
    - C [/] on [int] is [Z.quot] (truncation), [>>] is [Z.shiftr].
    - Global variables are the fields of one [Engine] record, passed
      explicitly; arrays are lists indexed with stdpp's lookup and insert,
      and what the C code does outside an array's bounds is written out
      (see [hist_get] and [hist_set]).
    - Values coming from the radio (RSSI register, tail interrupt) are
      arguments of the function that reads them. *)

From Stdlib Require Import ZArith Lia Bool.
From stdpp Require Import base numbers list.

Open Scope Z_scope.

(** ** Fixed-width integers *)

Definition u8 (x : Z) : Z := x mod 256.
Definition u16 (x : Z) : Z := x mod 65536.
Definition u32 (x : Z) : Z := x mod 4294967296.
(** Conversion to [int16_t] (two's complement, as GCC on ARM does it). *)
Definition s16 (x : Z) : Z := (x + 32768) mod 65536 - 32768.

Definition is_u16 (x : Z) : Prop := 0 <= x <= 65535.

(** ** Constants of spectrum.c *)

Definition RSSI_MAX_VALUE : Z := 65535.
Definition SPECTRUM_MAX_STEPS : Z := 128.
Definition WATERFALL_HISTORY_DEPTH : Z := 16.
Definition BLACKLIST_MAX_ENTRIES : Z := 15.
Definition DISPLAY_DBM_MIN : Z := -130.
Definition DISPLAY_DBM_MAX : Z := -50.

(** [static int clamp(int v, int min, int max)] *)
Definition clamp (v min max : Z) : Z :=
  if v <=? min then min else if v >=? max then max else v.

(** ** Build configuration and external tables

    The [#ifdef] feature flags of the file, and the parts of the headers
    that spectrum.c uses but that are not in the file itself. *)

Record Config := mkConfig {
  ENABLE_SCAN_RANGES : bool;
  ENABLE_FEAT_N7SIX_SPECTRUM : bool;
  ENABLE_AM_FIX : bool;
  SPECTRUM_AUTOMATIC_SQUELCH : bool
}.

Record Extern := mkExtern {
  (** [dBmCorrTable[gRxVfo->Band]], the per-band correction offset *)
  dBmCorr : Z;
  (** [scanStepValues[]], in units of 10 Hz *)
  scanStepValues : list Z;
  (** the enumerator [S_STEP_2_5kHz] *)
  S_STEP_2_5kHz : Z;
  gScanRangeStart : Z;
  gScanRangeStop : Z
}.

(** ** CalibrationMath *)

(** [static int Rssi2DBm(uint16_t rssi)] *)
Definition Rssi2DBm (x : Extern) (rssi : Z) : Z :=
  Z.quot rssi 2 - 160 + dBmCorr x.

(** [static uint16_t dbm2rssi(int dBm)] *)
Definition dbm2rssi (x : Extern) (dBm : Z) : Z :=
  u16 ((dBm + 160 - dBmCorr x) * 2).

(** ** Data model *)

(** [State]: the screen the analyzer shows, and with it the mode of
    the tick loop. *)
Inductive State := SPECTRUM | FREQ_INPUT | STILL.

(** What the engine asks of the radio and of the board, in the order it
    asks. Register-level glue is folded into the call that performs it:
    [Tune f] is [SetF(f)] ([BK4819_SetFrequency], the RX filter path and
    the REG_30 toggle), [SetupRx f] is the VFO set-up of [ToggleRX(true)]
    with the VFO frequency [f]. *)
Inductive RadioCall :=
| Tune (f : Z)
| SetupRx (f : Z)
| AudioPath (on : bool)
| AfDacBit (on : bool)
| BandLed (f : Z) (hasSignal : bool)
| Reg43Listen
| Reg43Scan
| TailInterrupt
| DelayMs (ms : Z).

(** Accesses to [rssiHistory] made with an index computed from
    [scanInfo.i] ([Scan], [SetRssiHistory]); most recent first. *)
Inductive HistAccess :=
| HistRead (idx : Z)
| HistWrite (idx : Z) (v : Z).

(** Modelled from the spec: the structure declarations of app/spectrum.h
    ([SpectrumSettings], [ScanInfo], [PeakInfo], [State]) are missing
    from the sources.  The fields are those spectrum.c uses and the
    data model of the specification lists, with the widths the code and
    the specification show (16-bit RSSI values, indices and counters,
    32-bit frequencies, [int] dBm bounds).  A field [scanInfo.f] or
    [peak.f] of the C code is [scanInfo_f] or [peak_f] here.  Each
    [set_] function is the assignment to one field. *)

(** [SpectrumSettings settings] *)
Record SpectrumSettings := mkSettings {
  stepsCount : Z;
  scanStepIndex : Z;
  rssiTriggerLevel : Z;
  listenBw : Z;
  modulationType : Z;
  dbMin : Z;
  dbMax : Z
}.

Definition set_rssiTriggerLevel (v : Z) (r : SpectrumSettings) : SpectrumSettings :=
  {| stepsCount := stepsCount r; scanStepIndex := scanStepIndex r;
     rssiTriggerLevel := v; listenBw := listenBw r;
     modulationType := modulationType r; dbMin := dbMin r;
     dbMax := dbMax r |}.

Definition set_dbMin (v : Z) (r : SpectrumSettings) : SpectrumSettings :=
  {| stepsCount := stepsCount r; scanStepIndex := scanStepIndex r;
     rssiTriggerLevel := rssiTriggerLevel r; listenBw := listenBw r;
     modulationType := modulationType r; dbMin := v; dbMax := dbMax r |}.

Definition set_dbMax (v : Z) (r : SpectrumSettings) : SpectrumSettings :=
  {| stepsCount := stepsCount r; scanStepIndex := scanStepIndex r;
     rssiTriggerLevel := rssiTriggerLevel r; listenBw := listenBw r;
     modulationType := modulationType r; dbMin := dbMin r; dbMax := v |}.

(** [ScanInfo scanInfo]: the sweep in progress. *)
Record ScanInfo := mkScanInfo {
  scanInfo_rssi : Z;
  scanInfo_rssiMin : Z;
  scanInfo_rssiMax : Z;
  scanInfo_i : Z;
  scanInfo_iPeak : Z;
  scanInfo_f : Z;
  scanInfo_fPeak : Z;
  scanInfo_scanStep : Z;
  scanInfo_measurementsCount : Z
}.

Definition set_scanInfo_rssi (v : Z) (r : ScanInfo) : ScanInfo :=
  {| scanInfo_rssi := v; scanInfo_rssiMin := scanInfo_rssiMin r;
     scanInfo_rssiMax := scanInfo_rssiMax r; scanInfo_i := scanInfo_i r;
     scanInfo_iPeak := scanInfo_iPeak r; scanInfo_f := scanInfo_f r;
     scanInfo_fPeak := scanInfo_fPeak r;
     scanInfo_scanStep := scanInfo_scanStep r;
     scanInfo_measurementsCount := scanInfo_measurementsCount r |}.

Definition set_scanInfo_rssiMin (v : Z) (r : ScanInfo) : ScanInfo :=
  {| scanInfo_rssi := scanInfo_rssi r; scanInfo_rssiMin := v;
     scanInfo_rssiMax := scanInfo_rssiMax r; scanInfo_i := scanInfo_i r;
     scanInfo_iPeak := scanInfo_iPeak r; scanInfo_f := scanInfo_f r;
     scanInfo_fPeak := scanInfo_fPeak r;
     scanInfo_scanStep := scanInfo_scanStep r;
     scanInfo_measurementsCount := scanInfo_measurementsCount r |}.

Definition set_scanInfo_rssiMax (v : Z) (r : ScanInfo) : ScanInfo :=
  {| scanInfo_rssi := scanInfo_rssi r;
     scanInfo_rssiMin := scanInfo_rssiMin r; scanInfo_rssiMax := v;
     scanInfo_i := scanInfo_i r; scanInfo_iPeak := scanInfo_iPeak r;
     scanInfo_f := scanInfo_f r; scanInfo_fPeak := scanInfo_fPeak r;
     scanInfo_scanStep := scanInfo_scanStep r;
     scanInfo_measurementsCount := scanInfo_measurementsCount r |}.

Definition set_scanInfo_i (v : Z) (r : ScanInfo) : ScanInfo :=
  {| scanInfo_rssi := scanInfo_rssi r;
     scanInfo_rssiMin := scanInfo_rssiMin r;
     scanInfo_rssiMax := scanInfo_rssiMax r; scanInfo_i := v;
     scanInfo_iPeak := scanInfo_iPeak r; scanInfo_f := scanInfo_f r;
     scanInfo_fPeak := scanInfo_fPeak r;
     scanInfo_scanStep := scanInfo_scanStep r;
     scanInfo_measurementsCount := scanInfo_measurementsCount r |}.

Definition set_scanInfo_iPeak (v : Z) (r : ScanInfo) : ScanInfo :=
  {| scanInfo_rssi := scanInfo_rssi r;
     scanInfo_rssiMin := scanInfo_rssiMin r;
     scanInfo_rssiMax := scanInfo_rssiMax r; scanInfo_i := scanInfo_i r;
     scanInfo_iPeak := v; scanInfo_f := scanInfo_f r;
     scanInfo_fPeak := scanInfo_fPeak r;
     scanInfo_scanStep := scanInfo_scanStep r;
     scanInfo_measurementsCount := scanInfo_measurementsCount r |}.

Definition set_scanInfo_f (v : Z) (r : ScanInfo) : ScanInfo :=
  {| scanInfo_rssi := scanInfo_rssi r;
     scanInfo_rssiMin := scanInfo_rssiMin r;
     scanInfo_rssiMax := scanInfo_rssiMax r; scanInfo_i := scanInfo_i r;
     scanInfo_iPeak := scanInfo_iPeak r; scanInfo_f := v;
     scanInfo_fPeak := scanInfo_fPeak r;
     scanInfo_scanStep := scanInfo_scanStep r;
     scanInfo_measurementsCount := scanInfo_measurementsCount r |}.

Definition set_scanInfo_fPeak (v : Z) (r : ScanInfo) : ScanInfo :=
  {| scanInfo_rssi := scanInfo_rssi r;
     scanInfo_rssiMin := scanInfo_rssiMin r;
     scanInfo_rssiMax := scanInfo_rssiMax r; scanInfo_i := scanInfo_i r;
     scanInfo_iPeak := scanInfo_iPeak r; scanInfo_f := scanInfo_f r;
     scanInfo_fPeak := v; scanInfo_scanStep := scanInfo_scanStep r;
     scanInfo_measurementsCount := scanInfo_measurementsCount r |}.

Definition set_scanInfo_scanStep (v : Z) (r : ScanInfo) : ScanInfo :=
  {| scanInfo_rssi := scanInfo_rssi r;
     scanInfo_rssiMin := scanInfo_rssiMin r;
     scanInfo_rssiMax := scanInfo_rssiMax r; scanInfo_i := scanInfo_i r;
     scanInfo_iPeak := scanInfo_iPeak r; scanInfo_f := scanInfo_f r;
     scanInfo_fPeak := scanInfo_fPeak r; scanInfo_scanStep := v;
     scanInfo_measurementsCount := scanInfo_measurementsCount r |}.

Definition set_scanInfo_measurementsCount (v : Z) (r : ScanInfo) : ScanInfo :=
  {| scanInfo_rssi := scanInfo_rssi r;
     scanInfo_rssiMin := scanInfo_rssiMin r;
     scanInfo_rssiMax := scanInfo_rssiMax r; scanInfo_i := scanInfo_i r;
     scanInfo_iPeak := scanInfo_iPeak r; scanInfo_f := scanInfo_f r;
     scanInfo_fPeak := scanInfo_fPeak r;
     scanInfo_scanStep := scanInfo_scanStep r;
     scanInfo_measurementsCount := v |}.

(** [PeakInfo peak]: the held peak, [t] its age. *)
Record PeakInfo := mkPeakInfo {
  peak_t : Z;
  peak_rssi : Z;
  peak_f : Z;
  peak_i : Z
}.

Definition set_peak_t (v : Z) (r : PeakInfo) : PeakInfo :=
  {| peak_t := v; peak_rssi := peak_rssi r; peak_f := peak_f r;
     peak_i := peak_i r |}.

Definition set_peak_rssi (v : Z) (r : PeakInfo) : PeakInfo :=
  {| peak_t := peak_t r; peak_rssi := v; peak_f := peak_f r;
     peak_i := peak_i r |}.

Definition set_peak_f (v : Z) (r : PeakInfo) : PeakInfo :=
  {| peak_t := peak_t r; peak_rssi := peak_rssi r; peak_f := v;
     peak_i := peak_i r |}.

Definition set_peak_i (v : Z) (r : PeakInfo) : PeakInfo :=
  {| peak_t := peak_t r; peak_rssi := peak_rssi r; peak_f := peak_f r;
     peak_i := v |}.

(** The global variables of spectrum.c that the engine reads or writes.
    [scanWaterfallCounter] and [listenWaterfallCounter] are the two
    [static uint8_t waterfallUpdateCounter] of [UpdateScan] and
    [UpdateListening]; [pastEnd] is the memory that follows
    [rssiHistory]; [radio] and [accesses] record, most recent first, the
    calls made to the radio and the accesses to [rssiHistory]. *)
Record Engine := mkEngine {
  settings : SpectrumSettings;
  scanInfo : ScanInfo;
  peak : PeakInfo;
  isListening : bool;
  monitorMode : bool;
  redrawStatus : bool;
  redrawScreen : bool;
  newScanStart : bool;
  preventKeypress : bool;
  audioState : bool;
  currentState : State;
  fMeasure : Z;
  currentFreq : Z;
  rssiHistory : list Z;
  pastEnd : Z -> Z;
  waterfallHistory : list (list Z);
  waterfallIndex : Z;
  listenT : Z;
  scanWaterfallCounter : Z;
  listenWaterfallCounter : Z;
  blacklistFreqs : list Z;
  blacklistFreqsIdx : Z;
  radio : list RadioCall;
  accesses : list HistAccess
}.

Definition set_settings (v : SpectrumSettings) (r : Engine) : Engine :=
  {| settings := v; scanInfo := scanInfo r; peak := peak r;
     isListening := isListening r; monitorMode := monitorMode r;
     redrawStatus := redrawStatus r; redrawScreen := redrawScreen r;
     newScanStart := newScanStart r; preventKeypress := preventKeypress r;
     audioState := audioState r; currentState := currentState r;
     fMeasure := fMeasure r; currentFreq := currentFreq r;
     rssiHistory := rssiHistory r; pastEnd := pastEnd r;
     waterfallHistory := waterfallHistory r;
     waterfallIndex := waterfallIndex r; listenT := listenT r;
     scanWaterfallCounter := scanWaterfallCounter r;
     listenWaterfallCounter := listenWaterfallCounter r;
     blacklistFreqs := blacklistFreqs r;
     blacklistFreqsIdx := blacklistFreqsIdx r; radio := radio r;
     accesses := accesses r |}.

Definition set_scanInfo (v : ScanInfo) (r : Engine) : Engine :=
  {| settings := settings r; scanInfo := v; peak := peak r;
     isListening := isListening r; monitorMode := monitorMode r;
     redrawStatus := redrawStatus r; redrawScreen := redrawScreen r;
     newScanStart := newScanStart r; preventKeypress := preventKeypress r;
     audioState := audioState r; currentState := currentState r;
     fMeasure := fMeasure r; currentFreq := currentFreq r;
     rssiHistory := rssiHistory r; pastEnd := pastEnd r;
     waterfallHistory := waterfallHistory r;
     waterfallIndex := waterfallIndex r; listenT := listenT r;
     scanWaterfallCounter := scanWaterfallCounter r;
     listenWaterfallCounter := listenWaterfallCounter r;
     blacklistFreqs := blacklistFreqs r;
     blacklistFreqsIdx := blacklistFreqsIdx r; radio := radio r;
     accesses := accesses r |}.

Definition set_peak (v : PeakInfo) (r : Engine) : Engine :=
  {| settings := settings r; scanInfo := scanInfo r; peak := v;
     isListening := isListening r; monitorMode := monitorMode r;
     redrawStatus := redrawStatus r; redrawScreen := redrawScreen r;
     newScanStart := newScanStart r; preventKeypress := preventKeypress r;
     audioState := audioState r; currentState := currentState r;
     fMeasure := fMeasure r; currentFreq := currentFreq r;
     rssiHistory := rssiHistory r; pastEnd := pastEnd r;
     waterfallHistory := waterfallHistory r;
     waterfallIndex := waterfallIndex r; listenT := listenT r;
     scanWaterfallCounter := scanWaterfallCounter r;
     listenWaterfallCounter := listenWaterfallCounter r;
     blacklistFreqs := blacklistFreqs r;
     blacklistFreqsIdx := blacklistFreqsIdx r; radio := radio r;
     accesses := accesses r |}.

Definition set_isListening (v : bool) (r : Engine) : Engine :=
  {| settings := settings r; scanInfo := scanInfo r; peak := peak r;
     isListening := v; monitorMode := monitorMode r;
     redrawStatus := redrawStatus r; redrawScreen := redrawScreen r;
     newScanStart := newScanStart r; preventKeypress := preventKeypress r;
     audioState := audioState r; currentState := currentState r;
     fMeasure := fMeasure r; currentFreq := currentFreq r;
     rssiHistory := rssiHistory r; pastEnd := pastEnd r;
     waterfallHistory := waterfallHistory r;
     waterfallIndex := waterfallIndex r; listenT := listenT r;
     scanWaterfallCounter := scanWaterfallCounter r;
     listenWaterfallCounter := listenWaterfallCounter r;
     blacklistFreqs := blacklistFreqs r;
     blacklistFreqsIdx := blacklistFreqsIdx r; radio := radio r;
     accesses := accesses r |}.

Definition set_redrawStatus (v : bool) (r : Engine) : Engine :=
  {| settings := settings r; scanInfo := scanInfo r; peak := peak r;
     isListening := isListening r; monitorMode := monitorMode r;
     redrawStatus := v; redrawScreen := redrawScreen r;
     newScanStart := newScanStart r; preventKeypress := preventKeypress r;
     audioState := audioState r; currentState := currentState r;
     fMeasure := fMeasure r; currentFreq := currentFreq r;
     rssiHistory := rssiHistory r; pastEnd := pastEnd r;
     waterfallHistory := waterfallHistory r;
     waterfallIndex := waterfallIndex r; listenT := listenT r;
     scanWaterfallCounter := scanWaterfallCounter r;
     listenWaterfallCounter := listenWaterfallCounter r;
     blacklistFreqs := blacklistFreqs r;
     blacklistFreqsIdx := blacklistFreqsIdx r; radio := radio r;
     accesses := accesses r |}.

Definition set_redrawScreen (v : bool) (r : Engine) : Engine :=
  {| settings := settings r; scanInfo := scanInfo r; peak := peak r;
     isListening := isListening r; monitorMode := monitorMode r;
     redrawStatus := redrawStatus r; redrawScreen := v;
     newScanStart := newScanStart r; preventKeypress := preventKeypress r;
     audioState := audioState r; currentState := currentState r;
     fMeasure := fMeasure r; currentFreq := currentFreq r;
     rssiHistory := rssiHistory r; pastEnd := pastEnd r;
     waterfallHistory := waterfallHistory r;
     waterfallIndex := waterfallIndex r; listenT := listenT r;
     scanWaterfallCounter := scanWaterfallCounter r;
     listenWaterfallCounter := listenWaterfallCounter r;
     blacklistFreqs := blacklistFreqs r;
     blacklistFreqsIdx := blacklistFreqsIdx r; radio := radio r;
     accesses := accesses r |}.

Definition set_newScanStart (v : bool) (r : Engine) : Engine :=
  {| settings := settings r; scanInfo := scanInfo r; peak := peak r;
     isListening := isListening r; monitorMode := monitorMode r;
     redrawStatus := redrawStatus r; redrawScreen := redrawScreen r;
     newScanStart := v; preventKeypress := preventKeypress r;
     audioState := audioState r; currentState := currentState r;
     fMeasure := fMeasure r; currentFreq := currentFreq r;
     rssiHistory := rssiHistory r; pastEnd := pastEnd r;
     waterfallHistory := waterfallHistory r;
     waterfallIndex := waterfallIndex r; listenT := listenT r;
     scanWaterfallCounter := scanWaterfallCounter r;
     listenWaterfallCounter := listenWaterfallCounter r;
     blacklistFreqs := blacklistFreqs r;
     blacklistFreqsIdx := blacklistFreqsIdx r; radio := radio r;
     accesses := accesses r |}.

Definition set_preventKeypress (v : bool) (r : Engine) : Engine :=
  {| settings := settings r; scanInfo := scanInfo r; peak := peak r;
     isListening := isListening r; monitorMode := monitorMode r;
     redrawStatus := redrawStatus r; redrawScreen := redrawScreen r;
     newScanStart := newScanStart r; preventKeypress := v;
     audioState := audioState r; currentState := currentState r;
     fMeasure := fMeasure r; currentFreq := currentFreq r;
     rssiHistory := rssiHistory r; pastEnd := pastEnd r;
     waterfallHistory := waterfallHistory r;
     waterfallIndex := waterfallIndex r; listenT := listenT r;
     scanWaterfallCounter := scanWaterfallCounter r;
     listenWaterfallCounter := listenWaterfallCounter r;
     blacklistFreqs := blacklistFreqs r;
     blacklistFreqsIdx := blacklistFreqsIdx r; radio := radio r;
     accesses := accesses r |}.

Definition set_audioState (v : bool) (r : Engine) : Engine :=
  {| settings := settings r; scanInfo := scanInfo r; peak := peak r;
     isListening := isListening r; monitorMode := monitorMode r;
     redrawStatus := redrawStatus r; redrawScreen := redrawScreen r;
     newScanStart := newScanStart r; preventKeypress := preventKeypress r;
     audioState := v; currentState := currentState r; fMeasure := fMeasure r;
     currentFreq := currentFreq r; rssiHistory := rssiHistory r;
     pastEnd := pastEnd r; waterfallHistory := waterfallHistory r;
     waterfallIndex := waterfallIndex r; listenT := listenT r;
     scanWaterfallCounter := scanWaterfallCounter r;
     listenWaterfallCounter := listenWaterfallCounter r;
     blacklistFreqs := blacklistFreqs r;
     blacklistFreqsIdx := blacklistFreqsIdx r; radio := radio r;
     accesses := accesses r |}.

Definition set_fMeasure (v : Z) (r : Engine) : Engine :=
  {| settings := settings r; scanInfo := scanInfo r; peak := peak r;
     isListening := isListening r; monitorMode := monitorMode r;
     redrawStatus := redrawStatus r; redrawScreen := redrawScreen r;
     newScanStart := newScanStart r; preventKeypress := preventKeypress r;
     audioState := audioState r; currentState := currentState r;
     fMeasure := v; currentFreq := currentFreq r;
     rssiHistory := rssiHistory r; pastEnd := pastEnd r;
     waterfallHistory := waterfallHistory r;
     waterfallIndex := waterfallIndex r; listenT := listenT r;
     scanWaterfallCounter := scanWaterfallCounter r;
     listenWaterfallCounter := listenWaterfallCounter r;
     blacklistFreqs := blacklistFreqs r;
     blacklistFreqsIdx := blacklistFreqsIdx r; radio := radio r;
     accesses := accesses r |}.

Definition set_rssiHistory (v : list Z) (r : Engine) : Engine :=
  {| settings := settings r; scanInfo := scanInfo r; peak := peak r;
     isListening := isListening r; monitorMode := monitorMode r;
     redrawStatus := redrawStatus r; redrawScreen := redrawScreen r;
     newScanStart := newScanStart r; preventKeypress := preventKeypress r;
     audioState := audioState r; currentState := currentState r;
     fMeasure := fMeasure r; currentFreq := currentFreq r; rssiHistory := v;
     pastEnd := pastEnd r; waterfallHistory := waterfallHistory r;
     waterfallIndex := waterfallIndex r; listenT := listenT r;
     scanWaterfallCounter := scanWaterfallCounter r;
     listenWaterfallCounter := listenWaterfallCounter r;
     blacklistFreqs := blacklistFreqs r;
     blacklistFreqsIdx := blacklistFreqsIdx r; radio := radio r;
     accesses := accesses r |}.

Definition set_pastEnd (v : Z -> Z) (r : Engine) : Engine :=
  {| settings := settings r; scanInfo := scanInfo r; peak := peak r;
     isListening := isListening r; monitorMode := monitorMode r;
     redrawStatus := redrawStatus r; redrawScreen := redrawScreen r;
     newScanStart := newScanStart r; preventKeypress := preventKeypress r;
     audioState := audioState r; currentState := currentState r;
     fMeasure := fMeasure r; currentFreq := currentFreq r;
     rssiHistory := rssiHistory r; pastEnd := v;
     waterfallHistory := waterfallHistory r;
     waterfallIndex := waterfallIndex r; listenT := listenT r;
     scanWaterfallCounter := scanWaterfallCounter r;
     listenWaterfallCounter := listenWaterfallCounter r;
     blacklistFreqs := blacklistFreqs r;
     blacklistFreqsIdx := blacklistFreqsIdx r; radio := radio r;
     accesses := accesses r |}.

Definition set_waterfallHistory (v : list (list Z)) (r : Engine) : Engine :=
  {| settings := settings r; scanInfo := scanInfo r; peak := peak r;
     isListening := isListening r; monitorMode := monitorMode r;
     redrawStatus := redrawStatus r; redrawScreen := redrawScreen r;
     newScanStart := newScanStart r; preventKeypress := preventKeypress r;
     audioState := audioState r; currentState := currentState r;
     fMeasure := fMeasure r; currentFreq := currentFreq r;
     rssiHistory := rssiHistory r; pastEnd := pastEnd r;
     waterfallHistory := v; waterfallIndex := waterfallIndex r;
     listenT := listenT r; scanWaterfallCounter := scanWaterfallCounter r;
     listenWaterfallCounter := listenWaterfallCounter r;
     blacklistFreqs := blacklistFreqs r;
     blacklistFreqsIdx := blacklistFreqsIdx r; radio := radio r;
     accesses := accesses r |}.

Definition set_waterfallIndex (v : Z) (r : Engine) : Engine :=
  {| settings := settings r; scanInfo := scanInfo r; peak := peak r;
     isListening := isListening r; monitorMode := monitorMode r;
     redrawStatus := redrawStatus r; redrawScreen := redrawScreen r;
     newScanStart := newScanStart r; preventKeypress := preventKeypress r;
     audioState := audioState r; currentState := currentState r;
     fMeasure := fMeasure r; currentFreq := currentFreq r;
     rssiHistory := rssiHistory r; pastEnd := pastEnd r;
     waterfallHistory := waterfallHistory r; waterfallIndex := v;
     listenT := listenT r; scanWaterfallCounter := scanWaterfallCounter r;
     listenWaterfallCounter := listenWaterfallCounter r;
     blacklistFreqs := blacklistFreqs r;
     blacklistFreqsIdx := blacklistFreqsIdx r; radio := radio r;
     accesses := accesses r |}.

Definition set_listenT (v : Z) (r : Engine) : Engine :=
  {| settings := settings r; scanInfo := scanInfo r; peak := peak r;
     isListening := isListening r; monitorMode := monitorMode r;
     redrawStatus := redrawStatus r; redrawScreen := redrawScreen r;
     newScanStart := newScanStart r; preventKeypress := preventKeypress r;
     audioState := audioState r; currentState := currentState r;
     fMeasure := fMeasure r; currentFreq := currentFreq r;
     rssiHistory := rssiHistory r; pastEnd := pastEnd r;
     waterfallHistory := waterfallHistory r;
     waterfallIndex := waterfallIndex r; listenT := v;
     scanWaterfallCounter := scanWaterfallCounter r;
     listenWaterfallCounter := listenWaterfallCounter r;
     blacklistFreqs := blacklistFreqs r;
     blacklistFreqsIdx := blacklistFreqsIdx r; radio := radio r;
     accesses := accesses r |}.

Definition set_scanWaterfallCounter (v : Z) (r : Engine) : Engine :=
  {| settings := settings r; scanInfo := scanInfo r; peak := peak r;
     isListening := isListening r; monitorMode := monitorMode r;
     redrawStatus := redrawStatus r; redrawScreen := redrawScreen r;
     newScanStart := newScanStart r; preventKeypress := preventKeypress r;
     audioState := audioState r; currentState := currentState r;
     fMeasure := fMeasure r; currentFreq := currentFreq r;
     rssiHistory := rssiHistory r; pastEnd := pastEnd r;
     waterfallHistory := waterfallHistory r;
     waterfallIndex := waterfallIndex r; listenT := listenT r;
     scanWaterfallCounter := v;
     listenWaterfallCounter := listenWaterfallCounter r;
     blacklistFreqs := blacklistFreqs r;
     blacklistFreqsIdx := blacklistFreqsIdx r; radio := radio r;
     accesses := accesses r |}.

Definition set_listenWaterfallCounter (v : Z) (r : Engine) : Engine :=
  {| settings := settings r; scanInfo := scanInfo r; peak := peak r;
     isListening := isListening r; monitorMode := monitorMode r;
     redrawStatus := redrawStatus r; redrawScreen := redrawScreen r;
     newScanStart := newScanStart r; preventKeypress := preventKeypress r;
     audioState := audioState r; currentState := currentState r;
     fMeasure := fMeasure r; currentFreq := currentFreq r;
     rssiHistory := rssiHistory r; pastEnd := pastEnd r;
     waterfallHistory := waterfallHistory r;
     waterfallIndex := waterfallIndex r; listenT := listenT r;
     scanWaterfallCounter := scanWaterfallCounter r;
     listenWaterfallCounter := v; blacklistFreqs := blacklistFreqs r;
     blacklistFreqsIdx := blacklistFreqsIdx r; radio := radio r;
     accesses := accesses r |}.

Definition set_radio (v : list RadioCall) (r : Engine) : Engine :=
  {| settings := settings r; scanInfo := scanInfo r; peak := peak r;
     isListening := isListening r; monitorMode := monitorMode r;
     redrawStatus := redrawStatus r; redrawScreen := redrawScreen r;
     newScanStart := newScanStart r; preventKeypress := preventKeypress r;
     audioState := audioState r; currentState := currentState r;
     fMeasure := fMeasure r; currentFreq := currentFreq r;
     rssiHistory := rssiHistory r; pastEnd := pastEnd r;
     waterfallHistory := waterfallHistory r;
     waterfallIndex := waterfallIndex r; listenT := listenT r;
     scanWaterfallCounter := scanWaterfallCounter r;
     listenWaterfallCounter := listenWaterfallCounter r;
     blacklistFreqs := blacklistFreqs r;
     blacklistFreqsIdx := blacklistFreqsIdx r; radio := v;
     accesses := accesses r |}.

Definition set_accesses (v : list HistAccess) (r : Engine) : Engine :=
  {| settings := settings r; scanInfo := scanInfo r; peak := peak r;
     isListening := isListening r; monitorMode := monitorMode r;
     redrawStatus := redrawStatus r; redrawScreen := redrawScreen r;
     newScanStart := newScanStart r; preventKeypress := preventKeypress r;
     audioState := audioState r; currentState := currentState r;
     fMeasure := fMeasure r; currentFreq := currentFreq r;
     rssiHistory := rssiHistory r; pastEnd := pastEnd r;
     waterfallHistory := waterfallHistory r;
     waterfallIndex := waterfallIndex r; listenT := listenT r;
     scanWaterfallCounter := scanWaterfallCounter r;
     listenWaterfallCounter := listenWaterfallCounter r;
     blacklistFreqs := blacklistFreqs r;
     blacklistFreqsIdx := blacklistFreqsIdx r; radio := radio r;
     accesses := v |}.

(** ** The [rssiHistory] array

    [uint16_t rssiHistory[SPECTRUM_MAX_STEPS]] is the list [rssiHistory];
    C does not check an index, so an access at an index outside the list
    goes to the memory that follows the array, whose content [pastEnd]
    stands for.  Both kinds of access are recorded in [accesses]. *)

Definition in_hist (e : Engine) (idx : Z) : bool :=
  (0 <=? idx) && (idx <? Z.of_nat (length (rssiHistory e))).

Definition hist_peek (e : Engine) (idx : Z) : Z :=
  if in_hist e idx then default 0 (rssiHistory e !! Z.to_nat idx)
  else pastEnd e idx.

Definition hist_get (idx : Z) (e : Engine) : Z * Engine :=
  (hist_peek e idx, set_accesses (HistRead idx :: accesses e) e).

Definition hist_set (idx v : Z) (e : Engine) : Engine :=
  let e1 :=
    if in_hist e idx
    then set_rssiHistory (<[Z.to_nat idx := v]> (rssiHistory e)) e
    else set_pastEnd (fun j => if j =? idx then v else pastEnd e j) e in
  set_accesses (HistWrite idx v :: accesses e1) e1.

(** ** RSSI acquisition: [GetRssi]

    The polling loop reads register 0x63 until its low byte is below 255,
    waiting 100 us between two readings.  [reg63 k] is the value the
    [k]-th reading returns.  The loop has no counter of its own, so the
    model runs it on fuel: [None] means that the loop is still polling
    when the fuel is spent. *)

Record Bk4819 := mkBk4819 {
  reg63 : nat -> Z;
  (** [BK4819_GetRSSI()] *)
  rssiReg : Z;
  (** [gSetting_AM_fix] and [AM_fix_get_gain_diff()] *)
  gSetting_AM_fix : bool;
  AM_fix_gain_diff : Z
}.

(** The enumerator [MODULATION_AM] (radio.h, not among the sources): the
    one after [MODULATION_FM], which [ToggleModulation] starts from. *)
Definition MODULATION_AM : Z := 1.

(** The [while] loop of [GetRssi], started at reading number [k]:
    the number of the reading that ends it. *)
Fixpoint GetRssi_poll (fuel : nat) (reads : nat -> Z) (k : nat) : option nat :=
  match fuel with
  | O => None
  | S fuel' =>
      if Z.land (reads k) 255 >=? 255
      then GetRssi_poll fuel' reads (S k)
      else Some k
  end.

(** [uint16_t GetRssi()]: the sample, and the number of 100 us delays
    spent polling. *)
Definition GetRssi (cfg : Config) (fuel : nat) (hw : Bk4819)
    (modulation : Z) : option (Z * nat) :=
  match GetRssi_poll fuel (reg63 hw) O with
  | None => None
  | Some k =>
      let rssi := u16 (rssiReg hw) in
      let rssi :=
        if ENABLE_AM_FIX cfg && (modulation =? MODULATION_AM)
           && gSetting_AM_fix hw
        then u16 (rssi + AM_fix_gain_diff hw * 2)
        else rssi in
      Some (rssi, k)
  end.

(** ** The engine *)

Section Spectrum.

Variable cfg : Config.
Variable x : Extern.

(** [bool IsPeakOverLevel()] *)
Definition IsPeakOverLevel (e : Engine) : bool :=
  peak_rssi (peak e) >=? rssiTriggerLevel (settings e).

(** [static void ResetPeak()] *)
Definition ResetPeak (e : Engine) : Engine :=
  set_peak (set_peak_rssi 0 (set_peak_t 0 (peak e))) e.

(** [bool IsCenterMode()] *)
Definition IsCenterMode (e : Engine) : bool :=
  scanStepIndex (settings e) <? S_STEP_2_5kHz x.

(** [uint16_t GetScanStep()] *)
Definition GetScanStep (e : Engine) : Z :=
  default 0 (scanStepValues x !! Z.to_nat (scanStepIndex (settings e))).

(** [uint16_t GetStepsCount()] *)
Definition GetStepsCount (e : Engine) : Z :=
  if ENABLE_SCAN_RANGES cfg && negb (gScanRangeStart x =? 0) then
    let range := u32 (gScanRangeStop x - gScanRangeStart x) in
    let step := GetScanStep e in
    u16 (range / step + 1)
  else u16 (Z.shiftr 128 (stepsCount (settings e))).

(** [uint32_t GetBW()] *)
Definition GetBW (e : Engine) : Z := u32 (GetStepsCount e * GetScanStep e).

(** [uint32_t GetFStart()] *)
Definition GetFStart (e : Engine) : Z :=
  if IsCenterMode e then u32 (currentFreq e - Z.shiftr (GetBW e) 1)
  else currentFreq e.

(** [static void SetF(uint32_t f)] *)
Definition SetF (f : Z) (e : Engine) : Engine :=
  let e := set_fMeasure f e in
  set_radio (Tune (fMeasure e) :: radio e) e.

(** [static void TuneToPeak()] *)
Definition TuneToPeak (e : Engine) : Engine :=
  let e := set_scanInfo (set_scanInfo_f (peak_f (peak e)) (scanInfo e)) e in
  let e := set_scanInfo (set_scanInfo_rssi (peak_rssi (peak e)) (scanInfo e)) e in
  let e := set_scanInfo (set_scanInfo_i (peak_i (peak e)) (scanInfo e)) e in
  SetF (scanInfo_f (scanInfo e)) e.

(** [static void ToggleAudio(bool on)] *)
Definition ToggleAudio (on : bool) (e : Engine) : Engine :=
  if eqb on (audioState e) then e
  else set_radio (AudioPath on :: radio e) (set_audioState on e).

(** [static void ToggleRX(bool on)] *)
Definition ToggleRX (on : bool) (e : Engine) : Engine :=
  if ENABLE_FEAT_N7SIX_SPECTRUM cfg && eqb (isListening e) on then e
  else
    let e := set_isListening on e in
    if on then
      let e := set_radio (SetupRx (fMeasure e) :: radio e) e in
      let e := ToggleAudio true e in
      let e := set_radio (AfDacBit true :: radio e) e in
      let e := set_radio (BandLed (fMeasure e) true :: radio e) e in
      if ENABLE_FEAT_N7SIX_SPECTRUM cfg then
        let e := set_listenT 20 e in
        set_radio (TailInterrupt :: Reg43Listen :: radio e) e
      else
        let e := set_listenT 100 e in
        set_radio (Reg43Listen :: radio e) e
    else
      let e := set_radio (Reg43Scan :: radio e) e in
      let e := ToggleAudio false e in
      let e := set_radio (AfDacBit false :: radio e) e in
      set_radio (BandLed (fMeasure e) false :: radio e) e.

(** [static void ResetScanStats()] *)
Definition ResetScanStats (e : Engine) : Engine :=
  set_scanInfo
    (set_scanInfo_fPeak 0 (set_scanInfo_iPeak 0
      (set_scanInfo_rssiMax 0 (set_scanInfo_rssi 0 (scanInfo e))))) e.

(** [static void InitScan()] *)
Definition InitScan (e : Engine) : Engine :=
  let e := ResetScanStats e in
  let e := set_scanInfo (set_scanInfo_i 0 (scanInfo e)) e in
  let e := set_scanInfo (set_scanInfo_f (GetFStart e) (scanInfo e)) e in
  let e := set_scanInfo (set_scanInfo_scanStep (GetScanStep e) (scanInfo e)) e in
  set_scanInfo (set_scanInfo_measurementsCount (GetStepsCount e) (scanInfo e)) e.

(** [static void RelaunchScan()] *)
Definition RelaunchScan (e : Engine) : Engine :=
  let e := InitScan e in
  let e := ResetPeak e in
  let e := ToggleRX false e in
  let e :=
    if SPECTRUM_AUTOMATIC_SQUELCH cfg
    then set_settings (set_rssiTriggerLevel RSSI_MAX_VALUE (settings e)) e
    else e in
  let e := set_preventKeypress true e in
  set_scanInfo (set_scanInfo_rssiMin RSSI_MAX_VALUE (scanInfo e)) e.

(** [static void UpdateScanInfo()] *)
Definition UpdateScanInfo (e : Engine) : Engine :=
  let e :=
    if scanInfo_rssi (scanInfo e) >? scanInfo_rssiMax (scanInfo e) then
      let e := set_scanInfo
                 (set_scanInfo_rssiMax (scanInfo_rssi (scanInfo e)) (scanInfo e)) e in
      let e := set_scanInfo
                 (set_scanInfo_fPeak (scanInfo_f (scanInfo e)) (scanInfo e)) e in
      set_scanInfo (set_scanInfo_iPeak (scanInfo_i (scanInfo e)) (scanInfo e)) e
    else e in
  if scanInfo_rssi (scanInfo e) <? scanInfo_rssiMin (scanInfo e) then
    let e := set_scanInfo
               (set_scanInfo_rssiMin (scanInfo_rssi (scanInfo e)) (scanInfo e)) e in
    let e := set_settings
               (set_dbMin (Rssi2DBm x (scanInfo_rssiMin (scanInfo e))) (settings e)) e in
    set_redrawStatus true e
  else e.

(** The ramp step of [AutoTriggerLevel]:
    [(diff > 6) ? 3 : ((diff > 3) ? 2 : 1)]. *)
Definition ramp_step (diff : Z) : Z :=
  if diff >? 6 then 3 else if diff >? 3 then 2 else 1.

(** The target of the ramp: [newTrigger] after the [MIN_TRIGGER] guard. *)
Definition AutoTrigger_target (rssiMax : Z) : Z :=
  let newTrigger := u16 (clamp (rssiMax + 8) 0 RSSI_MAX_VALUE) in
  let MIN_TRIGGER := u16 (rssiMax + 15) in
  if newTrigger <? MIN_TRIGGER then MIN_TRIGGER else newTrigger.

(** [static void AutoTriggerLevel()] *)
Definition AutoTriggerLevel (e : Engine) : Engine :=
  let level := rssiTriggerLevel (settings e) in
  if level =? RSSI_MAX_VALUE then
    let initialTrigger := u16 (scanInfo_rssiMax (scanInfo e) + 20) in
    set_settings
      (set_rssiTriggerLevel (u16 (clamp initialTrigger 0 RSSI_MAX_VALUE))
         (settings e)) e
  else
    let newTrigger := AutoTrigger_target (scanInfo_rssiMax (scanInfo e)) in
    if newTrigger >? level then
      let diff := s16 (s16 newTrigger - s16 level) in
      let step := ramp_step diff in
      let level := u16 (level + step) in
      let level := if level >? newTrigger then newTrigger else level in
      set_settings (set_rssiTriggerLevel level (settings e)) e
    else if newTrigger <? level - 4 then
      let diff := s16 (s16 level - s16 newTrigger) in
      let step := ramp_step diff in
      let level := u16 (level - step) in
      let level := if level <? newTrigger then newTrigger else level in
      set_settings (set_rssiTriggerLevel level (settings e)) e
    else e.

(** [static void UpdatePeakInfoForce()] *)
Definition UpdatePeakInfoForce (e : Engine) : Engine :=
  let e := set_peak (set_peak_t 0 (peak e)) e in
  let e := set_peak (set_peak_rssi (scanInfo_rssiMax (scanInfo e)) (peak e)) e in
  let e := set_peak (set_peak_f (scanInfo_fPeak (scanInfo e)) (peak e)) e in
  let e := set_peak (set_peak_i (scanInfo_iPeak (scanInfo e)) (peak e)) e in
  AutoTriggerLevel e.

(** The condition of [UpdatePeakInfo]. *)
Definition peak_refresh_due (e : Engine) : bool :=
  (peak_f (peak e) =? 0) || (peak_t (peak e) >=? 1024)
  || (peak_rssi (peak e) <? scanInfo_rssiMax (scanInfo e)).

(** [static void UpdatePeakInfo()] *)
Definition UpdatePeakInfo (e : Engine) : Engine :=
  if peak_refresh_due e then UpdatePeakInfoForce e
  else set_peak (set_peak_t (u16 (peak_t (peak e) + 1)) (peak e)) e.

(** [static void SetRssiHistory(uint16_t idx, uint16_t rssi)] *)
Definition SetRssiHistory (idx rssi : Z) (e : Engine) : Engine :=
  if ENABLE_SCAN_RANGES cfg
     && (scanInfo_measurementsCount (scanInfo e) >? 128) then
    let i :=
      u8 (u32 (u32 (128 * 1000 / scanInfo_measurementsCount (scanInfo e))
               * idx) / 1000) in
    let '(old, e) := hist_get i e in
    let e := if (old <? rssi) || isListening e then hist_set i rssi e else e in
    hist_set ((i + 1) mod 128) 0 e
  else hist_set idx rssi e.

(** [static void Measure()]; [rssi] is the value [GetRssi()] returns. *)
Definition Measure (rssi : Z) (e : Engine) : Engine :=
  let e := set_scanInfo (set_scanInfo_rssi rssi (scanInfo e)) e in
  SetRssiHistory (scanInfo_i (scanInfo e)) rssi e.

(** [static bool IsBlacklisted(uint16_t idx)] *)
Definition IsBlacklisted (idx : Z) (e : Engine) : bool :=
  negb (blacklistFreqsIdx e =? 0)
  && existsb (fun b => b =? idx) (blacklistFreqs e).

(** *** Waterfall *)

Definition valid_sample (rssi : Z) : bool :=
  negb (rssi =? RSSI_MAX_VALUE) && negb (rssi =? 0).

(** The locals of the first loop of [UpdateWaterfall]. *)
Record WaterfallStats := mkStats {
  minRssi : Z;
  maxRssi : Z;
  sumRssi : Z;
  validSamples : Z
}.

Definition stats_step (s : WaterfallStats) (rssi : Z) : WaterfallStats :=
  if valid_sample rssi then
    {| minRssi := if rssi <? minRssi s then rssi else minRssi s;
       maxRssi := if rssi >? maxRssi s then rssi else maxRssi s;
       sumRssi := u32 (sumRssi s + rssi);
       validSamples := u16 (validSamples s + 1) |}
  else s.

Definition waterfall_stats (hist : list Z) : WaterfallStats :=
  fold_left stats_step hist
    {| minRssi := 65535; maxRssi := 0; sumRssi := 0; validSamples := 0 |}.

(** The body of the second loop of [UpdateWaterfall]: the level stored
    for a bin whose history entry is [rssi]. *)
Definition waterfall_level (s : WaterfallStats) (rssi : Z) : Z :=
  if (rssi =? RSSI_MAX_VALUE) || (rssi =? 0) then 0
  else if validSamples s >? 0 then
    let range :=
      u16 (if maxRssi s >? minRssi s then maxRssi s - minRssi s else 1) in
    let normalized := u32 (Z.quot ((rssi - minRssi s) * 15) range) in
    let level := u8 (Z.land normalized 15) in
    if (level >? 0) && (level <? 3) then 3 else level
  else 0.

(** [static void UpdateWaterfall(void)]; [waterfallHistory[x]] is the
    [x]-th row of the list, of [WATERFALL_HISTORY_DEPTH] levels. *)
Definition UpdateWaterfall (e : Engine) : Engine :=
  let e :=
    set_waterfallIndex
      (u8 ((waterfallIndex e + 1) mod WATERFALL_HISTORY_DEPTH)) e in
  let s := waterfall_stats (rssiHistory e) in
  set_waterfallHistory
    (zip_with
       (fun rssi row =>
          <[Z.to_nat (waterfallIndex e) := waterfall_level s rssi]> row)
       (rssiHistory e) (waterfallHistory e)) e.

(** *** Sweep *)

(** [static void Scan()]; [rssi_in] is what [GetRssi()] returns if the
    bin is measured. *)
Definition Scan (rssi_in : Z) (e : Engine) : Engine :=
  let '(v, e) := hist_get (scanInfo_i (scanInfo e)) e in
  if negb (v =? RSSI_MAX_VALUE)
     && negb (ENABLE_SCAN_RANGES cfg
              && IsBlacklisted (scanInfo_i (scanInfo e)) e) then
    let e := SetF (scanInfo_f (scanInfo e)) e in
    let e := Measure rssi_in e in
    let hasSignal :=
      scanInfo_rssi (scanInfo e) >? rssiTriggerLevel (settings e) in
    let e := set_radio (BandLed (scanInfo_f (scanInfo e)) hasSignal :: radio e) e in
    UpdateScanInfo e
  else e.

(** [static void NextScanStep()] *)
Definition NextScanStep (e : Engine) : Engine :=
  let e := set_peak (set_peak_t (u16 (peak_t (peak e) + 1)) (peak e)) e in
  let e := set_scanInfo (set_scanInfo_i (u16 (scanInfo_i (scanInfo e) + 1)) (scanInfo e)) e in
  set_scanInfo
    (set_scanInfo_f (u32 (scanInfo_f (scanInfo e) + scanInfo_scanStep (scanInfo e)))
       (scanInfo e)) e.

(** The test [scanInfo.i < scanInfo.measurementsCount] of [UpdateScan]
    fails: this call ends the sweep. *)
Definition sweep_done (e : Engine) : bool :=
  negb (scanInfo_i (scanInfo e) <? scanInfo_measurementsCount (scanInfo e)).

(** The part of [UpdateScan] after a sweep has ended. *)
Definition UpdateScan_finish (e : Engine) : Engine :=
  let n := scanInfo_measurementsCount (scanInfo e) in
  let e :=
    if Z.shiftr n 7 =? 0 then
      set_rssiHistory
        (take (Z.to_nat n) (rssiHistory e)
         ++ replicate (length (rssiHistory e) - Z.to_nat n)%nat 0) e
    else e in
  let e := set_redrawScreen true e in
  let e := set_preventKeypress false e in
  let e := UpdatePeakInfo e in
  let e := set_scanWaterfallCounter (u8 (scanWaterfallCounter e + 1)) e in
  let e :=
    if scanWaterfallCounter e >=? 2
    then set_scanWaterfallCounter 0 (UpdateWaterfall e)
    else e in
  if IsPeakOverLevel e then TuneToPeak (ToggleRX true e)
  else set_newScanStart true e.

(** [static void UpdateScan()] *)
Definition UpdateScan (rssi_in : Z) (e : Engine) : Engine :=
  let e := Scan rssi_in e in
  if sweep_done e then UpdateScan_finish e else NextScanStep e.

(** *** Listening *)

(** The measurement of [UpdateListening]: on the spectrum screen with
    the scan filter and a waterfall line every second time, otherwise
    plain. *)
Definition UpdateListening_measure (rssi_in : Z) (e : Engine) : Engine :=
  match currentState e with
  | SPECTRUM =>
      let e := set_radio (Reg43Scan :: radio e) e in
      let e := Measure rssi_in e in
      let e := set_radio (Reg43Listen :: radio e) e in
      let e :=
        set_listenWaterfallCounter (u8 (listenWaterfallCounter e + 1)) e in
      if listenWaterfallCounter e >=? 2
      then set_listenWaterfallCounter 0 (UpdateWaterfall e)
      else e
  | _ => Measure rssi_in e
  end.

(** The listen timer of [UpdateListening] after the tail detector (or,
    without it, the still screen) has been looked at. *)
Definition UpdateListening_timer (tail : bool) (e : Engine) : Engine :=
  if ENABLE_FEAT_N7SIX_SPECTRUM cfg then
    if tail then set_listenT 0 e else e
  else
    match currentState e with
    | STILL => set_listenT 0 e
    | _ => e
    end.

(** [static void UpdateListening()]; [tail] is what [checkIfTailFound()]
    returns (read only when [ENABLE_FEAT_N7SIX_SPECTRUM] is set), [rssi_in]
    what [GetRssi()] returns. *)
Definition UpdateListening (tail : bool) (rssi_in : Z) (e : Engine) : Engine :=
  let e := set_preventKeypress false e in
  let tailFound := ENABLE_FEAT_N7SIX_SPECTRUM cfg && tail in
  let e := UpdateListening_timer tail e in
  if negb (listenT e =? 0) then
    let e := set_listenT (u16 (listenT e - 1)) e in
    set_radio (DelayMs 1 :: radio e) e
  else
    let e := UpdateListening_measure rssi_in e in
    let e := set_peak (set_peak_rssi (scanInfo_rssi (scanInfo e)) (peak e)) e in
    let e := set_redrawScreen true e in
    if (IsPeakOverLevel e && negb tailFound) || monitorMode e then
      set_listenT (if ENABLE_FEAT_N7SIX_SPECTRUM cfg then 100 else 1000) e
    else ResetScanStats (ToggleRX false e).

(** The branch of [Tick] that runs next: [UpdateListening] (signal lock),
    [UpdateScan] (sweep), [UpdateStill] (monitor) or none (frequency
    entry). *)
Inductive Mode := Sweep | SignalLock | Monitor | FrequencyEntry.

Definition mode (e : Engine) : Mode :=
  match currentState e with
  | FREQ_INPUT => FrequencyEntry
  | SPECTRUM => if isListening e then SignalLock else Sweep
  | STILL => if isListening e then SignalLock else Monitor
  end.

(** *** Trigger level set by key *)

(** [static void ClampRssiTriggerLevel()] *)
Definition ClampRssiTriggerLevel (e : Engine) : Engine :=
  set_settings
    (set_rssiTriggerLevel
       (u16 (clamp (rssiTriggerLevel (settings e))
               (dbm2rssi x (dbMin (settings e)))
               (dbm2rssi x (dbMax (settings e)))))
       (settings e)) e.

(** [static void UpdateRssiTriggerLevel(bool inc)] *)
Definition UpdateRssiTriggerLevel (inc : bool) (e : Engine) : Engine :=
  let level := rssiTriggerLevel (settings e) in
  let e :=
    set_settings
      (set_rssiTriggerLevel (u16 (if inc then level + 2 else level - 2))
         (settings e)) e in
  let e := ClampRssiTriggerLevel e in
  set_redrawStatus true (set_redrawScreen true e).

(** [static void UpdateDBMax(bool inc)] *)
Definition UpdateDBMax (inc : bool) (e : Engine) : Engine :=
  let s := settings e in
  if inc && (dbMax s <? 10) then
    let e := set_settings (set_dbMax (dbMax s + 1) s) e in
    let e := ClampRssiTriggerLevel e in
    let e := set_redrawScreen true (set_redrawStatus true e) in
    set_radio (DelayMs 20 :: radio e) e
  else if negb inc && (dbMax s >? dbMin s) then
    let e := set_settings (set_dbMax (dbMax s - 1) s) e in
    let e := ClampRssiTriggerLevel e in
    let e := set_redrawScreen true (set_redrawStatus true e) in
    set_radio (DelayMs 20 :: radio e) e
  else e.

(** A sweep driven by [Tick]: one [UpdateScan] per reading, oldest first. *)
Definition run_scan (readings : list Z) (e : Engine) : Engine :=
  fold_left (fun e r => UpdateScan r e) readings e.

End Spectrum.

(** *** Reading the waterfall back

    [DrawWaterfall] shows, on the line [y_offset] below the newest one,
    the column [historyRow] of [waterfallHistory]:
    [historyRow = (int8_t)waterfallIndex - (int8_t)y_offset;
     if (historyRow < 0) historyRow += WATERFALL_HISTORY_DEPTH;] *)

Definition historyRow (y_offset : Z) (e : Engine) : Z :=
  let r := waterfallIndex e - y_offset in
  if r <? 0 then r + WATERFALL_HISTORY_DEPTH else r.

(** [waterfallHistory[x][historyRow]], the level of bin [x] at the age
    [y_offset]. *)
Definition waterfall_read (y_offset : Z) (x : nat) (e : Engine) : option Z :=
  row ← waterfallHistory e !! x; row !! Z.to_nat (historyRow y_offset e).

(** One committed waterfall line: the sweep [hist] is in [rssiHistory]
    when [UpdateWaterfall] runs. *)
Definition push_sweep (e : Engine) (hist : list Z) : Engine :=
  UpdateWaterfall (set_rssiHistory hist e).

(** ** Reference definitions

    What the properties below compare the engine with. *)

(** The level [AutoTriggerLevel] is expected to leave when the level it
    finds is not the sentinel: one step of 1 to 3 units towards the
    target, held when the target is at most 4 units below. *)
Definition ramp (level target : Z) : Z :=
  if target >? level then level + ramp_step (s16 (target - level))
  else if target <? level - 4 then level - ramp_step (s16 (level - target))
  else level.

(** Smallest and largest valid sample of a sweep. *)
Definition sweepMin (hist : list Z) : Z :=
  foldr Z.min 65535 (filter (fun r => Is_true (valid_sample r)) hist).

Definition sweepMax (hist : list Z) : Z :=
  foldr Z.max 0 (filter (fun r => Is_true (valid_sample r)) hist).

(** [(rssi - sweepMin) * 15 / max(1, sweepMax - sweepMin)], 1 and 2
    raised to 3, and 0 for an empty or skipped bin. *)
Definition quantized_level (hist : list Z) (rssi : Z) : Z :=
  if valid_sample rssi then
    let q := (rssi - sweepMin hist) * 15 / Z.max 1 (sweepMax hist - sweepMin hist) in
    if (1 <=? q) && (q <=? 2) then 3 else q
  else 0.

(** The index of the first reading of register 0x63 that lets the
    polling loop of [GetRssi] go. *)
Definition first_ready (reads : nat -> Z) (k : nat) : Prop :=
  Z.land (reads k) 255 < 255
  /\ forall j, (j < k)%nat -> 255 <= Z.land (reads j) 255.

(** The sample [GetRssi] returns once the loop has ended. *)
Definition GetRssi_sample (cfg : Config) (hw : Bk4819) (modulation : Z) : Z :=
  if ENABLE_AM_FIX cfg && (modulation =? MODULATION_AM) && gSetting_AM_fix hw
  then u16 (u16 (rssiReg hw) + AM_fix_gain_diff hw * 2)
  else u16 (rssiReg hw).

(** Well-formed buffers: [rssiHistory] has its 128 16-bit entries and
    [waterfallHistory] its 128 rows of 16 levels. *)
Definition buffers_ok (e : Engine) : Prop :=
  length (rssiHistory e) = 128%nat
  /\ Forall is_u16 (rssiHistory e)
  /\ length (waterfallHistory e) = 128%nat
  /\ Forall (fun row => length row = 16%nat) (waterfallHistory e).

(** ** States used in examples *)

(** The enumerators of [settings.stepsCount], as [128 >> stepsCount]
    reads them. *)
Definition STEPS_128 : Z := 0.
Definition STEPS_64 : Z := 1.

(** A build without optional features, and one with all of them. *)
Definition cfg_plain : Config :=
  {| ENABLE_SCAN_RANGES := false; ENABLE_FEAT_N7SIX_SPECTRUM := false;
     ENABLE_AM_FIX := false; SPECTRUM_AUTOMATIC_SQUELCH := false |}.

Definition cfg_full : Config :=
  {| ENABLE_SCAN_RANGES := true; ENABLE_FEAT_N7SIX_SPECTRUM := true;
     ENABLE_AM_FIX := true; SPECTRUM_AUTOMATIC_SQUELCH := true |}.

(** A band without correction; the step table is an example (the header
    that defines it is not among the sources): 25 kHz at index 10. *)
Definition extern0 : Extern :=
  {| dBmCorr := 0;
     scanStepValues := [1; 10; 50; 100; 250; 500; 625; 833; 1000; 1250;
                        2500; 10000];
     S_STEP_2_5kHz := 4;
     gScanRangeStart := 0;
     gScanRangeStop := 0 |}.

(** The initialiser of [settings]. *)
Definition settings0 : SpectrumSettings :=
  {| stepsCount := STEPS_64; scanStepIndex := 10; rssiTriggerLevel := 150;
     listenBw := 0; modulationType := 0;
     dbMin := DISPLAY_DBM_MIN; dbMax := DISPLAY_DBM_MAX |}.

(** The globals as [APP_RunSpectrum] leaves them before [RelaunchScan]:
    receiver off, buffers cleared, tuned to 145 MHz. *)
Definition engine0 : Engine :=
  {| settings := settings0;
     scanInfo := mkScanInfo 0 0 0 0 0 0 0 0 0;
     peak := mkPeakInfo 0 0 0 0;
     isListening := false; monitorMode := false;
     redrawStatus := true; redrawScreen := true;
     newScanStart := true; preventKeypress := true;
     audioState := false; currentState := SPECTRUM;
     fMeasure := 14500000; currentFreq := 14500000;
     rssiHistory := replicate 128 0;
     pastEnd := fun _ => 0;
     waterfallHistory := replicate 128 (replicate 16 0);
     waterfallIndex := 0; listenT := 0;
     scanWaterfallCounter := 0; listenWaterfallCounter := 0;
     blacklistFreqs := replicate 15 0; blacklistFreqsIdx := 0;
     radio := []; accesses := [] |}.

(** [engine0] with a given trigger level and a given sweep maximum. *)
Definition engine_with (level rssiMax : Z) : Engine :=
  set_scanInfo (set_scanInfo_rssiMax rssiMax (scanInfo engine0))
    (set_settings (set_rssiTriggerLevel level settings0) engine0).

(** A radio whose register 0x63 never leaves 255. *)
Definition radio_stuck : Bk4819 :=
  {| reg63 := fun _ => 255; rssiReg := 100;
     gSetting_AM_fix := false; AM_fix_gain_diff := 0 |}.

(** A radio whose register 0x63 reads 255 twice, then 12. *)
Definition radio_ready_after_2 : Bk4819 :=
  {| reg63 := fun k => if (k <? 2)%nat then 255 else 12; rssiReg := 100;
     gSetting_AM_fix := false; AM_fix_gain_diff := 0 |}.


(** ** The second variant of the file

    The repository holds a second variant of spectrum.c (part_000).  It
    differs in the trigger estimator and in the lock test; these two
    functions are embedded here so that the properties can be checked
    against both variants. *)

Module Part000.

(** [static bool IsPeakOverLevel()] of the variant: while listening the
    threshold is 4 below the trigger level. *)
Definition IsPeakOverLevel (e : Engine) : bool :=
  let effectiveThreshold :=
    u16 (if isListening e
         then rssiTriggerLevel (settings e) - 4
         else rssiTriggerLevel (settings e)) in
  peak_rssi (peak e) >? effectiveThreshold.

(** [static void AutoTriggerLevel()] of the variant: one unit per call
    towards the noise floor plus 12, never below 40. *)
Definition AutoTriggerLevel (e : Engine) : Engine :=
  let noiseFloor := scanInfo_rssiMin (scanInfo e) in
  let targetTrigger := u16 (noiseFloor + 12) in
  let level := rssiTriggerLevel (settings e) in
  if level =? RSSI_MAX_VALUE then
    set_settings (set_rssiTriggerLevel (u16 (targetTrigger + 20)) (settings e)) e
  else
    let level :=
      if targetTrigger >? level then u16 (level + 1)
      else if targetTrigger <? level then u16 (level - 1)
      else level in
    let level := if level <? 40 then 40 else level in
    set_settings (set_rssiTriggerLevel level (settings e)) e.

(** The test at the end of [UpdateListening], the same in both variants
    but for [IsPeakOverLevel]: the lock is kept when it holds. *)
Definition keeps_lock (tailFound : bool) (e : Engine) : bool :=
  (IsPeakOverLevel e && negb tailFound) || monitorMode e.

End Part000.

(** ** Auxiliary definitions of the proofs *)

(** What a write to [rssiHistory] leaves alone. *)
Definition listen_frame (e e' : Engine) : Prop :=
  scanInfo e' = scanInfo e
  /\ settings e' = settings e
  /\ isListening e' = isListening e
  /\ monitorMode e' = monitorMode e
  /\ currentState e' = currentState e.

(** The number of measurements written to [rssiHistory]. *)
Fixpoint count_writes (l : list HistAccess) : nat :=
  match l with
  | [] => O
  | HistWrite _ _ :: l => S (count_writes l)
  | HistRead _ :: l => count_writes l
  end.

(** The listen timer of [UpdateListening] is at zero once the tail
    detector (or, without it, the still screen) has been looked at. *)
Definition listen_timer_expired (cfg : Config) (tail : bool) (e : Engine) : bool :=
  if ENABLE_FEAT_N7SIX_SPECTRUM cfg then tail || (listenT e =? 0)
  else match currentState e with
       | STILL => true
       | _ => listenT e =? 0
       end.

(** A sweep as [rssiHistory] holds it. *)
Definition sweep_ok (hist : list Z) : Prop :=
  length hist = 128%nat /\ Forall is_u16 hist.

(** What one measurement leaves alone: the step index, the step count,
    the held peak, the listening flag, the trigger level, the size of
    [rssiHistory], the screen and the monitor flag. *)
Definition sweep_frame (e e' : Engine) : Prop :=
  scanInfo_i (scanInfo e') = scanInfo_i (scanInfo e)
  /\ scanInfo_measurementsCount (scanInfo e')
     = scanInfo_measurementsCount (scanInfo e)
  /\ peak e' = peak e
  /\ isListening e' = isListening e
  /\ rssiTriggerLevel (settings e') = rssiTriggerLevel (settings e)
  /\ length (rssiHistory e') = length (rssiHistory e)
  /\ currentState e' = currentState e
  /\ monitorMode e' = monitorMode e.

(** ** More states used in examples *)

(** [engine0] set to 128 steps. *)
Definition engine128 : Engine :=
  set_settings (mkSettings STEPS_128 10 150 0 0 DISPLAY_DBM_MIN DISPLAY_DBM_MAX)
    engine0.

(** A sweep of 128 steps about to end ([scanInfo.i] is 128) in a build
    with scan ranges, where bin 128 is on the blacklist and the memory
    after [rssiHistory] holds 0. *)
Definition engine_bin128_blacklisted : Engine :=
  {| settings := settings engine128;
     scanInfo := mkScanInfo 100 100 100 128 0 14820000 14500000 2500 128;
     peak := mkPeakInfo 128 0 0 0;
     isListening := false; monitorMode := false;
     redrawStatus := true; redrawScreen := true;
     newScanStart := false; preventKeypress := true;
     audioState := false; currentState := SPECTRUM;
     fMeasure := 14817500; currentFreq := 14500000;
     rssiHistory := replicate 128 100;
     pastEnd := fun _ => 0;
     waterfallHistory := replicate 128 (replicate 16 0);
     waterfallIndex := 0; listenT := 0;
     scanWaterfallCounter := 0; listenWaterfallCounter := 0;
     blacklistFreqs := 128 :: replicate 14 0; blacklistFreqsIdx := 1;
     radio := []; accesses := [] |}.

(** A peak held at 146525000 with rssi 200 and age 1023 under a sweep
    maximum of 180 and a trigger level of 150: not yet stale, not
    beaten.  The sweep is at its end, 64 steps of 25 kHz further up. *)
Definition engine_held_peak : Engine :=
  set_scanInfo (mkScanInfo 170 90 180 64 3 146685000 146532500 2500 64)
    (set_peak (mkPeakInfo 1023 200 146525000 10) engine0).

(** Locked on a signal: listening, listen timer at 0, trigger level 150. *)
Definition engine_listening : Engine := set_isListening true engine0.

(** An example sweep: bins at 100, a peak of 200, an empty bin, a
    skipped bin and a faint signal at 110. *)
Definition sweep_example : list Z :=
  [100; 200; 0; 65535; 110] ++ replicate 123 100.

(** ** The rest of the analyzer

    The functions of spectrum.c around the sweep engine: persistence of
    the settings, the blacklist, the key handlers, the keyboard
    debouncing, the frequency entry, the still screen and the drawing
    scale. *)

(** Assignments to fields that the sweep engine itself never writes. *)
Definition set_scanStepIndex (v : Z) (r : SpectrumSettings) : SpectrumSettings :=
  mkSettings (stepsCount r) v (rssiTriggerLevel r) (listenBw r)
    (modulationType r) (dbMin r) (dbMax r).

Definition set_stepsCount (v : Z) (r : SpectrumSettings) : SpectrumSettings :=
  mkSettings v (scanStepIndex r) (rssiTriggerLevel r) (listenBw r)
    (modulationType r) (dbMin r) (dbMax r).

Definition set_listenBw (v : Z) (r : SpectrumSettings) : SpectrumSettings :=
  mkSettings (stepsCount r) (scanStepIndex r) (rssiTriggerLevel r) v
    (modulationType r) (dbMin r) (dbMax r).

Definition set_blacklist (freqs : list Z) (idx : Z) (r : Engine) : Engine :=
  {| settings := settings r; scanInfo := scanInfo r; peak := peak r;
     isListening := isListening r; monitorMode := monitorMode r;
     redrawStatus := redrawStatus r; redrawScreen := redrawScreen r;
     newScanStart := newScanStart r; preventKeypress := preventKeypress r;
     audioState := audioState r; currentState := currentState r;
     fMeasure := fMeasure r; currentFreq := currentFreq r;
     rssiHistory := rssiHistory r; pastEnd := pastEnd r;
     waterfallHistory := waterfallHistory r;
     waterfallIndex := waterfallIndex r; listenT := listenT r;
     scanWaterfallCounter := scanWaterfallCounter r;
     listenWaterfallCounter := listenWaterfallCounter r;
     blacklistFreqs := freqs; blacklistFreqsIdx := idx;
     radio := radio r; accesses := accesses r |}.

Definition set_currentFreq (v : Z) (r : Engine) : Engine :=
  {| settings := settings r; scanInfo := scanInfo r; peak := peak r;
     isListening := isListening r; monitorMode := monitorMode r;
     redrawStatus := redrawStatus r; redrawScreen := redrawScreen r;
     newScanStart := newScanStart r; preventKeypress := preventKeypress r;
     audioState := audioState r; currentState := currentState r;
     fMeasure := fMeasure r; currentFreq := v;
     rssiHistory := rssiHistory r; pastEnd := pastEnd r;
     waterfallHistory := waterfallHistory r;
     waterfallIndex := waterfallIndex r; listenT := listenT r;
     scanWaterfallCounter := scanWaterfallCounter r;
     listenWaterfallCounter := listenWaterfallCounter r;
     blacklistFreqs := blacklistFreqs r;
     blacklistFreqsIdx := blacklistFreqsIdx r;
     radio := radio r; accesses := accesses r |}.

(** *** Settings kept in flash: [LoadSettings], [SaveSettings]

    Both functions exist in builds with [ENABLE_FEAT_N7SIX_SPECTRUM].
    The 8 bytes that [PY25Q16_ReadBuffer(0x00c000, data, 8)] reads and
    [PY25Q16_WriteBuffer] writes back are the list [flash]; a byte that
    is not read stays at the 0 that [data] starts with. *)

Definition BK4819_FILTER_BW_WIDE : Z := 0.
Definition BK4819_FILTER_BW_NARROWER : Z := 2.
Definition STEPS_16 : Z := 3.

(** [static void LoadSettings(void)]; [S_STEP_25_0kHz] is the enumerator
    of that name. *)
Definition LoadSettings (S_STEP_25_0kHz : Z) (flash : list Z)
    (s : SpectrumSettings) : SpectrumSettings :=
  let data3 := u8 (default 0 (flash !! 3%nat)) in
  let s := set_scanStepIndex (Z.shiftr (Z.land data3 240) 4) s in
  let s := if scanStepIndex s >? 14 then set_scanStepIndex S_STEP_25_0kHz s
           else s in
  let s := set_stepsCount (Z.shiftr (Z.land (Z.land data3 15) 12) 2) s in
  let s := if stepsCount s >? 3 then set_stepsCount STEPS_64 s else s in
  let s := set_listenBw (Z.land (Z.land data3 15) 3) s in
  if listenBw s >? 2 then set_listenBw BK4819_FILTER_BW_WIDE s else s.

(** [static void SaveSettings(void)]: the new content of the 8 bytes. *)
Definition SaveSettings (flash : list Z) (s : SpectrumSettings) : list Z :=
  <[3%nat := u8 (Z.lor (Z.lor (Z.shiftl (scanStepIndex s) 4)
                           (Z.shiftl (stepsCount s) 2))
                    (listenBw s))]> flash.

(** *** Drawing scale: [Rssi2PX], [Rssi2Y] *)

(** [uint8_t Rssi2PX(uint16_t rssi, uint8_t pxMin, uint8_t pxMax)] *)
Definition Rssi2PX (x : Extern) (s : SpectrumSettings)
    (rssi pxMin pxMax : Z) : Z :=
  let DB_MIN := Z.shiftl (dbMin s) 1 in
  let DB_MAX := Z.shiftl (dbMax s) 1 in
  let DB_RANGE := DB_MAX - DB_MIN in
  let PX_RANGE := u8 (pxMax - pxMin) in
  let dbm := clamp (Z.shiftl (Rssi2DBm x rssi) 1) DB_MIN DB_MAX in
  u8 (Z.quot ((dbm - DB_MIN) * PX_RANGE + Z.quot DB_RANGE 2) DB_RANGE + pxMin).

(** [uint8_t Rssi2Y(uint16_t rssi)]; [DrawingEndY] is the constant of
    that name. *)
Definition Rssi2Y (DrawingEndY : Z) (x : Extern) (s : SpectrumSettings)
    (rssi : Z) : Z :=
  u8 (DrawingEndY - Rssi2PX x s rssi 0 DrawingEndY).

(** *** Blacklist *)

(** [static void Blacklist()] *)
Definition Blacklist (cfg : Config) (e : Engine) : Engine :=
  let e :=
    if ENABLE_SCAN_RANGES cfg then
      set_blacklist
        (<[Z.to_nat (blacklistFreqsIdx e mod BLACKLIST_MAX_ENTRIES)
           := peak_i (peak e)]> (blacklistFreqs e))
        (u8 (blacklistFreqsIdx e + 1)) e
    else e in
  let e := SetRssiHistory cfg (peak_i (peak e)) RSSI_MAX_VALUE e in
  let e := ResetPeak e in
  let e := ToggleRX cfg false e in
  ResetScanStats e.

(** [static void ResetBlacklist()] *)
Definition ResetBlacklist (cfg : Config) (e : Engine) : Engine :=
  let e :=
    set_rssiHistory
      (map (fun v => if v =? RSSI_MAX_VALUE then 0 else v)
         (take 128 (rssiHistory e)) ++ drop 128 (rssiHistory e)) e in
  if ENABLE_SCAN_RANGES cfg
  then set_blacklist (replicate (length (blacklistFreqs e)) 0) 0 e
  else e.

(** [Blacklist()] called with the held peak at bin [p], and for one bin
    after the other. *)
Definition Blacklist_at (cfg : Config) (p : Z) (e : Engine) : Engine :=
  Blacklist cfg (set_peak (set_peak_i p (peak e)) e).

Definition Blacklist_bins (cfg : Config) (ps : list Z) (e : Engine) : Engine :=
  fold_left (fun e p => Blacklist_at cfg p e) ps e.

(** *** Key handlers *)

(** [static void ToggleListeningBW()] *)
Definition ToggleListeningBW (e : Engine) : Engine :=
  let e :=
    if listenBw (settings e) =? BK4819_FILTER_BW_NARROWER
    then set_settings (set_listenBw BK4819_FILTER_BW_WIDE (settings e)) e
    else set_settings (set_listenBw (listenBw (settings e) + 1) (settings e)) e in
  set_redrawScreen true e.

(** [static void ToggleStepsCount()]; the first component is
    [settings.frequencyChangeStep]. *)
Definition ToggleStepsCount (cfg : Config) (x : Extern) (e : Engine)
    : Z * Engine :=
  let e :=
    if stepsCount (settings e) =? STEPS_128
    then set_settings (set_stepsCount STEPS_16 (settings e)) e
    else set_settings (set_stepsCount (stepsCount (settings e) - 1) (settings e)) e in
  let frequencyChangeStep := Z.shiftr (GetBW cfg x e) 1 in
  let e := RelaunchScan cfg x e in
  let e := ResetBlacklist cfg e in
  (frequencyChangeStep, set_redrawScreen true e).

(** [static void UpdateCurrentFreq(bool inc)]; [F_MIN] and [F_MAX] are
    the ends of [frequencyBandTable], [frequencyChangeStep] the field of
    [settings]. *)
Definition UpdateCurrentFreq (cfg : Config) (x : Extern) (F_MIN F_MAX : Z)
    (frequencyChangeStep : Z) (inc : bool) (e : Engine) : Engine :=
  if inc && (currentFreq e <? F_MAX) then
    let e := set_currentFreq (u32 (currentFreq e + frequencyChangeStep)) e in
    set_redrawScreen true (ResetBlacklist cfg (RelaunchScan cfg x e))
  else if negb inc && (currentFreq e >? F_MIN) then
    let e := set_currentFreq (u32 (currentFreq e - frequencyChangeStep)) e in
    set_redrawScreen true (ResetBlacklist cfg (RelaunchScan cfg x e))
  else e.

(** *** Still screen: [UpdateStill]

    The first component is [displayRssi]; [rssi_in] is what [GetRssi()]
    returns. *)
Definition UpdateStill (cfg : Config) (rssi_in : Z) (displayRssi : Z)
    (e : Engine) : Z * Engine :=
  let e := Measure cfg rssi_in e in
  let displayRssi :=
    if displayRssi =? 0 then scanInfo_rssi (scanInfo e)
    else u16 (Z.quot (displayRssi * 9 + scanInfo_rssi (scanInfo e)) 10) in
  let e := set_redrawScreen true e in
  let e := set_preventKeypress false e in
  let e := set_peak (set_peak_rssi (scanInfo_rssi (scanInfo e)) (peak e)) e in
  let e := AutoTriggerLevel e in
  (displayRssi,
   if IsPeakOverLevel e || monitorMode e then ToggleRX cfg true e else e).

(** *** Keyboard: the debouncing of [HandleUserInput] *)

(** [KeyboardState kbd] (declared in app/spectrum.h, which is not among
    the sources; the counter is taken as 8 bits wide, and stays within
    0..16 whatever its width). *)
Record KeyboardState := mkKbd {
  kbd_current : Z;
  kbd_prev : Z;
  kbd_counter : Z
}.

(** [static bool HandleUserInput()] up to the dispatch: [key] is what
    [GetKey()] returns, [KEY_INVALID] the enumerator of that name.  The
    second component tells whether the key handler of the current screen
    is called with [kbd.current]; the 20 ms delay of a repeated key is
    left out. *)
Definition HandleUserInput (KEY_INVALID : Z) (key : Z) (k : KeyboardState)
    : KeyboardState * bool :=
  let k := mkKbd key (kbd_current k) (kbd_counter k) in
  let k :=
    if negb (kbd_current k =? KEY_INVALID) && (kbd_current k =? kbd_prev k)
    then
      if kbd_counter k <? 16
      then mkKbd (kbd_current k) (kbd_prev k) (u8 (kbd_counter k + 1))
      else mkKbd (kbd_current k) (kbd_prev k) (u8 (kbd_counter k - 3))
    else mkKbd (kbd_current k) (kbd_prev k) 0 in
  (k, (kbd_counter k =? 3) || (kbd_counter k =? 16)).

(** The polls of one key sequence: the state after them, and for each
    poll whether it called the key handler. *)
Fixpoint poll_keys (KEY_INVALID : Z) (keys : list Z) (k : KeyboardState)
    : KeyboardState * list bool :=
  match keys with
  | [] => (k, [])
  | key :: keys =>
      let '(k, fired) := HandleUserInput KEY_INVALID key k in
      let '(k', rest) := poll_keys KEY_INVALID keys k in
      (k', fired :: rest)
  end.

(** *** A key that is held

    The counter of [HandleUserInput] after poll number [j] (from 0) of a
    key that stays pressed, and the polls that call the key handler: the
    fourth, the seventeenth, and every fourth one after it. *)
Definition held_counter (j : Z) : Z :=
  if j <=? 16 then j else 13 + (j - 17) mod 4.

Definition held_fires (j : Z) : bool :=
  (j =? 3) || ((16 <=? j) && ((j - 16) mod 4 =? 0)).

(** *** Frequency entry: [ResetFreqInput], [UpdateFreqInput]

    The key codes are enumerators of a header that is not among the
    sources; they are taken as parameters. *)
Record Keys := mkKeys {
  KEY_0 : Z;
  KEY_9 : Z;
  KEY_STAR : Z;
  KEY_EXIT : Z
}.

(** The globals of the frequency entry: [freqInputIndex] and
    [freqInputDotIndex] (8 bits), the keys typed so far [freqInputArr],
    the text on display [freqInputString] (characters as their codes)
    and the frequency [tempFreq] (32 bits, in units of 10 Hz). *)
Record FreqEntry := mkFreqEntry {
  freqInputIndex : Z;
  freqInputDotIndex : Z;
  freqInputArr : list Z;
  freqInputString : list Z;
  tempFreq : Z
}.

(** The loop of [UpdateFreqInput] over the digits before the dot, from
    the last one down to the first: [keys] are [freqInputArr[dotIndex-1]]
    down to [freqInputArr[0]]. *)
Definition freq_int_loop (K : Keys) (keys : list Z) (tempFreq : Z) : Z :=
  fst (fold_left
         (fun '(t, base) key => (u32 (t + (key - KEY_0 K) * base),
                                 u32 (base * 10)))
         keys (tempFreq, 100000)).

(** The loop over the digits after the dot, in order. *)
Definition freq_frac_loop (K : Keys) (keys : list Z) (tempFreq : Z) : Z :=
  fst (fold_left
         (fun '(t, base) key => (u32 (t + (key - KEY_0 K) * base), base / 10))
         keys (tempFreq, 10000)).

(** [tempFreq] as the two loops leave it, from 0. *)
Definition freq_value (K : Keys) (arr : list Z) (index dot : Z) : Z :=
  let dotIndex := if dot =? 0 then index else dot in
  let t := freq_int_loop K (rev (take (Z.to_nat dotIndex) arr)) 0 in
  if dotIndex <? index
  then freq_frac_loop K
         (drop (Z.to_nat (dotIndex + 1)) (take (Z.to_nat index) arr)) t
  else t.

(** The first ten characters of [freqInputString] as the loop over
    [i < 10] leaves them: a digit, ['.'] or ['-']. *)
Definition freq_string (K : Keys) (arr : list Z) (index : Z) : list Z :=
  map (fun i =>
         if i <? index then
           let digitKey := default 0 (arr !! Z.to_nat i) in
           if digitKey <=? KEY_9 K then u8 (48 + digitKey - KEY_0 K) else 46
         else 45)
      (seqZ 0 10).

(** [static void UpdateFreqInput(KEY_Code_t key)], with the call of
    [ResetFreqInput] in it; the redraw flag that it sets at the end is
    left out.  The array has 10 entries and the index stays within them
    as long as [KEY_EXIT] is not passed at index 0, which
    [OnKeyDownFreqInput] never does. *)
Definition UpdateFreqInput (K : Keys) (key : Z) (st : FreqEntry) : FreqEntry :=
  if negb (key =? KEY_EXIT K) && (freqInputIndex st >=? 10) then st
  else if (key =? KEY_STAR K)
          && ((freqInputIndex st =? 0) || negb (freqInputDotIndex st =? 0))
  then st
  else
    let dot := if key =? KEY_STAR K then freqInputIndex st
               else freqInputDotIndex st in
    let '(index, dot, arr) :=
      if key =? KEY_EXIT K then
        let index := u8 (freqInputIndex st - 1) in
        (index, (if dot =? index then 0 else dot), freqInputArr st)
      else
        (u8 (freqInputIndex st + 1), dot,
         <[Z.to_nat (freqInputIndex st) := key]> (freqInputArr st)) in
    mkFreqEntry index dot arr
      (freq_string K arr index ++ drop 10 (freqInputString st))
      (freq_value K arr index dot).

(** The keys of one entry, typed in order. *)
Definition type_keys (K : Keys) (keys : list Z) (st : FreqEntry) : FreqEntry :=
  fold_left (fun st key => UpdateFreqInput K key st) keys st.

(** The number that a list of decimal digits writes, and the value of
    the digits after the dot in units of 10 Hz: the first five count,
    the others are dropped. *)
Definition digits_value (ds : list Z) : Z :=
  fold_left (fun a d => 10 * a + d) ds 0.

Definition fraction_value (fs : list Z) : Z :=
  digits_value (take 5 fs) * 10 ^ Z.of_nat (5 - length (take 5 fs)).

(** *** S-meter: [DBm2S] *)

(** The loop of [DBm2S] from index [i] on; [map] is what is left of
    [U8RssiMap]. *)
Fixpoint DBm2S_from (map : list Z) (dbm : Z) (i : Z) : Z :=
  match map with
  | [] => i
  | m :: rest => if dbm >=? m then i else DBm2S_from rest dbm (u8 (i + 1))
  end.

(** [static uint8_t DBm2S(int dbm)]; [U8RssiMap] is a table of a header
    that is not among the sources, of at most 255 entries. *)
Definition DBm2S (U8RssiMap : list Z) (dbm : Z) : Z :=
  let dbm := dbm * -1 in
  DBm2S_from U8RssiMap dbm 0.

(** *** Register menu: [GetRegMenuValue], [SetRegMenuValue] *)

(** [RegisterSpec]: the register, and the offset, mask and step of the
    field in it. *)
Record RegisterSpec := mkRegisterSpec {
  reg_num : Z;
  reg_offset : Z;
  reg_mask : Z;
  reg_inc : Z
}.

(** [static uint16_t GetRegMenuValue(uint8_t st)] for the entry [s] of
    [registerSpecs]; [reg] is what [BK4819_ReadRegister(s.num)]
    returns. *)
Definition GetRegMenuValue (s : RegisterSpec) (reg : Z) : Z :=
  u16 (Z.land (Z.shiftr reg (reg_offset s)) (reg_mask s)).

(** The field value that [SetRegMenuValue] steps to. *)
Definition reg_step (s : RegisterSpec) (add : bool) (v : Z) : Z :=
  if add && (v <=? reg_mask s - reg_inc s) then u16 (v + reg_inc s)
  else if negb add && (v >=? reg_inc s) then u16 (v - reg_inc s)
  else v.

(** What one call of [SetRegMenuValue] does: the call of
    [RADIO_SetupAGC] that it makes through [LockAGC()], with its two
    arguments, the flags [lockAGC] and [redrawScreen] afterwards, and
    the value written to register [s.num]. *)
Record RegMenuEffect := mkRegMenuEffect {
  setup_agc : option (bool * bool);
  lockAGC_after : bool;
  reg_written : Z;
  redraw_after : bool
}.

(** [static void SetRegMenuValue(uint8_t st, bool add)] for the entry
    [s], with [void LockAGC(void)] in it.  The function reads register
    [s.num] twice: through [GetRegMenuValue] for the field value
    ([reg_first]), and once more for the other bits ([reg_second]); in
    between it calls [LockAGC()] when the register is [BK4819_REG_13],
    and [RADIO_SetupAGC], which is not among the sources, may have
    changed the register by then. *)
Definition SetRegMenuValue (BK4819_REG_13 : Z) (s : RegisterSpec) (add : bool)
    (modulation : Z) (lockAGC : bool) (reg_first reg_second : Z)
    : RegMenuEffect :=
  let v := GetRegMenuValue s reg_first in
  let locks := reg_num s =? BK4819_REG_13 in
  let v := reg_step s add v in
  let reg :=
    u16 (Z.land reg_second (Z.lnot (Z.shiftl (reg_mask s) (reg_offset s)))) in
  {| setup_agc :=
       if locks then Some (modulation =? MODULATION_AM, lockAGC) else None;
     lockAGC_after := locks || lockAGC;
     reg_written := u16 (Z.lor reg (Z.shiftl v (reg_offset s)));
     redraw_after := true |}.

(** The entries of [registerSpecs]: [BK4819_REG_13] with the fields
    LNAs, LNA and VGA, [BK4819_REG_3D] with the band-pass filter. *)
Definition registerSpecs (BK4819_REG_13 BK4819_REG_3D : Z) : list RegisterSpec :=
  [ mkRegisterSpec 0 0 0 0;
    mkRegisterSpec BK4819_REG_13 8 3 1;
    mkRegisterSpec BK4819_REG_13 5 7 1;
    mkRegisterSpec BK4819_REG_13 0 7 1;
    mkRegisterSpec BK4819_REG_3D 0 65535 10922 ].

(** Example key codes (the header that defines them is not among the
    sources), and a fresh entry as [FreqInput()] leaves it, over a
    buffer that still holds the keys of an earlier entry. *)
Definition keys0 : Keys := mkKeys 0 9 14 13.

Definition entry0 : FreqEntry :=
  mkFreqEntry 0 0 [4; 3; 3; 14; 5; 0; 0; 0; 0; 0] (replicate 11 45) 0.

(** An entry in progress: the index within the ten keys of the buffer,
    the dot (if any) behind at least one digit and before the index. *)
Definition entry_ok (st : FreqEntry) : Prop :=
  0 <= freqInputIndex st <= 10
  /\ length (freqInputArr st) = 10%nat
  /\ (freqInputDotIndex st = 0
      \/ 1 <= freqInputDotIndex st < freqInputIndex st).

(** * Properties *)

(** ** Arithmetic of the fixed-width conversions *)

Ltac zlia := Z.to_euclidean_division_equations; lia.

(** Case analysis on every integer comparison of the goal. *)
Ltac break_cmp :=
  repeat match goal with
  | |- context [?a >? ?b] => rewrite (Z.gtb_ltb a b)
  | |- context [?a >=? ?b] => rewrite (Z.geb_leb a b)
  | |- context [?a <? ?b] => destruct (Z.ltb_spec a b)
  | |- context [?a <=? ?b] => destruct (Z.leb_spec a b)
  | |- context [?a =? ?b] => destruct (Z.eqb_spec a b)
  end.

Lemma u16_range (v : Z) : is_u16 (u16 v).
Proof. unfold is_u16, u16. zlia. Qed.

Lemma u16_small (v : Z) : is_u16 v -> u16 v = v.
Proof. unfold is_u16, u16. intros. apply Z.mod_small. lia. Qed.

Lemma u8_small (v : Z) : 0 <= v < 256 -> u8 v = v.
Proof. unfold u8. intros. apply Z.mod_small. lia. Qed.

Lemma s16_small (v : Z) : -32768 <= v < 32768 -> s16 v = v.
Proof. unfold s16. intros. rewrite Z.mod_small; lia. Qed.

Lemma s16_sub (a b : Z) : s16 (s16 a - s16 b) = s16 (a - b).
Proof. unfold s16. zlia. Qed.

Lemma clamp_between (v lo hi : Z) :
  lo <= hi -> lo <= clamp v lo hi <= hi.
Proof. unfold clamp. intros. break_cmp; lia. Qed.

Lemma clamp_id (v lo hi : Z) : lo < v < hi -> clamp v lo hi = v.
Proof. unfold clamp. intros. break_cmp; lia. Qed.

Lemma ramp_step_range (d : Z) : 1 <= ramp_step d <= 3.
Proof. unfold ramp_step. break_cmp; lia. Qed.

Lemma ramp_step_le (d : Z) : 1 <= d -> ramp_step d <= d.
Proof. unfold ramp_step. intros. break_cmp; lia. Qed.

(** ** CalibrationMath *)

(** C10. For every raw RSSI (a 16-bit value) and every band correction,
    [dbm2rssi (Rssi2DBm rssi)] is [rssi] with its lowest bit cleared: the
    round trip loses only the bit dropped by the halving, so the result
    is within one unit of [rssi]. *)
Theorem dbm2rssi_Rssi2DBm_roundtrip (x : Extern) (rssi : Z) :
  is_u16 rssi ->
  dbm2rssi x (Rssi2DBm x rssi) = rssi - rssi mod 2
  /\ Z.abs (dbm2rssi x (Rssi2DBm x rssi) - rssi) <= 1.
Proof.
  unfold is_u16, dbm2rssi, Rssi2DBm, u16. intros H. zlia.
Qed.

(** An odd reading: 301 comes back as 300. *)
Lemma dbm2rssi_Rssi2DBm_roundtrip_witness :
  dbm2rssi extern0 (Rssi2DBm extern0 301) = 301 - 301 mod 2
  /\ Z.abs (dbm2rssi extern0 (Rssi2DBm extern0 301) - 301) <= 1.
Proof.
  apply (dbm2rssi_Rssi2DBm_roundtrip extern0 301).
  unfold is_u16. lia.
Defined.

(** ** AdaptiveTriggerEstimator *)

Lemma AutoTrigger_target_low (m : Z) :
  0 <= m <= 65520 -> AutoTrigger_target m = m + 15.
Proof.
  unfold AutoTrigger_target, clamp, u16, RSSI_MAX_VALUE. intros.
  break_cmp; zlia.
Qed.

Lemma AutoTrigger_target_range (m : Z) : is_u16 (AutoTrigger_target m).
Proof.
  unfold AutoTrigger_target. destruct (_ <? _); apply u16_range.
Qed.

Lemma AutoTriggerLevel_level (e : Engine) :
  is_u16 (rssiTriggerLevel (settings e)) ->
  rssiTriggerLevel (settings e) <> RSSI_MAX_VALUE ->
  rssiTriggerLevel (settings (AutoTriggerLevel e))
  = ramp (rssiTriggerLevel (settings e))
         (AutoTrigger_target (scanInfo_rssiMax (scanInfo e))).
Proof.
  intros Hl Hs. unfold AutoTriggerLevel, ramp.
  pose proof (AutoTrigger_target_range (scanInfo_rssiMax (scanInfo e))) as Ht.
  set (t := AutoTrigger_target _) in *.
  set (l := rssiTriggerLevel (settings e)) in *.
  destruct (Z.eqb_spec l RSSI_MAX_VALUE) as [|_]; [contradiction|].
  rewrite !s16_sub. unfold is_u16 in *.
  rewrite (Z.gtb_ltb t l).
  destruct (Z.ltb_spec l t) as [Hlt|Hge].
  - cbn.
    assert (Hstep : 1 <= ramp_step (s16 (t - l)) <= t - l).
    { pose proof (ramp_step_range (s16 (t - l))).
      destruct (Z_lt_ge_dec (t - l) 32768).
      - rewrite s16_small in * by lia.
        pose proof (ramp_step_le (t - l)). lia.
      - lia. }
    rewrite u16_small by (unfold is_u16; lia).
    rewrite (Z.gtb_ltb _ t).
    destruct (Z.ltb_spec t (l + ramp_step (s16 (t - l)))); [lia | reflexivity].
  - destruct (Z.ltb_spec t (l - 4)) as [Hlow|Hhold]; [|reflexivity].
    cbn.
    pose proof (ramp_step_range (s16 (l - t))).
    rewrite u16_small by (unfold is_u16; lia).
    destruct (Z.ltb_spec (l - ramp_step (s16 (l - t))) t); [lia | reflexivity].
Qed.

Lemma ramp_towards (level target : Z) :
  is_u16 level -> is_u16 target ->
  (level < target -> level < ramp level target <= target)
  /\ (target < level - 4 -> target < ramp level target < level)
  /\ (level - 4 <= target <= level -> ramp level target = level)
  /\ Z.abs (ramp level target - level) <= 3.
Proof.
  unfold is_u16, ramp. intros Hl Ht.
  pose proof (ramp_step_range (s16 (target - level))) as Hup.
  pose proof (ramp_step_range (s16 (level - target))) as Hdn.
  assert (Hle : level < target -> ramp_step (s16 (target - level)) <= target - level).
  { intros. destruct (Z_lt_ge_dec (target - level) 32768).
    - rewrite s16_small by lia. apply ramp_step_le. lia.
    - lia. }
  rewrite (Z.gtb_ltb target level).
  destruct (Z.ltb_spec level target); [lia|].
  destruct (Z.ltb_spec target (level - 4)); lia.
Qed.

(** The target of the ramp, written out: the sweep maximum plus 15 as
    long as that fits 16 bits. *)
Lemma AutoTrigger_target_cases (m : Z) :
  is_u16 m ->
  AutoTrigger_target m
  = if m <=? 65520 then m + 15 else if m <=? 65526 then m + 8 else 65535.
Proof.
  unfold is_u16, AutoTrigger_target, clamp, u16, RSSI_MAX_VALUE. intros Hm.
  cbv zeta. rewrite (Z.geb_leb (m + 8) 65535).
  destruct (Z.leb_spec (m + 8) 0); [lia|].
  destruct (Z.leb_spec m 65520).
  - destruct (Z.leb_spec 65535 (m + 8)); [lia|].
    rewrite !Z.mod_small by lia.
    destruct (Z.ltb_spec (m + 8) (m + 15)); lia.
  - replace ((m + 15) mod 65536) with (m + 15 - 65536) by zlia.
    destruct (Z.leb_spec 65535 (m + 8)).
    + rewrite Z.mod_small by lia.
      destruct (Z.ltb_spec 65535 (m + 15 - 65536)); [lia|].
      destruct (Z.leb_spec m 65526); lia.
    + rewrite Z.mod_small by lia.
      destruct (Z.ltb_spec (m + 8) (m + 15 - 65536)); [lia|].
      destruct (Z.leb_spec m 65526); lia.
Qed.

(** C4 (as amended). When the level [l] it finds is not the sentinel,
    [AutoTriggerLevel] moves the trigger one bounded step towards its
    target [t], which is the sweep maximum plus 15 (not the noise floor
    plus 12).  Upwards, whenever the target is above the level, the step
    is 1 for a gap of 1..3, 2 for a gap of 4..6 and 3 for a gap of
    7..32767; downwards, only when the target is more than 4 below the
    level, it is 2 for a gap of 5..6 and 3 for a gap of 7..32767; with
    the target 0..4 below, the level is held.  The gap is formed as a
    signed 16-bit difference, so from 32768 on it is negative there and
    the step is 1.  The level never passes the target and never moves by
    more than 3. *)
Theorem AutoTriggerLevel_ramps_by_bounded_step (e : Engine) (l m t : Z) :
  rssiTriggerLevel (settings e) = l ->
  scanInfo_rssiMax (scanInfo e) = m ->
  is_u16 l -> is_u16 m -> l <> RSSI_MAX_VALUE ->
  t = (if m <=? 65520 then m + 15 else if m <=? 65526 then m + 8 else 65535) ->
  (l < t ->
   rssiTriggerLevel (settings (AutoTriggerLevel e))
   = l + (if t - l <=? 3 then 1
          else if t - l <=? 6 then 2
          else if t - l <? 32768 then 3
          else 1))
  /\ (t < l - 4 ->
      rssiTriggerLevel (settings (AutoTriggerLevel e))
      = l - (if l - t <=? 6 then 2
             else if l - t <? 32768 then 3
             else 1))
  /\ (l - 4 <= t <= l -> rssiTriggerLevel (settings (AutoTriggerLevel e)) = l)
  /\ (l < t -> l < rssiTriggerLevel (settings (AutoTriggerLevel e)) <= t)
  /\ (t < l - 4 -> t < rssiTriggerLevel (settings (AutoTriggerLevel e)) < l)
  /\ Z.abs (rssiTriggerLevel (settings (AutoTriggerLevel e)) - l) <= 3.
Proof.
  intros El Em Hl Hm Hs Et.
  assert (Hlevel : rssiTriggerLevel (settings (AutoTriggerLevel e)) = ramp l t).
  { rewrite <- El in Hl, Hs. rewrite (AutoTriggerLevel_level e Hl Hs).
    rewrite El, Em, (AutoTrigger_target_cases m Hm), Et. reflexivity. }
  rewrite Hlevel.
  assert (Ht : is_u16 t)
    by (subst t; unfold is_u16 in *; break_cmp; lia).
  clear Hlevel El Em Et. unfold is_u16 in *.
  unfold ramp, ramp_step, s16.
  rewrite !Z.gtb_ltb.
  repeat split; intros; break_cmp; zlia.
Qed.

(** The instance of scenario B: level 150, sweep maximum 147, hence
    target 162 and a gap of 12. *)
Lemma AutoTriggerLevel_ramps_by_bounded_step_witness :
  rssiTriggerLevel (settings (AutoTriggerLevel (engine_with 150 147)))
  = 150 + (if 162 - 150 <=? 3 then 1
           else if 162 - 150 <=? 6 then 2
           else if 162 - 150 <? 32768 then 3
           else 1).
Proof.
  refine (proj1 (AutoTriggerLevel_ramps_by_bounded_step (engine_with 150 147)
                   150 147 162 _ _ _ _ _ _) _).
  - reflexivity.
  - reflexivity.
  - unfold is_u16. lia.
  - unfold is_u16. lia.
  - discriminate.
  - reflexivity.
  - lia.
Defined.

(** C4 (as stated) fails: from level 150 with target 162 one update gives
    153, a step of 3, and not 152; this holds both when 162 is the sweep
    maximum plus 15 and when the noise floor is 150 (so that noise floor
    plus 12 is 162) under some sweep maximum such as 200.  The second
    variant of the file, whose target is the noise floor plus 12, gives
    151. *)
Lemma AutoTriggerLevel_150_162_gives_153 :
  AutoTrigger_target 147 = 162
  /\ rssiTriggerLevel (settings (AutoTriggerLevel (engine_with 150 147))) = 153
  /\ rssiTriggerLevel
       (settings
          (AutoTriggerLevel
             (set_scanInfo
                (set_scanInfo_rssiMin 150 (scanInfo (engine_with 150 200)))
                (engine_with 150 200)))) = 153
  /\ rssiTriggerLevel
       (settings
          (Part000.AutoTriggerLevel
             (set_scanInfo
                (set_scanInfo_rssiMin 150 (scanInfo (engine_with 150 200)))
                (engine_with 150 200)))) = 151
  /\ 153 <> 152 /\ 151 <> 152.
Proof. repeat split; try reflexivity; discriminate. Qed.

(** ** Trigger level and the display window *)

Lemma ClampRssiTriggerLevel_level (x : Extern) (e : Engine) :
  dbm2rssi x (dbMin (settings e)) <= dbm2rssi x (dbMax (settings e)) ->
  dbm2rssi x (dbMin (settings e))
  <= rssiTriggerLevel (settings (ClampRssiTriggerLevel x e))
  <= dbm2rssi x (dbMax (settings e)).
Proof.
  intros H. unfold ClampRssiTriggerLevel. cbn.
  pose proof (clamp_between (rssiTriggerLevel (settings e)) _ _ H) as Hc.
  pose proof (u16_range ((dbMin (settings e) + 160 - dBmCorr x) * 2)) as Hlo.
  pose proof (u16_range ((dbMax (settings e) + 160 - dBmCorr x) * 2)) as Hhi.
  fold (dbm2rssi x (dbMin (settings e))) in Hlo.
  fold (dbm2rssi x (dbMax (settings e))) in Hhi.
  unfold is_u16 in *. rewrite u16_small by (unfold is_u16; lia). exact Hc.
Qed.

(** C1 (as amended). The window [[dbm2rssi(dbMin), dbm2rssi(dbMax)]] is
    enforced where the level is changed by key: after
    [ClampRssiTriggerLevel], and so after [UpdateRssiTriggerLevel], the
    level lies in the window whenever the window is not empty.
    [AutoTriggerLevel] does not look at the window: what it assigns is
    only a 16-bit value, the sweep maximum plus 20 (modulo 2^16) when the
    level was the sentinel and one ramp step towards the target
    otherwise. *)
Theorem trigger_level_window (x : Extern) (e : Engine) (inc : bool) :
  is_u16 (rssiTriggerLevel (settings e)) ->
  dbm2rssi x (dbMin (settings e)) <= dbm2rssi x (dbMax (settings e)) ->
  (dbm2rssi x (dbMin (settings e))
   <= rssiTriggerLevel (settings (ClampRssiTriggerLevel x e))
   <= dbm2rssi x (dbMax (settings e)))
  /\ (dbm2rssi x (dbMin (settings e))
      <= rssiTriggerLevel (settings (UpdateRssiTriggerLevel x inc e))
      <= dbm2rssi x (dbMax (settings e)))
  /\ is_u16 (rssiTriggerLevel (settings (AutoTriggerLevel e)))
  /\ (rssiTriggerLevel (settings e) = RSSI_MAX_VALUE ->
      rssiTriggerLevel (settings (AutoTriggerLevel e))
      = u16 (scanInfo_rssiMax (scanInfo e) + 20))
  /\ (rssiTriggerLevel (settings e) <> RSSI_MAX_VALUE ->
      rssiTriggerLevel (settings (AutoTriggerLevel e))
      = ramp (rssiTriggerLevel (settings e))
          (AutoTrigger_target (scanInfo_rssiMax (scanInfo e)))).
Proof.
  intros Hl Hw.
  assert (Hsent : rssiTriggerLevel (settings e) = RSSI_MAX_VALUE ->
                  rssiTriggerLevel (settings (AutoTriggerLevel e))
                  = u16 (scanInfo_rssiMax (scanInfo e) + 20)).
  { intros Hs. unfold AutoTriggerLevel. rewrite Hs. cbn -[u16 clamp].
    pose proof (u16_range (scanInfo_rssiMax (scanInfo e) + 20)) as Hr.
    set (v := u16 (scanInfo_rssiMax (scanInfo e) + 20)) in *.
    unfold is_u16 in Hr. unfold clamp, RSSI_MAX_VALUE.
    destruct (Z.leb_spec v 0); [rewrite u16_small; unfold is_u16; lia|].
    rewrite (Z.geb_leb v 65535).
    destruct (Z.leb_spec 65535 v); rewrite u16_small; unfold is_u16; lia. }
  split; [apply ClampRssiTriggerLevel_level; exact Hw|].
  split.
  { unfold UpdateRssiTriggerLevel. cbn -[ClampRssiTriggerLevel].
    match goal with
    | |- context [ClampRssiTriggerLevel x ?e1] =>
        pose proof (ClampRssiTriggerLevel_level x e1) as Hc
    end.
    cbn -[ClampRssiTriggerLevel] in Hc. apply Hc. exact Hw. }
  split.
  { destruct (Z.eq_dec (rssiTriggerLevel (settings e)) RSSI_MAX_VALUE) as [Hs|Hs].
    - rewrite (Hsent Hs). apply u16_range.
    - rewrite (AutoTriggerLevel_level e Hl Hs).
      pose proof (AutoTrigger_target_range (scanInfo_rssiMax (scanInfo e))) as Ht.
      destruct (ramp_towards _ _ Hl Ht) as (Hup & Hdn & Hhold & _).
      unfold is_u16 in *. lia. }
  split; [exact Hsent|].
  intros Hs. apply AutoTriggerLevel_level; assumption.
Qed.

Lemma trigger_level_window_witness :
  dbm2rssi extern0 (dbMin (settings (engine_with 150 147)))
  <= rssiTriggerLevel
       (settings (ClampRssiTriggerLevel extern0 (engine_with 150 147)))
  <= dbm2rssi extern0 (dbMax (settings (engine_with 150 147))).
Proof.
  apply (trigger_level_window extern0 (engine_with 150 147) true).
  - unfold is_u16; cbn; lia.
  - vm_compute; discriminate.
Defined.

(** C1 (as stated) fails. With the default window [[60, 220]] (dBm -130
    to -50, no band correction): arming from the sentinel under a sweep
    maximum of 300 assigns 320, and a ramp step from 219 assigns 222; a
    whole sweep of 64 bins reading 300, started by [RelaunchScan] in a
    build with [SPECTRUM_AUTOMATIC_SQUELCH], ends with the level at 320.
    None is the sentinel, none is inside the window.  The second variant
    of the file does not clamp either: armed over a noise floor of 250
    it assigns 282. *)
Lemma AutoTriggerLevel_leaves_window :
  dbm2rssi extern0 (dbMin (settings (engine_with 65535 300))) = 60
  /\ dbm2rssi extern0 (dbMax (settings (engine_with 65535 300))) = 220
  /\ rssiTriggerLevel (settings (AutoTriggerLevel (engine_with 65535 300))) = 320
  /\ rssiTriggerLevel (settings (AutoTriggerLevel (engine_with 219 300))) = 222
  /\ rssiTriggerLevel
       (settings
          (Part000.AutoTriggerLevel
             (set_scanInfo
                (set_scanInfo_rssiMin 250 (scanInfo (engine_with 65535 300)))
                (engine_with 65535 300)))) = 282
  /\ rssiTriggerLevel
       (settings
          (run_scan cfg_full extern0 (replicate 65 300)
             (RelaunchScan cfg_full extern0 engine0))) = 320
  /\ dbm2rssi extern0
       (dbMax (settings
          (run_scan cfg_full extern0 (replicate 65 300)
             (RelaunchScan cfg_full extern0 engine0)))) = 220
  /\ ~ (320 <= 220) /\ 320 <> RSSI_MAX_VALUE.
Proof.
  repeat split; try (vm_compute; reflexivity); try discriminate.
  lia.
Qed.

(** ** PeakTracker *)

(** Case analysis on the feature flags and tests of a definition made of
    field updates. *)
Ltac frame :=
  repeat match goal with
  | |- context [if ?b then _ else _] => destruct b
  | |- context [match ?s with SPECTRUM => _ | _ => _ end] => destruct s
  end; try reflexivity.

Lemma peak_AutoTriggerLevel (e : Engine) : peak (AutoTriggerLevel e) = peak e.
Proof. unfold AutoTriggerLevel. frame. Qed.

Lemma scanInfo_AutoTriggerLevel (e : Engine) :
  scanInfo (AutoTriggerLevel e) = scanInfo e.
Proof. unfold AutoTriggerLevel. frame. Qed.

Lemma peak_ToggleRX (cfg : Config) (on : bool) (e : Engine) :
  peak (ToggleRX cfg on e) = peak e.
Proof. unfold ToggleRX, ToggleAudio. cbn. frame. Qed.

Lemma peak_UpdatePeakInfo (e : Engine) :
  peak (UpdatePeakInfo e)
  = if peak_refresh_due e
    then mkPeakInfo 0 (scanInfo_rssiMax (scanInfo e))
           (scanInfo_fPeak (scanInfo e)) (scanInfo_iPeak (scanInfo e))
    else mkPeakInfo (u16 (peak_t (peak e) + 1)) (peak_rssi (peak e))
           (peak_f (peak e)) (peak_i (peak e)).
Proof.
  unfold UpdatePeakInfo, UpdatePeakInfoForce.
  destruct (peak_refresh_due e); [|reflexivity].
  rewrite peak_AutoTriggerLevel. reflexivity.
Qed.

Lemma peak_refresh_due_iff (e : Engine) :
  peak_refresh_due e = true
  <-> (peak_f (peak e) = 0 \/ 1024 <= peak_t (peak e)
       \/ peak_rssi (peak e) < scanInfo_rssiMax (scanInfo e)).
Proof.
  unfold peak_refresh_due. rewrite !orb_true_iff, Z.eqb_eq, Z.geb_le, Z.ltb_lt.
  tauto.
Qed.

(** The completion of a sweep changes the held peak only through
    [UpdatePeakInfo]. *)
Lemma peak_UpdateScan_finish (cfg : Config) (e : Engine) :
  peak (UpdateScan_finish cfg e) = peak (UpdatePeakInfo e).
Proof.
  unfold UpdateScan_finish. cbv zeta.
  set (e0 := if Z.shiftr _ 7 =? 0 then _ else e).
  set (e1 := UpdatePeakInfo _).
  set (e2 := set_scanWaterfallCounter _ e1).
  set (e3 := if scanWaterfallCounter e2 >=? 2 then _ else e2).
  assert (H0 : peak e1 = peak (UpdatePeakInfo e)).
  { subst e1 e0. rewrite !peak_UpdatePeakInfo.
    destruct (Z.shiftr _ 7 =? 0); reflexivity. }
  assert (H3 : peak e3 = peak e1).
  { subst e3 e2. destruct (_ >=? 2); reflexivity. }
  destruct (IsPeakOverLevel e3).
  - unfold TuneToPeak, SetF. cbn -[ToggleRX]. rewrite peak_ToggleRX. congruence.
  - cbn. congruence.
Qed.

(** C3. When a sweep completes, the held peak is refreshed from the sweep
    maximum (rssi, frequency and bin index copied, age reset to 0) exactly
    when it is uninitialised ([peak.f == 0]), or its age has reached 1024,
    or the sweep maximum is strictly above its rssi; otherwise rssi,
    frequency and bin index are kept and the age grows by one. *)
Theorem UpdatePeakInfo_refresh_policy (cfg : Config) (e : Engine) :
  is_u16 (peak_t (peak e)) ->
  ((peak_f (peak e) = 0 \/ 1024 <= peak_t (peak e)
    \/ peak_rssi (peak e) < scanInfo_rssiMax (scanInfo e)) ->
   peak (UpdatePeakInfo e)
   = mkPeakInfo 0 (scanInfo_rssiMax (scanInfo e))
       (scanInfo_fPeak (scanInfo e)) (scanInfo_iPeak (scanInfo e)))
  /\ (~ (peak_f (peak e) = 0 \/ 1024 <= peak_t (peak e)
         \/ peak_rssi (peak e) < scanInfo_rssiMax (scanInfo e)) ->
      peak (UpdatePeakInfo e)
      = mkPeakInfo (peak_t (peak e) + 1) (peak_rssi (peak e))
          (peak_f (peak e)) (peak_i (peak e)))
  /\ peak (UpdateScan_finish cfg e) = peak (UpdatePeakInfo e).
Proof.
  intros Ht. rewrite peak_UpdateScan_finish, peak_UpdatePeakInfo.
  pose proof (peak_refresh_due_iff e) as Hiff.
  destruct (peak_refresh_due e).
  - repeat split; try reflexivity. intros Hn. exfalso. apply Hn, Hiff. reflexivity.
  - repeat split; try reflexivity.
    + intros Hd. apply Hiff in Hd. discriminate.
    + intros Hn. rewrite u16_small; [reflexivity|].
      unfold is_u16 in *. lia.
Qed.

(** The held peak of [engine_held_peak] is kept, and its age becomes
    1024. *)
Lemma UpdatePeakInfo_refresh_policy_witness :
  peak (UpdatePeakInfo engine_held_peak) = mkPeakInfo 1024 200 146525000 10.
Proof.
  refine (proj1 (proj2
            (UpdatePeakInfo_refresh_policy cfg_plain engine_held_peak _)) _).
  - unfold is_u16; cbn; lia.
  - cbn. lia.
Defined.

(** ** SignalAcquisition *)

Lemma GetRssi_poll_spec (reads : nat -> Z) (fuel k0 k : nat) :
  GetRssi_poll fuel reads k0 = Some k
  <-> (k0 <= k < k0 + fuel)%nat
      /\ Z.land (reads k) 255 < 255
      /\ forall j, (k0 <= j < k)%nat -> 255 <= Z.land (reads j) 255.
Proof.
  revert k0. induction fuel as [|fuel IH]; intros k0; cbn.
  - split; [discriminate | lia].
  - rewrite Z.geb_leb.
    destruct (Z.leb_spec 255 (Z.land (reads k0) 255)) as [Hbusy|Hready].
    + rewrite IH. split.
      * intros (Hk & Hr & Hb). split; [lia|]. split; [exact Hr|].
        intros j Hj. destruct (Nat.eq_dec j k0) as [->|]; [exact Hbusy|].
        apply Hb. lia.
      * intros (Hk & Hr & Hb).
        assert (k <> k0) by (intros ->; lia).
        split; [lia|]. split; [exact Hr|]. intros j Hj. apply Hb. lia.
    + split.
      * intros [= <-]. split; [lia|]. split; [exact Hready|]. intros j Hj. lia.
      * intros (Hk & Hr & Hb). f_equal.
        destruct (Nat.eq_dec k k0) as [->|]; [reflexivity|].
        specialize (Hb k0). lia.
Qed.

(** C2 (as amended). [GetRssi] has no timeout: it returns, with the
    sample read from the RSSI register (plus the AM-fix gain where that
    applies), exactly when some reading of register 0x63 has its low
    byte below 255, and it has then waited one 100 us delay for every
    reading before the first such one.  With enough fuel for that many
    readings the model returns; without such a reading it never does. *)
Theorem GetRssi_returns_iff_ready (cfg : Config) (hw : Bk4819)
    (modulation : Z) (fuel : nat) (rssi : Z) (delays : nat) :
  GetRssi cfg fuel hw modulation = Some (rssi, delays)
  <-> ((delays < fuel)%nat
       /\ first_ready (reg63 hw) delays
       /\ rssi = GetRssi_sample cfg hw modulation).
Proof.
  unfold GetRssi, first_ready, GetRssi_sample.
  pose proof (GetRssi_poll_spec (reg63 hw) fuel 0) as Hp.
  destruct (GetRssi_poll fuel (reg63 hw) 0) as [k|].
  - split.
    + intros [= <- <-]. destruct (proj1 (Hp k) eq_refl) as (Hk & Hr & Hb).
      split; [lia|]. split; [split; [exact Hr|] |].
      * intros j Hj. apply Hb. lia.
      * destruct (_ && _ && _); reflexivity.
    + intros (Hk & (Hr & Hb) & ->).
      assert (Some k = Some delays) as [= ->].
      { apply Hp. split; [lia|]. split; [exact Hr|].
        intros j Hj. apply Hb. lia. }
      destruct (_ && _ && _); reflexivity.
  - split; [discriminate|].
    intros (Hk & (Hr & Hb) & _). exfalso.
    assert (None = Some delays) as Habs.
    { apply Hp. split; [lia|]. split; [exact Hr|].
      intros j Hj. apply Hb. lia. }
    discriminate.
Qed.

(** C2 (as stated) fails: when register 0x63 stays at 255, [GetRssi]
    is still polling whatever the fuel, in every build. *)
Lemma GetRssi_polls_forever_when_stuck :
  ~ exists (cfg : Config) (fuel : nat) (modulation : Z) (r : Z * nat),
      GetRssi cfg fuel radio_stuck modulation = Some r.
Proof.
  intros (cfg & fuel & modulation & r & H).
  unfold GetRssi in H.
  destruct (GetRssi_poll fuel (reg63 radio_stuck) 0) as [k|] eqn:Hk;
    [|discriminate].
  apply GetRssi_poll_spec in Hk. destruct Hk as (_ & Hr & _).
  vm_compute in Hr. discriminate.
Qed.

(** ** WaterfallBuffer *)

Lemma foldr_min_init (a b : Z) (l : list Z) :
  foldr Z.min (Z.min a b) l = Z.min a (foldr Z.min b l).
Proof. induction l as [|c l IH]; cbn; [reflexivity|]. rewrite IH. lia. Qed.

Lemma foldr_max_init (a b : Z) (l : list Z) :
  foldr Z.max (Z.max a b) l = Z.max a (foldr Z.max b l).
Proof. induction l as [|c l IH]; cbn; [reflexivity|]. rewrite IH. lia. Qed.

(** The first loop of [UpdateWaterfall] computes the smallest and the
    largest valid sample, and counts the valid samples. *)
Lemma waterfall_stats_fold (hist : list Z) (s : WaterfallStats) :
  0 <= validSamples s ->
  validSamples s + Z.of_nat (length hist) <= 65535 ->
  let s' := fold_left stats_step hist s in
  minRssi s'
  = foldr Z.min (minRssi s) (filter (fun r => Is_true (valid_sample r)) hist)
  /\ maxRssi s'
     = foldr Z.max (maxRssi s) (filter (fun r => Is_true (valid_sample r)) hist)
  /\ validSamples s'
     = validSamples s
       + Z.of_nat (length (filter (fun r => Is_true (valid_sample r)) hist)).
Proof.
  revert s. induction hist as [|r hist IH]; intros s H0 Hlen; cbn -[filter].
  - cbn. repeat split. lia.
  - rewrite filter_cons. cbn [length] in Hlen.
    unfold stats_step at 2 4 6.
    destruct (valid_sample r) eqn:Hv.
    + destruct (decide (Is_true true)) as [_|Hn]; [|exfalso; apply Hn; exact I].
      edestruct (IH (mkStats (if r <? minRssi s then r else minRssi s)
                       (if r >? maxRssi s then r else maxRssi s)
                       (u32 (sumRssi s + r)) (u16 (validSamples s + 1))))
        as (Hmin & Hmax & Hn).
      { cbn. pose proof (u16_range (validSamples s + 1)) as Hr.
        unfold is_u16 in Hr. lia. }
      { cbn. rewrite u16_small by (unfold is_u16; lia). lia. }
      cbn [minRssi maxRssi validSamples] in Hmin, Hmax, Hn.
      rewrite Hmin, Hmax, Hn. cbn [foldr length].
      rewrite u16_small by (unfold is_u16; lia).
      repeat split.
      * rewrite <- foldr_min_init. f_equal.
        destruct (Z.ltb_spec r (minRssi s)); lia.
      * rewrite <- foldr_max_init. f_equal.
        rewrite Z.gtb_ltb. destruct (Z.ltb_spec (maxRssi s) r); lia.
      * lia.
    + destruct (decide (Is_true false)) as [Hn|_]; [destruct Hn|].
      apply IH; lia.
Qed.

Lemma waterfall_stats_spec (hist : list Z) :
  Z.of_nat (length hist) <= 65535 ->
  minRssi (waterfall_stats hist) = sweepMin hist
  /\ maxRssi (waterfall_stats hist) = sweepMax hist
  /\ validSamples (waterfall_stats hist)
     = Z.of_nat (length (filter (fun r => Is_true (valid_sample r)) hist)).
Proof.
  intros Hlen. unfold waterfall_stats, sweepMin, sweepMax.
  edestruct (waterfall_stats_fold hist (mkStats 65535 0 0 0)) as (H1 & H2 & H3);
    [cbn; lia | cbn; lia |].
  cbn [minRssi maxRssi validSamples] in H1, H2, H3.
  rewrite H1, H2, H3. repeat split; lia.
Qed.

Lemma sweepMin_le (hist : list Z) (r : Z) :
  r ∈ hist -> valid_sample r = true -> sweepMin hist <= r.
Proof.
  unfold sweepMin. intros Hin Hv.
  induction Hin as [r hist|r r' hist Hin IH]; rewrite filter_cons.
  - rewrite Hv. destruct (decide (Is_true true)) as [_|Hn];
      [|exfalso; apply Hn; exact I]. cbn [foldr]. lia.
  - specialize (IH Hv). destruct (decide _); cbn [foldr]; lia.
Qed.

Lemma sweepMax_ge (hist : list Z) (r : Z) :
  r ∈ hist -> valid_sample r = true -> r <= sweepMax hist.
Proof.
  unfold sweepMax. intros Hin Hv.
  induction Hin as [r hist|r r' hist Hin IH]; rewrite filter_cons.
  - rewrite Hv. destruct (decide (Is_true true)) as [_|Hn];
      [|exfalso; apply Hn; exact I]. cbn [foldr]. lia.
  - specialize (IH Hv). destruct (decide _); cbn [foldr]; lia.
Qed.

Lemma sweepMin_range (hist : list Z) :
  Forall is_u16 hist -> 0 <= sweepMin hist <= 65535.
Proof.
  unfold sweepMin. induction 1 as [|r hist Hr _ IH]; [cbn; lia|].
  rewrite filter_cons. unfold is_u16 in Hr.
  destruct (decide _); cbn [foldr]; lia.
Qed.

Lemma sweepMax_range (hist : list Z) :
  Forall is_u16 hist -> 0 <= sweepMax hist <= 65535.
Proof.
  unfold sweepMax. induction 1 as [|r hist Hr _ IH]; [cbn; lia|].
  rewrite filter_cons. unfold is_u16 in Hr.
  destruct (decide _); cbn [foldr]; lia.
Qed.

Lemma valid_count_pos (hist : list Z) (r : Z) :
  r ∈ hist -> valid_sample r = true ->
  (0 < length (filter (fun r => Is_true (valid_sample r)) hist))%nat.
Proof.
  intros Hin Hv.
  assert (Hf : r ∈ filter (fun r => Is_true (valid_sample r)) hist).
  { apply list_elem_of_filter. split; [rewrite Hv; exact I | exact Hin]. }
  destruct (filter _ hist); [inversion Hf | cbn; lia].
Qed.

(** The quotient of the second loop stays within 0..15. *)
Lemma quantize_range (lo hi r : Z) :
  lo <= r <= hi -> 0 <= (r - lo) * 15 / Z.max 1 (hi - lo) <= 15.
Proof.
  intros H. split.
  - apply Z.div_pos; lia.
  - apply Z.div_le_upper_bound; [lia|]. nia.
Qed.

Lemma land_15_small (q : Z) : 0 <= q <= 15 -> Z.land q 15 = q.
Proof.
  intros H. change 15 with (Z.ones 4). rewrite Z.land_ones by lia.
  apply Z.mod_small. cbn. lia.
Qed.

(** The level the second loop stores is the quantised level of the
    reference definition. *)
Lemma waterfall_level_spec (hist : list Z) (rssi : Z) :
  Z.of_nat (length hist) <= 65535 ->
  Forall is_u16 hist -> rssi ∈ hist ->
  waterfall_level (waterfall_stats hist) rssi = quantized_level hist rssi
  /\ 0 <= quantized_level hist rssi <= 15.
Proof.
  intros Hlen Hall Hin.
  destruct (waterfall_stats_spec hist Hlen) as (Hmin & Hmax & Hcount).
  unfold waterfall_level, quantized_level, valid_sample.
  rewrite Hmin, Hmax, Hcount.
  destruct (Z.eqb_spec rssi RSSI_MAX_VALUE) as [|Hne1]; cbn [negb andb orb];
    [lia|].
  destruct (Z.eqb_spec rssi 0) as [|Hne0]; cbn [negb andb orb]; [lia|].
  assert (Hv : valid_sample rssi = true).
  { unfold valid_sample.
    destruct (Z.eqb_spec rssi RSSI_MAX_VALUE); [contradiction|].
    destruct (Z.eqb_spec rssi 0); [contradiction|]. reflexivity. }
  pose proof (valid_count_pos hist rssi Hin Hv) as Hpos.
  pose proof (sweepMin_le hist rssi Hin Hv) as Hlo.
  pose proof (sweepMax_ge hist rssi Hin Hv) as Hhi.
  pose proof (sweepMin_range hist Hall) as Hrmin.
  pose proof (sweepMax_range hist Hall) as Hrmax.
  rewrite Z.gtb_ltb.
  destruct (Z.ltb_spec 0 (Z.of_nat (length
             (filter (fun r => Is_true (valid_sample r)) hist)))); [|lia].
  set (lo := sweepMin hist) in *. set (hi := sweepMax hist) in *.
  assert (Hrange : (if hi >? lo then hi - lo else 1) = Z.max 1 (hi - lo)).
  { rewrite Z.gtb_ltb. destruct (Z.ltb_spec lo hi); lia. }
  rewrite Hrange.
  pose proof (quantize_range lo hi rssi (conj Hlo Hhi)) as Hq.
  rewrite (u16_small (Z.max 1 (hi - lo))) by (unfold is_u16; lia).
  rewrite Z.quot_div_nonneg by lia.
  set (q := (rssi - lo) * 15 / Z.max 1 (hi - lo)) in *.
  assert (Hu32 : u32 q = q) by (unfold u32; apply Z.mod_small; lia).
  rewrite Hu32, land_15_small by lia.
  rewrite u8_small by lia.
  rewrite Z.gtb_ltb.
  destruct (Z.ltb_spec 0 q), (Z.ltb_spec q 3), (Z.leb_spec 1 q),
    (Z.leb_spec q 2); cbn [andb]; lia.
Qed.

Lemma waterfallIndex_UpdateWaterfall (e : Engine) :
  waterfallIndex (UpdateWaterfall e) = (waterfallIndex e + 1) mod 16.
Proof.
  unfold UpdateWaterfall, WATERFALL_HISTORY_DEPTH. cbn.
  apply u8_small. zlia.
Qed.

Lemma waterfallHistory_UpdateWaterfall (e : Engine) :
  waterfallHistory (UpdateWaterfall e)
  = zip_with
      (fun rssi row =>
         <[Z.to_nat ((waterfallIndex e + 1) mod 16) :=
             waterfall_level (waterfall_stats (rssiHistory e)) rssi]> row)
      (rssiHistory e) (waterfallHistory e).
Proof.
  unfold UpdateWaterfall, WATERFALL_HISTORY_DEPTH. cbn.
  rewrite u8_small by zlia. reflexivity.
Qed.

Lemma buffers_ok_UpdateWaterfall (e : Engine) :
  buffers_ok e -> buffers_ok (UpdateWaterfall e).
Proof.
  intros (Hh & Hu & Hw & Hrows). unfold buffers_ok.
  rewrite waterfallHistory_UpdateWaterfall.
  change (rssiHistory (UpdateWaterfall e)) with (rssiHistory e).
  repeat split; try assumption.
  - rewrite length_zip_with. lia.
  - apply Forall_lookup. intros i row Hrow.
    rewrite lookup_zip_with in Hrow.
    destruct (rssiHistory e !! i) as [r|]; [|discriminate].
    destruct (waterfallHistory e !! i) as [row0|] eqn:Hrow0; [|discriminate].
    cbn in Hrow. injection Hrow as <-. rewrite length_insert.
    exact (proj1 (Forall_lookup _ _) Hrows i row0 Hrow0).
Qed.

(** The line written by a push holds, for every bin, the level computed
    from that bin's history entry. *)
Lemma waterfall_read_newest (e : Engine) (x : nat) (rssi : Z) :
  buffers_ok e -> rssiHistory e !! x = Some rssi ->
  waterfall_read 0 x (UpdateWaterfall e)
  = Some (waterfall_level (waterfall_stats (rssiHistory e)) rssi).
Proof.
  intros (Hh & Hu & Hw & Hrows) Hx. unfold waterfall_read, historyRow.
  rewrite waterfallIndex_UpdateWaterfall, waterfallHistory_UpdateWaterfall.
  rewrite lookup_zip_with, Hx. cbn.
  assert (Hlt : (x < length (waterfallHistory e))%nat).
  { apply lookup_lt_Some in Hx. lia. }
  destruct (lookup_lt_is_Some_2 _ _ Hlt) as [row Hrow]. rewrite Hrow. cbn.
  assert (Hlen : length row = 16%nat)
    by exact (proj1 (Forall_lookup _ _) Hrows x row Hrow).
  replace ((waterfallIndex e + 1) mod 16 - 0) with ((waterfallIndex e + 1) mod 16)
    by lia.
  destruct (Z.ltb_spec ((waterfallIndex e + 1) mod 16) 0); [zlia|].
  apply list_lookup_insert_eq. zlia.
Qed.

(** A push moves no data: what was read at age [a - 1] before the push is
    read at age [a] after it. *)
Lemma waterfall_read_older (e : Engine) (a : Z) (y : nat) :
  buffers_ok e -> 0 <= waterfallIndex e < 16 -> 1 <= a < 16 ->
  waterfall_read a y (UpdateWaterfall e) = waterfall_read (a - 1) y e.
Proof.
  intros (Hh & Hu & Hw & Hrows) Hidx Ha. unfold waterfall_read, historyRow.
  rewrite waterfallIndex_UpdateWaterfall, waterfallHistory_UpdateWaterfall.
  rewrite lookup_zip_with. unfold WATERFALL_HISTORY_DEPTH.
  destruct (rssiHistory e !! y) as [r|] eqn:Hr.
  - cbn. destruct (waterfallHistory e !! y) as [row|]; [|reflexivity]. cbn.
    set (new := (waterfallIndex e + 1) mod 16).
    assert (Hcol : (if new - a <? 0 then new - a + 16 else new - a)
                   = (if waterfallIndex e - (a - 1) <? 0
                      then waterfallIndex e - (a - 1) + 16
                      else waterfallIndex e - (a - 1))).
    { subst new. break_cmp; zlia. }
    rewrite Hcol. apply list_lookup_insert_ne.
    subst new. break_cmp; zlia.
  - cbn. apply lookup_ge_None in Hr.
    rewrite (proj2 (lookup_ge_None (waterfallHistory e) y)) by lia.
    reflexivity.
Qed.

Lemma buffers_ok_push_sweep (e : Engine) (h : list Z) :
  buffers_ok e -> sweep_ok h -> buffers_ok (push_sweep e h).
Proof.
  intros (Hh & Hu & Hw & Hrows) (Hlen & Hall).
  apply buffers_ok_UpdateWaterfall. repeat split; assumption.
Qed.

Lemma waterfallIndex_push_sweep (e : Engine) (h : list Z) :
  waterfallIndex (push_sweep e h) = (waterfallIndex e + 1) mod 16.
Proof. unfold push_sweep. rewrite waterfallIndex_UpdateWaterfall. reflexivity. Qed.

Lemma waterfallIndex_pushes (hs : list (list Z)) (e : Engine) :
  0 <= waterfallIndex e < 16 ->
  waterfallIndex (fold_left push_sweep hs e)
  = (waterfallIndex e + Z.of_nat (length hs)) mod 16.
Proof.
  revert e. induction hs as [|h hs IH]; intros e He; cbn [fold_left length].
  - rewrite Z.mod_small; lia.
  - rewrite IH by (rewrite waterfallIndex_push_sweep; zlia).
    rewrite waterfallIndex_push_sweep. zlia.
Qed.

Lemma waterfall_read_ages (hs : list (list Z)) (e : Engine) (b : Z) (x : nat) :
  buffers_ok e -> 0 <= waterfallIndex e < 16 -> Forall sweep_ok hs ->
  0 <= b -> b + Z.of_nat (length hs) < 16 ->
  waterfall_read (b + Z.of_nat (length hs)) x (fold_left push_sweep hs e)
  = waterfall_read b x e.
Proof.
  revert e b. induction hs as [|h hs IH]; intros e b Hok Hidx Hall Hb Hlen;
    cbn [fold_left length] in *.
  - f_equal. lia.
  - inversion Hall as [|? ? Hh Hhs]; subst.
    replace (b + Z.of_nat (S (length hs))) with (b + 1 + Z.of_nat (length hs))
      by lia.
    rewrite IH; try assumption; try lia.
    + unfold push_sweep. rewrite waterfall_read_older; try lia.
      * replace (b + 1 - 1) with b by lia. reflexivity.
      * destruct Hok as (? & ? & ? & ?), Hh. repeat split; assumption.
      * exact Hidx.
    + apply buffers_ok_push_sweep; assumption.
    + rewrite waterfallIndex_push_sweep. zlia.
Qed.

Lemma buffers_ok_pushes (hs : list (list Z)) (e : Engine) :
  buffers_ok e -> Forall sweep_ok hs -> buffers_ok (fold_left push_sweep hs e).
Proof.
  intros Hok Hhs. revert e Hok.
  induction Hhs as [|h hs Hh _ IH]; intros e Hok; cbn [fold_left];
    [exact Hok|].
  apply IH. apply buffers_ok_push_sweep; assumption.
Qed.

(** C9 (as amended). A committed waterfall push ([UpdateWaterfall] on a
    sweep [h]) stores for every bin [x] the level
    [(rssi - sweepMin) * 15 / max (1, sweepMax - sweepMin)] taken over the
    valid samples of the sweep, with 1 and 2 raised to 3 and 0 for an
    empty or skipped bin; the level lies in 0..15.  The cursor advances
    by one modulo 16 and the older lines stay where they are: what was at
    age [a - 1] is at age [a].  Hence the level is read back at age [n]
    after [n < 16] further pushes, whatever was pushed before; after 16
    further pushes (depth + 1 in all) the cursor is where it was after
    the first, but the buffer is not what it was then: every age below
    16 reads the sweep pushed that many pushes before the last. *)
Theorem UpdateWaterfall_circular_push (e : Engine) (h : list Z)
    (hs : list (list Z)) (x : nat) (rssi : Z) :
  buffers_ok e -> 0 <= waterfallIndex e < 16 ->
  sweep_ok h -> Forall sweep_ok hs -> h !! x = Some rssi ->
  waterfall_read 0 x (push_sweep e h) = Some (quantized_level h rssi)
  /\ 0 <= quantized_level h rssi <= 15
  /\ waterfallIndex (push_sweep e h) = (waterfallIndex e + 1) mod 16
  /\ (forall a y, 1 <= a < 16 ->
      waterfall_read a y (push_sweep e h) = waterfall_read (a - 1) y e)
  /\ ((length hs < 16)%nat ->
      waterfall_read (Z.of_nat (length hs)) x
        (fold_left push_sweep hs (push_sweep e h))
      = Some (quantized_level h rssi))
  /\ (length hs = 16%nat ->
      waterfallIndex (fold_left push_sweep hs (push_sweep e h))
      = waterfallIndex (push_sweep e h))
  /\ (forall before : list (list Z),
      Forall sweep_ok before -> (length hs < 16)%nat ->
      waterfall_read (Z.of_nat (length hs)) x
        (fold_left push_sweep (before ++ h :: hs) e)
      = Some (quantized_level h rssi)).
Proof.
  intros Hok Hidx Hh Hhs Hx.
  assert (Hidx1 : 0 <= waterfallIndex (push_sweep e h) < 16)
    by (rewrite waterfallIndex_push_sweep; zlia).
  assert (Hlevel : forall e0, buffers_ok e0 ->
            waterfall_read 0 x (push_sweep e0 h)
            = Some (quantized_level h rssi)
            /\ 0 <= quantized_level h rssi <= 15).
  { intros e0 Hok0. destruct Hh as (Hlen & Hall).
    destruct (waterfall_level_spec h rssi) as (Heq & Hrange);
      [lia | exact Hall | apply (list_elem_of_lookup_2 _ x); exact Hx |].
    split; [|exact Hrange]. unfold push_sweep.
    rewrite (waterfall_read_newest _ x rssi).
    - change (rssiHistory (set_rssiHistory h e0)) with h.
      rewrite Heq. reflexivity.
    - destruct Hok0 as (? & ? & ? & ?). repeat split; assumption.
    - exact Hx. }
  assert (Hage : forall e0, buffers_ok e0 -> 0 <= waterfallIndex e0 < 16 ->
            (length hs < 16)%nat ->
            waterfall_read (Z.of_nat (length hs)) x
              (fold_left push_sweep hs (push_sweep e0 h))
            = Some (quantized_level h rssi)).
  { intros e0 Hok0 Hidx0 Hlen.
    destruct (Hlevel e0 Hok0) as [<- _].
    apply (waterfall_read_ages hs (push_sweep e0 h) 0 x); try assumption;
      try lia.
    - apply buffers_ok_push_sweep; assumption.
    - rewrite waterfallIndex_push_sweep. zlia. }
  destruct (Hlevel e Hok) as (Hnew & Hrange).
  split; [exact Hnew|]. split; [exact Hrange|].
  split; [apply waterfallIndex_push_sweep|].
  split.
  { intros a y Ha. unfold push_sweep.
    rewrite waterfall_read_older; try assumption.
    - reflexivity.
    - destruct Hok as (? & ? & ? & ?), Hh. repeat split; assumption. }
  split; [apply Hage; assumption|].
  split.
  { intros Hlen. rewrite waterfallIndex_pushes by exact Hidx1.
    rewrite Hlen. zlia. }
  intros before Hbefore Hlen.
  rewrite fold_left_app. cbn [fold_left].
  apply Hage; [apply buffers_ok_pushes; assumption| |exact Hlen].
  rewrite waterfallIndex_pushes by exact Hidx. zlia.
Qed.

(** C9 (as stated) fails: 17 pushes of the sweep [sweep_example] into
    the cleared buffer bring the cursor back to where it was after the
    first push, but bin 1 (level 15) then reads 15 at the ages 0, 1, 2
    and 15, where it read 15, 0, 0 and 0 after the first push. *)
Lemma UpdateWaterfall_17_pushes_differ :
  map (fun a => waterfall_read a 1 (push_sweep engine0 sweep_example))
    [0; 1; 2; 15]
  = [Some 15; Some 0; Some 0; Some 0]
  /\ map (fun a =>
            waterfall_read a 1
              (fold_left push_sweep (replicate 16 sweep_example)
                 (push_sweep engine0 sweep_example)))
       [0; 1; 2; 15]
     = [Some 15; Some 15; Some 15; Some 15]
  /\ waterfallIndex
       (fold_left push_sweep (replicate 16 sweep_example)
          (push_sweep engine0 sweep_example))
     = waterfallIndex (push_sweep engine0 sweep_example).
Proof. repeat split; vm_compute; reflexivity. Qed.

(** ** FrequencySweepController *)

Lemma sweep_frame_refl (e : Engine) : sweep_frame e e.
Proof. repeat split. Qed.

Lemma sweep_frame_trans (e1 e2 e3 : Engine) :
  sweep_frame e1 e2 -> sweep_frame e2 e3 -> sweep_frame e1 e3.
Proof.
  unfold sweep_frame.
  intros (? & ? & ? & ? & ? & ? & ? & ?) (? & ? & ? & ? & ? & ? & ? & ?).
  repeat split; congruence.
Qed.

Lemma hist_set_frame (idx v : Z) (e : Engine) : sweep_frame e (hist_set idx v e).
Proof.
  unfold hist_set, sweep_frame. destruct (in_hist e idx); cbn;
    rewrite ?length_insert; repeat split.
Qed.

Lemma SetRssiHistory_frame (cfg : Config) (idx v : Z) (e : Engine) :
  sweep_frame e (SetRssiHistory cfg idx v e).
Proof.
  unfold SetRssiHistory.
  destruct (ENABLE_SCAN_RANGES cfg && _); [|apply hist_set_frame].
  unfold hist_get.
  match goal with
  | |- sweep_frame e (hist_set ?j 0 (if ?c then hist_set ?i v ?e1 else ?e1)) =>
      assert (H1 : sweep_frame e e1) by (repeat split);
      assert (H2 : sweep_frame e1 (if c then hist_set i v e1 else e1))
        by (destruct c; [apply hist_set_frame | apply sweep_frame_refl]);
      eapply sweep_frame_trans; [exact H1|];
      eapply sweep_frame_trans; [exact H2|]; apply hist_set_frame
  end.
Qed.

Lemma Measure_frame (cfg : Config) (r : Z) (e : Engine) :
  sweep_frame e (Measure cfg r e).
Proof.
  unfold Measure.
  eapply sweep_frame_trans; [|apply SetRssiHistory_frame]. repeat split.
Qed.

Lemma UpdateScanInfo_frame (x : Extern) (e : Engine) :
  sweep_frame e (UpdateScanInfo x e).
Proof.
  unfold UpdateScanInfo, sweep_frame.
  destruct (_ >? _); cbn; destruct (_ <? _); cbn; repeat split.
Qed.

Lemma Scan_frame (cfg : Config) (x : Extern) (r : Z) (e : Engine) :
  sweep_frame e (Scan cfg x r e).
Proof.
  unfold Scan, hist_get.
  destruct (negb _ && negb _); [|repeat split].
  eapply sweep_frame_trans; [|apply UpdateScanInfo_frame].
  match goal with
  | |- sweep_frame e (set_radio _ (Measure cfg r ?e1)) =>
      apply (sweep_frame_trans e e1); [repeat split|];
      apply (sweep_frame_trans e1 (Measure cfg r e1)); [apply Measure_frame|];
      repeat split
  end.
Qed.

(** While the sweep is not done, [UpdateScan] measures and moves to the
    next step. *)
Lemma UpdateScan_advance (cfg : Config) (x : Extern) (r : Z) (e : Engine) :
  is_u16 (scanInfo_measurementsCount (scanInfo e)) ->
  0 <= scanInfo_i (scanInfo e) < scanInfo_measurementsCount (scanInfo e) ->
  UpdateScan cfg x r e = NextScanStep (Scan cfg x r e)
  /\ scanInfo_i (scanInfo (UpdateScan cfg x r e)) = scanInfo_i (scanInfo e) + 1
  /\ scanInfo_measurementsCount (scanInfo (UpdateScan cfg x r e))
     = scanInfo_measurementsCount (scanInfo e)
  /\ length (rssiHistory (UpdateScan cfg x r e)) = length (rssiHistory e).
Proof.
  intros Hn Hi.
  destruct (Scan_frame cfg x r e) as (Hfi & Hfn & _ & _ & _ & Hlen & _).
  assert (Heq : UpdateScan cfg x r e = NextScanStep (Scan cfg x r e)).
  { unfold UpdateScan. cbv zeta. unfold sweep_done. rewrite Hfi, Hfn.
    destruct (Z.ltb_spec (scanInfo_i (scanInfo e))
                (scanInfo_measurementsCount (scanInfo e))); [reflexivity|lia]. }
  rewrite Heq. split; [reflexivity|].
  unfold NextScanStep. cbn -[Scan u16]. rewrite Hfi, Hfn, Hlen.
  rewrite u16_small by (unfold is_u16 in *; lia). repeat split.
Qed.

(** Once [scanInfo.i] has reached [measurementsCount], [UpdateScan] still
    measures, and then ends the sweep. *)
Lemma UpdateScan_complete (cfg : Config) (x : Extern) (r : Z) (e : Engine) :
  scanInfo_measurementsCount (scanInfo e) <= scanInfo_i (scanInfo e) ->
  sweep_done (Scan cfg x r e) = true
  /\ UpdateScan cfg x r e = UpdateScan_finish cfg (Scan cfg x r e).
Proof.
  intros Hi. destruct (Scan_frame cfg x r e) as (Hfi & Hfn & _).
  unfold UpdateScan. cbv zeta. unfold sweep_done. rewrite Hfi, Hfn.
  destruct (Z.ltb_spec (scanInfo_i (scanInfo e))
              (scanInfo_measurementsCount (scanInfo e))); [lia|].
  split; reflexivity.
Qed.

(** A sweep that starts at step 0 is at step [k] after [k] calls, for
    every [k] up to the step count. *)
Lemma run_scan_advance (cfg : Config) (x : Extern) (readings : list Z)
    (e : Engine) :
  is_u16 (scanInfo_measurementsCount (scanInfo e)) ->
  0 <= scanInfo_i (scanInfo e) ->
  scanInfo_i (scanInfo e) + Z.of_nat (length readings)
  <= scanInfo_measurementsCount (scanInfo e) ->
  scanInfo_i (scanInfo (run_scan cfg x readings e))
  = scanInfo_i (scanInfo e) + Z.of_nat (length readings)
  /\ scanInfo_measurementsCount (scanInfo (run_scan cfg x readings e))
     = scanInfo_measurementsCount (scanInfo e)
  /\ length (rssiHistory (run_scan cfg x readings e)) = length (rssiHistory e).
Proof.
  unfold run_scan. revert e.
  induction readings as [|r readings IH]; intros e Hn Hi Hlen;
    cbn [fold_left length] in *.
  - repeat split; lia.
  - destruct (UpdateScan_advance cfg x r e Hn) as (_ & Hi1 & Hn1 & Hl1); [lia|].
    destruct (IH (UpdateScan cfg x r e)) as (Hi2 & Hn2 & Hl2).
    { rewrite Hn1. exact Hn. }
    { rewrite Hi1. lia. }
    { rewrite Hi1, Hn1. lia. }
    rewrite Hi2, Hn2, Hl2, Hi1, Hn1, Hl1. repeat split; lia.
Qed.

(** A sweep of [n] steps started at step 0 is not ended by any of its
    first [n] calls: after fewer than [n] calls, the next call still
    finds [scanInfo.i] below the step count. *)
Lemma run_scan_not_done (cfg : Config) (x : Extern) (readings : list Z)
    (r : Z) (e : Engine) :
  is_u16 (scanInfo_measurementsCount (scanInfo e)) ->
  scanInfo_i (scanInfo e) = 0 ->
  Z.of_nat (length readings) < scanInfo_measurementsCount (scanInfo e) ->
  sweep_done (Scan cfg x r (run_scan cfg x readings e)) = false.
Proof.
  intros Hn Hi Hlen.
  destruct (run_scan_advance cfg x readings e Hn) as (Hi1 & Hn1 & _);
    [lia | lia |].
  destruct (Scan_frame cfg x r (run_scan cfg x readings e)) as (Hfi & Hfn & _).
  unfold sweep_done. rewrite Hfi, Hfn, Hi1, Hn1, Hi.
  destruct (Z.ltb_spec (0 + Z.of_nat (length readings))
              (scanInfo_measurementsCount (scanInfo e))); [reflexivity | lia].
Qed.

(** *** The measurement past the last bin *)

Lemma UpdateScanInfo_history (x : Extern) (e : Engine) :
  accesses (UpdateScanInfo x e) = accesses e
  /\ pastEnd (UpdateScanInfo x e) = pastEnd e
  /\ rssiHistory (UpdateScanInfo x e) = rssiHistory e.
Proof.
  unfold UpdateScanInfo.
  destruct (_ >? _); cbn; destruct (_ <? _); cbn; repeat split.
Qed.

(** The accesses of one [SetRssiHistory]. *)
Lemma SetRssiHistory_accesses (cfg : Config) (idx v : Z) (e : Engine) :
  exists later, accesses (SetRssiHistory cfg idx v e) = later ++ accesses e.
Proof.
  unfold SetRssiHistory, hist_get, hist_set. cbv zeta.
  destruct (ENABLE_SCAN_RANGES cfg && _).
  - repeat match goal with
    | |- context [if ?b then _ else _] => destruct b
    end; cbn;
    match goal with
    | |- exists later, ?a :: ?b :: ?c :: ?d = _ => exists [a; b; c]
    | |- exists later, ?a :: ?b :: ?d = _ => exists [a; b]
    end; reflexivity.
  - destruct (in_hist _ _); cbn;
    match goal with
    | |- exists later, ?a :: ?d = _ => exists [a]
    end; reflexivity.
Qed.

(** [Scan] reads [rssiHistory[scanInfo.i]] before anything else. *)
Lemma Scan_reads_first (cfg : Config) (x : Extern) (r : Z) (e : Engine) :
  exists later,
    accesses (Scan cfg x r e)
    = later ++ HistRead (scanInfo_i (scanInfo e)) :: accesses e.
Proof.
  unfold Scan, hist_get.
  destruct (negb _ && negb _); [|exists []; reflexivity].
  cbv zeta.
  match goal with
  | |- context [UpdateScanInfo x ?E] =>
      destruct (UpdateScanInfo_history x E) as (Ha & _ & _); rewrite Ha
  end.
  cbn [accesses set_radio]. unfold Measure. cbv zeta.
  match goal with
  | |- context [SetRssiHistory cfg ?i ?v ?E] =>
      destruct (SetRssiHistory_accesses cfg i v E) as (later & Hl); rewrite Hl
  end.
  exists later. reflexivity.
Qed.

(** With 128 steps and a bin that is neither marked as skipped nor
    blacklisted, [Scan] at step 128 measures and writes past the end. *)
Lemma Scan_writes_past_end (cfg : Config) (x : Extern) (r : Z) (e : Engine) :
  length (rssiHistory e) = 128%nat ->
  scanInfo_i (scanInfo e) = 128 ->
  scanInfo_measurementsCount (scanInfo e) = 128 ->
  pastEnd e 128 <> RSSI_MAX_VALUE ->
  ENABLE_SCAN_RANGES cfg && IsBlacklisted 128 e = false ->
  accesses (Scan cfg x r e) = HistWrite 128 r :: HistRead 128 :: accesses e
  /\ pastEnd (Scan cfg x r e) 128 = r
  /\ rssiHistory (Scan cfg x r e) = rssiHistory e.
Proof.
  intros Hlen Hi Hn Hv Hb.
  unfold Scan, hist_get, hist_peek, in_hist. rewrite Hi, Hlen.
  change ((0 <=? 128) && (128 <? Z.of_nat 128)) with false. cbv iota.
  destruct (Z.eqb_spec (pastEnd e 128) RSSI_MAX_VALUE); [contradiction|].
  cbn [negb andb].
  set (e1 := set_accesses (HistRead 128 :: accesses e) e).
  change (scanInfo e1) with (scanInfo e). rewrite Hi.
  change (IsBlacklisted 128 e1) with (IsBlacklisted 128 e).
  rewrite Hb. cbn [negb]. cbv zeta. subst e1.
  match goal with
  | |- context [UpdateScanInfo x ?E] =>
      destruct (UpdateScanInfo_history x E) as (Ha & Hp & Hh);
      rewrite Ha, Hp, Hh
  end.
  unfold Measure, SetRssiHistory, SetF. cbn -[Z.gtb Z.ltb].
  rewrite Hn, Hi. rewrite andb_false_r.
  unfold hist_set, in_hist. cbn -[Z.gtb Z.ltb]. rewrite Hlen.
  change ((0 <=? 128) && (128 <? Z.of_nat 128)) with false. cbn.
  repeat split.
Qed.

(** When the bin is marked as skipped, or blacklisted, [Scan] only
    reads. *)
Lemma Scan_skips_past_end (cfg : Config) (x : Extern) (r : Z) (e : Engine) :
  length (rssiHistory e) = 128%nat ->
  scanInfo_i (scanInfo e) = 128 ->
  pastEnd e 128 = RSSI_MAX_VALUE
  \/ ENABLE_SCAN_RANGES cfg && IsBlacklisted 128 e = true ->
  accesses (Scan cfg x r e) = HistRead 128 :: accesses e.
Proof.
  intros Hlen Hi Hskip.
  unfold Scan, hist_get, hist_peek, in_hist. rewrite Hi, Hlen.
  change ((0 <=? 128) && (128 <? Z.of_nat 128)) with false. cbv iota.
  set (e1 := set_accesses (HistRead 128 :: accesses e) e).
  change (scanInfo e1) with (scanInfo e). rewrite Hi.
  change (IsBlacklisted 128 e1) with (IsBlacklisted 128 e).
  destruct Hskip as [Hv|Hb].
  - rewrite Hv. reflexivity.
  - rewrite Hb. rewrite andb_false_r. reflexivity.
Qed.

(** C6 (as amended). A sweep of [n] steps started at step 0 is at step
    [n] after [n] calls of [UpdateScan]; the next call, the one that ends
    the sweep, first runs [Scan] with [scanInfo.i == measurementsCount],
    and [Scan] reads [rssiHistory[scanInfo.i]] before any test.  From 128
    steps on, that index is outside the 128 entries of the array.  With
    exactly 128 steps the access is one element past the end, and [Scan]
    then measures and writes there unless the value read is the skip
    mark or, in a build with scan ranges, bin 128 is blacklisted; in
    those two cases it only reads. *)
Theorem Scan_runs_once_past_last_bin (cfg : Config) (x : Extern)
    (e0 : Engine) (readings : list Z) (r : Z) :
  length (rssiHistory e0) = 128%nat ->
  scanInfo_i (scanInfo e0) = 0 ->
  scanInfo_measurementsCount (scanInfo e0) = Z.of_nat (length readings) ->
  Z.of_nat (length readings) <= 65535 ->
  scanInfo_i (scanInfo (run_scan cfg x readings e0))
  = scanInfo_measurementsCount (scanInfo (run_scan cfg x readings e0))
  /\ scanInfo_measurementsCount (scanInfo (run_scan cfg x readings e0))
     = Z.of_nat (length readings)
  /\ UpdateScan cfg x r (run_scan cfg x readings e0)
     = UpdateScan_finish cfg (Scan cfg x r (run_scan cfg x readings e0))
  /\ (exists later,
        accesses (Scan cfg x r (run_scan cfg x readings e0))
        = later ++ HistRead (Z.of_nat (length readings))
                   :: accesses (run_scan cfg x readings e0))
  /\ (128 <= Z.of_nat (length readings) ->
      in_hist (run_scan cfg x readings e0) (Z.of_nat (length readings)) = false)
  /\ (Z.of_nat (length readings) = 128 ->
      pastEnd (run_scan cfg x readings e0) 128 <> RSSI_MAX_VALUE ->
      ENABLE_SCAN_RANGES cfg
      && IsBlacklisted 128 (run_scan cfg x readings e0) = false ->
      accesses (Scan cfg x r (run_scan cfg x readings e0))
      = HistWrite 128 r :: HistRead 128
          :: accesses (run_scan cfg x readings e0)
      /\ pastEnd (Scan cfg x r (run_scan cfg x readings e0)) 128 = r)
  /\ (Z.of_nat (length readings) = 128 ->
      pastEnd (run_scan cfg x readings e0) 128 = RSSI_MAX_VALUE
      \/ ENABLE_SCAN_RANGES cfg
         && IsBlacklisted 128 (run_scan cfg x readings e0) = true ->
      accesses (Scan cfg x r (run_scan cfg x readings e0))
      = HistRead 128 :: accesses (run_scan cfg x readings e0)).
Proof.
  intros Hlen Hi Hn Hmax.
  destruct (run_scan_advance cfg x readings e0) as (Hi1 & Hn1 & Hl1).
  { unfold is_u16. lia. }
  { lia. }
  { lia. }
  set (e := run_scan cfg x readings e0) in *.
  rewrite Hi in Hi1. rewrite Hn in Hn1. rewrite Hlen in Hl1.
  replace (0 + Z.of_nat (length readings)) with (Z.of_nat (length readings))
    in Hi1 by lia.
  split; [congruence|]. split; [exact Hn1|].
  split; [apply UpdateScan_complete; lia|].
  split; [rewrite <- Hi1; apply Scan_reads_first|].
  split.
  { intros H128. unfold in_hist. rewrite Hl1.
    destruct (Z.ltb_spec (Z.of_nat (length readings)) (Z.of_nat 128)); [lia|].
    apply andb_false_r. }
  split.
  { intros H128 Hv Hb.
    destruct (Scan_writes_past_end cfg x r e) as (Ha & Hp & _);
      try assumption; try congruence.
    split; assumption. }
  intros H128 Hskip. apply Scan_skips_past_end; try assumption; congruence.
Qed.

(** A sweep of 128 steps reading 100 everywhere, in a build without
    scan ranges: the call that ends it measures bin 128 and writes the
    reading after the array. *)
Lemma Scan_runs_once_past_last_bin_witness :
  accesses
    (Scan cfg_plain extern0 100
       (run_scan cfg_plain extern0 (replicate 128 100)
          (RelaunchScan cfg_plain extern0 engine128)))
  = HistWrite 128 100 :: HistRead 128
      :: accesses
           (run_scan cfg_plain extern0 (replicate 128 100)
              (RelaunchScan cfg_plain extern0 engine128))
  /\ pastEnd
       (Scan cfg_plain extern0 100
          (run_scan cfg_plain extern0 (replicate 128 100)
             (RelaunchScan cfg_plain extern0 engine128))) 128 = 100.
Proof.
  refine (proj1 (proj2 (proj2 (proj2 (proj2 (proj2
    (Scan_runs_once_past_last_bin cfg_plain extern0
       (RelaunchScan cfg_plain extern0 engine128) (replicate 128 100) 100
       _ _ _ _)))))) _ _ _).
  - vm_compute; reflexivity.
  - vm_compute; reflexivity.
  - vm_compute; reflexivity.
  - vm_compute; discriminate.
  - vm_compute; reflexivity.
  - intros H; vm_compute in H; discriminate.
  - reflexivity.
Defined.

(** C6 (as stated) fails in a build with scan ranges: with bin 128 on the
    blacklist, the value read past the end is 0, not the skip mark, and
    still [Scan] neither tunes, nor measures, nor writes. *)
Lemma Scan_blacklisted_bin128_reads_only :
  scanInfo_i (scanInfo engine_bin128_blacklisted) = 128
  /\ scanInfo_measurementsCount (scanInfo engine_bin128_blacklisted) = 128
  /\ hist_peek engine_bin128_blacklisted 128 = 0
  /\ 0 <> RSSI_MAX_VALUE
  /\ accesses (Scan cfg_full extern0 100 engine_bin128_blacklisted)
     = [HistRead 128]
  /\ pastEnd (Scan cfg_full extern0 100 engine_bin128_blacklisted) 128 = 0
  /\ radio (Scan cfg_full extern0 100 engine_bin128_blacklisted) = []
  /\ sweep_done (Scan cfg_full extern0 100 engine_bin128_blacklisted) = true.
Proof. repeat split; try reflexivity. discriminate. Qed.

(** C5: what the code does at the failing input.  A sweep of 64 steps,
    every reading 100: the 64th call of [UpdateScan] does not end the
    sweep, the 65th does; by then 65 measurements have been taken, the
    last one at index 64. *)
Lemma sweep_of_64_ends_on_call_65 :
  scanInfo_measurementsCount
    (scanInfo (RelaunchScan cfg_plain extern0 engine0)) = 64
  /\ sweep_done
       (Scan cfg_plain extern0 100
          (run_scan cfg_plain extern0 (replicate 63 100)
             (RelaunchScan cfg_plain extern0 engine0))) = false
  /\ newScanStart
       (run_scan cfg_plain extern0 (replicate 64 100)
          (set_newScanStart false (RelaunchScan cfg_plain extern0 engine0)))
     = false
  /\ sweep_done
       (Scan cfg_plain extern0 100
          (run_scan cfg_plain extern0 (replicate 64 100)
             (RelaunchScan cfg_plain extern0 engine0))) = true
  /\ newScanStart
       (run_scan cfg_plain extern0 (replicate 65 100)
          (set_newScanStart false (RelaunchScan cfg_plain extern0 engine0)))
     = true
  /\ count_writes
       (accesses
          (run_scan cfg_plain extern0 (replicate 65 100)
             (RelaunchScan cfg_plain extern0 engine0))) = 65%nat
  /\ head
       (accesses
          (run_scan cfg_plain extern0 (replicate 65 100)
             (RelaunchScan cfg_plain extern0 engine0)))
     = Some (HistWrite 64 100).
Proof. repeat split; vm_compute; reflexivity. Qed.

(** ** ModeStateMachine *)

Lemma isListening_ToggleRX (cfg : Config) (on : bool) (e : Engine) :
  isListening (ToggleRX cfg on e) = on.
Proof.
  unfold ToggleRX, ToggleAudio.
  destruct (ENABLE_FEAT_N7SIX_SPECTRUM cfg), (isListening e) eqn:Hl, on;
    cbn; try exact Hl; try reflexivity;
    repeat match goal with
    | |- context [if ?b then _ else _] => destruct b
    end; reflexivity.
Qed.

Lemma settings_ToggleRX (cfg : Config) (on : bool) (e : Engine) :
  settings (ToggleRX cfg on e) = settings e.
Proof. unfold ToggleRX, ToggleAudio. cbn. frame. Qed.

Lemma currentState_ToggleRX (cfg : Config) (on : bool) (e : Engine) :
  currentState (ToggleRX cfg on e) = currentState e.
Proof. unfold ToggleRX, ToggleAudio. cbn. frame. Qed.

Lemma scanInfo_ToggleRX (cfg : Config) (on : bool) (e : Engine) :
  scanInfo (ToggleRX cfg on e) = scanInfo e.
Proof. unfold ToggleRX, ToggleAudio. cbn. frame. Qed.

(** The end of a sweep with the peak at or above the trigger level. *)
Lemma UpdateScan_finish_lock (cfg : Config) (e : Engine) :
  rssiTriggerLevel (settings (UpdateScan_finish cfg e))
  <= peak_rssi (peak (UpdateScan_finish cfg e)) ->
  isListening (UpdateScan_finish cfg e) = true
  /\ fMeasure (UpdateScan_finish cfg e) = peak_f (peak (UpdateScan_finish cfg e))
  /\ scanInfo_f (scanInfo (UpdateScan_finish cfg e))
     = peak_f (peak (UpdateScan_finish cfg e))
  /\ head (radio (UpdateScan_finish cfg e))
     = Some (Tune (peak_f (peak (UpdateScan_finish cfg e))))
  /\ currentState (UpdateScan_finish cfg e) = currentState e.
Proof.
  unfold UpdateScan_finish. cbv zeta.
  set (e0 := if Z.shiftr _ 7 =? 0 then _ else e).
  set (e1 := UpdatePeakInfo _).
  set (e2 := set_scanWaterfallCounter _ e1).
  set (e3 := if scanWaterfallCounter e2 >=? 2 then _ else e2).
  assert (Hcs : currentState e3 = currentState e).
  { subst e3 e2 e1 e0.
    assert (Hu : forall e', currentState (UpdatePeakInfo e') = currentState e').
    { intros e'. unfold UpdatePeakInfo, UpdatePeakInfoForce, AutoTriggerLevel.
      frame. }
    destruct (_ >=? 2); cbn -[UpdatePeakInfo]; rewrite Hu;
      destruct (Z.shiftr _ 7 =? 0); reflexivity. }
  unfold IsPeakOverLevel.
  rewrite Z.geb_leb.
  destruct (Z.leb_spec (rssiTriggerLevel (settings e3)) (peak_rssi (peak e3))).
  - intros _. unfold TuneToPeak, SetF. cbn -[ToggleRX].
    rewrite isListening_ToggleRX, peak_ToggleRX, currentState_ToggleRX.
    repeat split. exact Hcs.
  - cbn. lia.
Qed.

(** C7. When a call of [UpdateScan] ends a sweep and leaves the held peak
    strictly above the trigger level, the engine is listening (signal
    lock, on the spectrum screen) and the last thing asked of the radio
    is to tune to the frequency of the held peak, which is also the
    measured frequency and the frequency of the scan position: that is
    the frequency of the peak held before the call when the peak is not
    refreshed, and the frequency [fPeak] of the sweep maximum when it
    is; the frequency [scanInfo.f] of the last sweep step plays no part
    in it. *)
Theorem UpdateScan_locks_on_peak_frequency (cfg : Config) (x : Extern)
    (r : Z) (e : Engine) :
  scanInfo_measurementsCount (scanInfo e) <= scanInfo_i (scanInfo e) ->
  rssiTriggerLevel (settings (UpdateScan cfg x r e))
  < peak_rssi (peak (UpdateScan cfg x r e)) ->
  isListening (UpdateScan cfg x r e) = true
  /\ (currentState e = SPECTRUM -> mode (UpdateScan cfg x r e) = SignalLock)
  /\ peak_f (peak (UpdateScan cfg x r e))
     = (if peak_refresh_due (Scan cfg x r e)
        then scanInfo_fPeak (scanInfo (Scan cfg x r e))
        else peak_f (peak e))
  /\ head (radio (UpdateScan cfg x r e))
     = Some (Tune (if peak_refresh_due (Scan cfg x r e)
                   then scanInfo_fPeak (scanInfo (Scan cfg x r e))
                   else peak_f (peak e)))
  /\ fMeasure (UpdateScan cfg x r e)
     = (if peak_refresh_due (Scan cfg x r e)
        then scanInfo_fPeak (scanInfo (Scan cfg x r e))
        else peak_f (peak e))
  /\ scanInfo_f (scanInfo (UpdateScan cfg x r e))
     = (if peak_refresh_due (Scan cfg x r e)
        then scanInfo_fPeak (scanInfo (Scan cfg x r e))
        else peak_f (peak e))
  /\ (peak_f (peak e) <> 0 -> peak_t (peak e) < 1024 ->
      scanInfo_rssiMax (scanInfo (Scan cfg x r e)) <= peak_rssi (peak e) ->
      head (radio (UpdateScan cfg x r e)) = Some (Tune (peak_f (peak e)))).
Proof.
  intros Hdone. destruct (UpdateScan_complete cfg x r e Hdone) as (_ & ->).
  intros Hover.
  destruct (UpdateScan_finish_lock cfg (Scan cfg x r e))
    as (Hl & Hf & Hsf & Hr & Hcs); [lia|].
  destruct (Scan_frame cfg x r e) as (_ & _ & Hpk & _ & _ & _ & Hscan & _).
  assert (Hheld : peak_f (peak (UpdateScan_finish cfg (Scan cfg x r e)))
                  = if peak_refresh_due (Scan cfg x r e)
                    then scanInfo_fPeak (scanInfo (Scan cfg x r e))
                    else peak_f (peak e)).
  { rewrite peak_UpdateScan_finish, peak_UpdatePeakInfo, Hpk.
    destruct (peak_refresh_due (Scan cfg x r e)); reflexivity. }
  rewrite Hr, Hf, Hsf, Hheld.
  split; [exact Hl|]. split.
  { intros Hs. unfold mode. rewrite Hcs, Hl, Hscan, Hs. reflexivity. }
  do 4 (split; [reflexivity|]).
  intros H0 Ht Hmax.
  destruct (peak_refresh_due (Scan cfg x r e)) eqn:Hdue; [|reflexivity].
  apply peak_refresh_due_iff in Hdue. rewrite Hpk in Hdue. lia.
Qed.

(** Scenario E: the held peak is at 146525000, the sweep ends at
    146685000; the radio is tuned to 146525000. *)
Lemma UpdateScan_locks_on_peak_frequency_witness :
  head (radio (UpdateScan cfg_plain extern0 170 engine_held_peak))
  = Some (Tune 146525000)
  /\ scanInfo_f (scanInfo engine_held_peak) = 146685000.
Proof.
  split; [|reflexivity].
  refine (proj2 (proj2 (proj2 (proj2 (proj2 (proj2
    (UpdateScan_locks_on_peak_frequency cfg_plain extern0 170
       engine_held_peak _ _)))))) _ _ _).
  - vm_compute; discriminate.
  - vm_compute; reflexivity.
  - vm_compute; discriminate.
  - vm_compute; reflexivity.
  - vm_compute; discriminate.
Defined.

(** *** Leaving the signal lock *)

Lemma listen_frame_trans (e1 e2 e3 : Engine) :
  listen_frame e1 e2 -> listen_frame e2 e3 -> listen_frame e1 e3.
Proof.
  unfold listen_frame. intros (? & ? & ? & ? & ?) (? & ? & ? & ? & ?).
  repeat split; congruence.
Qed.

Lemma hist_set_listen (idx v : Z) (e : Engine) :
  listen_frame e (hist_set idx v e).
Proof. unfold hist_set, listen_frame. destruct (in_hist e idx); repeat split. Qed.

Lemma SetRssiHistory_listen (cfg : Config) (idx v : Z) (e : Engine) :
  listen_frame e (SetRssiHistory cfg idx v e).
Proof.
  unfold SetRssiHistory.
  destruct (ENABLE_SCAN_RANGES cfg && _); [|apply hist_set_listen].
  unfold hist_get.
  match goal with
  | |- listen_frame e (hist_set ?j 0 (if ?c then hist_set ?i v ?e1 else ?e1)) =>
      assert (H1 : listen_frame e e1) by (repeat split);
      assert (H2 : listen_frame e1 (if c then hist_set i v e1 else e1))
        by (destruct c; [apply hist_set_listen | repeat split]);
      eapply listen_frame_trans; [exact H1|];
      eapply listen_frame_trans; [exact H2|]; apply hist_set_listen
  end.
Qed.

Lemma Measure_listen (cfg : Config) (r : Z) (e : Engine) :
  settings (Measure cfg r e) = settings e
  /\ isListening (Measure cfg r e) = isListening e
  /\ monitorMode (Measure cfg r e) = monitorMode e
  /\ currentState (Measure cfg r e) = currentState e
  /\ scanInfo_rssi (scanInfo (Measure cfg r e)) = r.
Proof.
  unfold Measure. cbv zeta.
  match goal with
  | |- context [SetRssiHistory cfg ?i r ?e1] =>
      destruct (SetRssiHistory_listen cfg i r e1) as (Hs & Hse & Hl & Hm & Hc)
  end.
  rewrite Hs, Hse, Hl, Hm, Hc. repeat split.
Qed.

Lemma UpdateListening_measure_listen (cfg : Config) (r : Z) (e : Engine) :
  settings (UpdateListening_measure cfg r e) = settings e
  /\ isListening (UpdateListening_measure cfg r e) = isListening e
  /\ monitorMode (UpdateListening_measure cfg r e) = monitorMode e
  /\ currentState (UpdateListening_measure cfg r e) = currentState e
  /\ scanInfo_rssi (scanInfo (UpdateListening_measure cfg r e)) = r.
Proof.
  unfold UpdateListening_measure.
  destruct (currentState e) eqn:Hcs; try (rewrite <- Hcs; apply Measure_listen).
  cbv zeta.
  destruct (Measure_listen cfg r (set_radio (Reg43Scan :: radio e) e))
    as (Hs & Hl & Hm & Hc & Hr).
  cbn [settings isListening monitorMode currentState set_radio] in Hs, Hl, Hm, Hc.
  destruct (_ >=? 2); cbn -[Measure]; rewrite Hs, Hl, Hm, Hc, Hr;
    repeat split; exact Hcs.
Qed.

Lemma UpdateListening_timer_spec (cfg : Config) (tail : bool) (e : Engine) :
  (listenT (UpdateListening_timer cfg tail e) =? 0)
  = listen_timer_expired cfg tail e
  /\ settings (UpdateListening_timer cfg tail e) = settings e
  /\ isListening (UpdateListening_timer cfg tail e) = isListening e
  /\ monitorMode (UpdateListening_timer cfg tail e) = monitorMode e
  /\ currentState (UpdateListening_timer cfg tail e) = currentState e.
Proof.
  unfold UpdateListening_timer, listen_timer_expired.
  destruct (ENABLE_FEAT_N7SIX_SPECTRUM cfg); cbn [andb].
  - destruct tail; cbn; repeat split.
  - destruct (currentState e) eqn:Hcs; cbn; rewrite ?Hcs; repeat split.
Qed.

Lemma ResetScanStats_spec (e : Engine) :
  scanInfo_rssi (scanInfo (ResetScanStats e)) = 0
  /\ scanInfo_rssiMax (scanInfo (ResetScanStats e)) = 0
  /\ scanInfo_iPeak (scanInfo (ResetScanStats e)) = 0
  /\ scanInfo_fPeak (scanInfo (ResetScanStats e)) = 0
  /\ isListening (ResetScanStats e) = isListening e
  /\ currentState (ResetScanStats e) = currentState e.
Proof. repeat split. Qed.

(** C8 (as amended). Once the listen timer has run out,
    [UpdateListening] samples the RSSI and leaves the signal lock exactly
    when monitor mode is off and either the sample is strictly below the
    trigger level itself (the level used to enter the lock, with no
    margin below it) or the tail detector has fired; until the timer has
    run out it stays locked.  On leaving, the sweep statistics are reset
    and, on the spectrum screen, the engine is back to sweeping.  The
    trigger level is not changed. *)
Theorem UpdateListening_leaves_lock (cfg : Config) (tail : bool) (r : Z)
    (e : Engine) :
  isListening e = true ->
  (isListening (UpdateListening cfg tail r e) = false
   <-> (listen_timer_expired cfg tail e = true
        /\ monitorMode e = false
        /\ (r < rssiTriggerLevel (settings e)
            \/ ENABLE_FEAT_N7SIX_SPECTRUM cfg && tail = true)))
  /\ (isListening (UpdateListening cfg tail r e) = false ->
      scanInfo_rssi (scanInfo (UpdateListening cfg tail r e)) = 0
      /\ scanInfo_rssiMax (scanInfo (UpdateListening cfg tail r e)) = 0
      /\ scanInfo_iPeak (scanInfo (UpdateListening cfg tail r e)) = 0
      /\ scanInfo_fPeak (scanInfo (UpdateListening cfg tail r e)) = 0
      /\ (currentState e = SPECTRUM ->
          mode (UpdateListening cfg tail r e) = Sweep))
  /\ rssiTriggerLevel (settings (UpdateListening cfg tail r e))
     = rssiTriggerLevel (settings e).
Proof.
  intros Hlisten. unfold UpdateListening. cbv zeta.
  set (e1 := set_preventKeypress false e).
  destruct (UpdateListening_timer_spec cfg tail e1) as (Ht & Hs2 & Hl2 & Hm2 & Hc2).
  change (listen_timer_expired cfg tail e1) with (listen_timer_expired cfg tail e)
    in Ht.
  change (settings e1) with (settings e) in Hs2.
  change (isListening e1) with (isListening e) in Hl2.
  change (monitorMode e1) with (monitorMode e) in Hm2.
  change (currentState e1) with (currentState e) in Hc2.
  set (e2 := UpdateListening_timer cfg tail e1) in *.
  rewrite Ht.
  destruct (listen_timer_expired cfg tail e) eqn:Hexp; cbn [negb].
  2:{ cbn. rewrite Hl2, Hs2, Hlisten. repeat split; try discriminate.
      intros (Habs & _). discriminate. }
  destruct (UpdateListening_measure_listen cfg r e2) as (Hs3 & Hl3 & Hm3 & Hc3 & Hr3).
  set (e3 := UpdateListening_measure cfg r e2) in *.
  set (e5 := set_redrawScreen true _).
  assert (Hover : IsPeakOverLevel e5 = (rssiTriggerLevel (settings e) <=? r)).
  { unfold IsPeakOverLevel. subst e5. cbn. rewrite Hr3, Hs3, Hs2.
    apply Z.geb_leb. }
  assert (Hmon : monitorMode e5 = monitorMode e)
    by (subst e5; cbn; congruence).
  assert (Hlis : isListening e5 = true)
    by (subst e5; cbn; congruence).
  assert (Hset : settings e5 = settings e)
    by (subst e5; cbn; congruence).
  assert (Hcur : currentState e5 = currentState e)
    by (subst e5; cbn; congruence).
  rewrite Hover, Hmon.
  destruct (Z.leb_spec (rssiTriggerLevel (settings e)) r) as [Hge|Hlt];
    destruct (ENABLE_FEAT_N7SIX_SPECTRUM cfg && tail) eqn:Htail;
    destruct (monitorMode e) eqn:Hmode; cbn [andb orb negb].
  all: try (cbn [isListening settings set_listenT]; rewrite Hlis, Hset; split;
            [split; [discriminate | intros (_ & Hm & Hr); first
               [discriminate | destruct Hr; [lia | discriminate]]]
            | split; [discriminate | reflexivity]]).
  all: destruct (ResetScanStats_spec (ToggleRX cfg false e5))
         as (R1 & R2 & R3 & R4 & R5 & R6);
       rewrite R1, R2, R3, R4; unfold mode; rewrite R5, R6;
       rewrite isListening_ToggleRX, currentState_ToggleRX, Hcur;
       change (settings (ResetScanStats (ToggleRX cfg false e5)))
         with (settings (ToggleRX cfg false e5));
       rewrite settings_ToggleRX, Hset;
       (split; [split; [intros _; repeat split; auto | reflexivity]
               | split; [intros _; repeat split; intros ->; reflexivity
                        | reflexivity]]).
Qed.

(** On the spectrum screen, not in monitor mode, timer run out, a sample
    of 149 under a trigger level of 150: the lock is left. *)
Lemma UpdateListening_leaves_lock_witness :
  isListening (UpdateListening cfg_plain false 149 engine_listening) = false.
Proof.
  refine (proj2 (proj1
    (UpdateListening_leaves_lock cfg_plain false 149 engine_listening _)) _).
  - reflexivity.
  - vm_compute. repeat split. left. reflexivity.
Defined.

(** C8 (as stated) fails in two ways.  A sample of 149 under a trigger
    level of 150 ends the lock although it is not below the level minus
    any positive margin; and with the tail detector fired, a sample of
    300, far above the level, ends it too.  The second variant of the
    file has a margin of 4, but there too the tail detector ends the lock
    under a sample of 300. *)
Lemma UpdateListening_exit_without_margin :
  rssiTriggerLevel (settings engine_listening) = 150
  /\ isListening (UpdateListening cfg_plain false 149 engine_listening) = false
  /\ ~ (exists margin, 0 < margin /\ 149 < 150 - margin)
  /\ isListening (UpdateListening cfg_full true 300 engine_listening) = false
  /\ monitorMode engine_listening = false
  /\ Part000.keeps_lock true
       (set_peak (mkPeakInfo 0 300 146525000 10) engine_listening) = false.
Proof.
  repeat split; try reflexivity.
  intros (margin & Hm & Hlt). lia.
Qed.

(** *** Examples *)

(** The levels of [sweep_example]: the floor 100 gives 0, the peak 200
    gives 15, the empty and the skipped bin give 0, and the faint 110,
    whose quotient is 1, is raised to 3. *)
Example quantized_level_example :
  map (quantized_level sweep_example) [100; 200; 0; 65535; 110]
  = [0; 15; 0; 0; 3].
Proof. vm_compute. reflexivity. Qed.

(** The first push into the cleared buffer: bin 4 reads back at age 0 the
    level of its sample. *)
Lemma UpdateWaterfall_circular_push_witness :
  waterfall_read 0 4 (push_sweep engine0 sweep_example)
  = Some (quantized_level sweep_example 110).
Proof.
  refine (proj1
    (UpdateWaterfall_circular_push engine0 sweep_example [] 4 110 _ _ _ _ _)).
  - unfold buffers_ok, engine0. cbn [rssiHistory waterfallHistory].
    repeat split.
    + apply Forall_replicate. unfold is_u16. lia.
    + apply Forall_replicate. reflexivity.
  - cbn. lia.
  - unfold sweep_ok, sweep_example. split; [reflexivity|].
    apply Forall_app. split.
    + repeat (apply Forall_cons; split; [unfold is_u16; lia|]).
      apply Forall_nil. exact I.
    + apply Forall_replicate. unfold is_u16. lia.
  - apply Forall_nil. exact I.
  - reflexivity.
Defined.

(** Register 0x63 busy twice: [GetRssi] returns the sample after two
    delays, given fuel for three readings. *)
Example GetRssi_ready_after_2 :
  GetRssi cfg_plain 3 radio_ready_after_2 0 = Some (100, 2%nat)
  /\ GetRssi cfg_plain 2 radio_ready_after_2 0 = None.
Proof. split; reflexivity. Qed.

(** Scenario A of the specification: level at the sentinel, sweep
    maximum 300, and the level is armed at 320. *)
Example AutoTriggerLevel_arming :
  rssiTriggerLevel (settings (AutoTriggerLevel (engine_with 65535 300))) = 320.
Proof. reflexivity. Qed.

(** Scenario C: the held peak of [engine_held_peak], aged by one more
    step to 1024, is refreshed from the sweep although nothing is
    stronger. *)
Example UpdatePeakInfo_stale :
  peak (UpdatePeakInfo (NextScanStep engine_held_peak))
  = mkPeakInfo 0 180 146532500 3.
Proof. reflexivity. Qed.

(** [InitScan] twice gives what [InitScan] once gives. *)
Lemma InitScan_idempotent (cfg : Config) (x : Extern) (e : Engine) :
  InitScan cfg x (InitScan cfg x e) = InitScan cfg x e.
Proof. reflexivity. Qed.

(** * Properties of the rest of the analyzer *)

(** ** Settings kept in flash *)

Lemma flash_byte_range (flash : list Z) :
  0 <= u8 (default 0 (flash !! 3%nat)) < 256.
Proof. unfold u8. zlia. Qed.

(** Every byte value gives settings in their valid ranges. *)
Lemma LoadSettings_byte_valid (d : Z) :
  0 <= d < 256 ->
  0 <= Z.shiftr (Z.land d 240) 4 <= 15
  /\ 0 <= Z.shiftr (Z.land (Z.land d 15) 12) 2 <= 3
  /\ 0 <= Z.land (Z.land d 15) 3 <= 3.
Proof.
  intros Hd.
  assert (Hall : forallb
            (fun d =>
               (0 <=? Z.shiftr (Z.land d 240) 4)
               && (Z.shiftr (Z.land d 240) 4 <=? 15)
               && (0 <=? Z.shiftr (Z.land (Z.land d 15) 12) 2)
               && (Z.shiftr (Z.land (Z.land d 15) 12) 2 <=? 3)
               && (0 <=? Z.land (Z.land d 15) 3)
               && (Z.land (Z.land d 15) 3 <=? 3))
            (seqZ 0 256) = true) by (vm_compute; reflexivity).
  rewrite forallb_forall in Hall.
  specialize (Hall d).
  rewrite !andb_true_iff, !Z.leb_le in Hall.
  assert (Hin : In d (seqZ 0 256))
    by (apply list_elem_of_In, elem_of_seqZ; lia).
  specialize (Hall Hin). lia.
Qed.

(** X1. Whatever the 8 bytes read from flash hold (also when fewer are
    read), [LoadSettings] leaves [stepsCount] within 0..3 and [listenBw]
    within 0..2, and [scanStepIndex] within 0..14 or at the default
    [S_STEP_25_0kHz]; the fields it does not load are kept.  An erased
    byte (0xFF) gives the default step, 16 steps and the wide filter. *)
Theorem LoadSettings_valid (S_STEP_25_0kHz : Z) (flash : list Z)
    (s : SpectrumSettings) :
  (0 <= scanStepIndex (LoadSettings S_STEP_25_0kHz flash s) <= 14
   \/ scanStepIndex (LoadSettings S_STEP_25_0kHz flash s) = S_STEP_25_0kHz)
  /\ 0 <= stepsCount (LoadSettings S_STEP_25_0kHz flash s) <= 3
  /\ 0 <= listenBw (LoadSettings S_STEP_25_0kHz flash s) <= 2
  /\ rssiTriggerLevel (LoadSettings S_STEP_25_0kHz flash s) = rssiTriggerLevel s
  /\ modulationType (LoadSettings S_STEP_25_0kHz flash s) = modulationType s
  /\ dbMin (LoadSettings S_STEP_25_0kHz flash s) = dbMin s
  /\ dbMax (LoadSettings S_STEP_25_0kHz flash s) = dbMax s
  /\ (flash !! 3%nat = Some 255 ->
      scanStepIndex (LoadSettings S_STEP_25_0kHz flash s) = S_STEP_25_0kHz
      /\ stepsCount (LoadSettings S_STEP_25_0kHz flash s) = STEPS_16
      /\ listenBw (LoadSettings S_STEP_25_0kHz flash s) = BK4819_FILTER_BW_WIDE).
Proof.
  unfold LoadSettings. cbv zeta.
  pose proof (flash_byte_range flash) as Hd.
  destruct (LoadSettings_byte_valid _ Hd) as (Ha & Hb & Hc).
  set (d := u8 (default 0 (flash !! 3%nat))) in *.
  cbn [scanStepIndex stepsCount listenBw set_scanStepIndex set_stepsCount
       set_listenBw].
  assert (E255 : flash !! 3%nat = Some 255 -> d = 255)
    by (intros Hf; subst d; rewrite Hf; reflexivity).
  split.
  { rewrite !Z.gtb_ltb.
    destruct (Z.ltb_spec 14 (Z.shiftr (Z.land d 240) 4)); cbn;
      destruct (Z.ltb_spec 3 (Z.shiftr (Z.land (Z.land d 15) 12) 2)); cbn;
      destruct (Z.ltb_spec 2 (Z.land (Z.land d 15) 3)); cbn; lia. }
  split.
  { rewrite !Z.gtb_ltb.
    destruct (Z.ltb_spec 14 (Z.shiftr (Z.land d 240) 4)); cbn;
      destruct (Z.ltb_spec 3 (Z.shiftr (Z.land (Z.land d 15) 12) 2)); cbn;
      destruct (Z.ltb_spec 2 (Z.land (Z.land d 15) 3)); cbn;
      unfold STEPS_64; lia. }
  split.
  { rewrite !Z.gtb_ltb.
    destruct (Z.ltb_spec 14 (Z.shiftr (Z.land d 240) 4)); cbn;
      destruct (Z.ltb_spec 3 (Z.shiftr (Z.land (Z.land d 15) 12) 2)); cbn;
      destruct (Z.ltb_spec 2 (Z.land (Z.land d 15) 3)); cbn;
      unfold BK4819_FILTER_BW_WIDE; lia. }
  do 4 (split; [destruct (_ >? 14); cbn; destruct (_ >? 3); cbn;
                destruct (_ >? 2); reflexivity|]).
  intros Hf. rewrite (E255 Hf). repeat split.
Qed.

Lemma u8_idem (v : Z) : u8 (u8 v) = u8 v.
Proof. unfold u8. zlia. Qed.

(** The byte that [SaveSettings] packs gives back its three fields. *)
Lemma settings_byte_roundtrip (a b c : Z) :
  0 <= a <= 14 -> 0 <= b <= 3 -> 0 <= c <= 2 ->
  Z.shiftr (Z.land (u8 (Z.lor (Z.lor (Z.shiftl a 4) (Z.shiftl b 2)) c)) 240) 4
  = a
  /\ Z.shiftr (Z.land (Z.land (u8 (Z.lor (Z.lor (Z.shiftl a 4) (Z.shiftl b 2)) c))
                         15) 12) 2 = b
  /\ Z.land (Z.land (u8 (Z.lor (Z.lor (Z.shiftl a 4) (Z.shiftl b 2)) c)) 15) 3
     = c.
Proof.
  intros Ha Hb Hc.
  assert (Hall : forallb (fun a => forallb (fun b => forallb (fun c =>
       let d := u8 (Z.lor (Z.lor (Z.shiftl a 4) (Z.shiftl b 2)) c) in
       (Z.shiftr (Z.land d 240) 4 =? a)
       && (Z.shiftr (Z.land (Z.land d 15) 12) 2 =? b)
       && (Z.land (Z.land d 15) 3 =? c))
     (seqZ 0 3)) (seqZ 0 4)) (seqZ 0 15) = true) by (vm_compute; reflexivity).
  rewrite forallb_forall in Hall.
  assert (Hia : In a (seqZ 0 15))
    by (apply list_elem_of_In, elem_of_seqZ; lia).
  specialize (Hall a Hia). rewrite forallb_forall in Hall.
  assert (Hib : In b (seqZ 0 4))
    by (apply list_elem_of_In, elem_of_seqZ; lia).
  specialize (Hall b Hib). rewrite forallb_forall in Hall.
  assert (Hic : In c (seqZ 0 3))
    by (apply list_elem_of_In, elem_of_seqZ; lia).
  specialize (Hall c Hic). cbv zeta in Hall.
  rewrite !andb_true_iff, !Z.eqb_eq in Hall. tauto.
Qed.

(** X2. [SaveSettings] changes byte 3 of the 8-byte record and no other,
    and [LoadSettings] reads back from it the step index, the step count
    and the listen bandwidth that were saved, for every valid value of
    the three (step index 0..14, step count 0..3, bandwidth 0..2). *)
Theorem LoadSettings_SaveSettings (S_STEP_25_0kHz : Z) (flash : list Z)
    (s s0 : SpectrumSettings) :
  (3 < length flash)%nat ->
  0 <= scanStepIndex s <= 14 ->
  0 <= stepsCount s <= 3 ->
  0 <= listenBw s <= 2 ->
  scanStepIndex (LoadSettings S_STEP_25_0kHz (SaveSettings flash s) s0)
  = scanStepIndex s
  /\ stepsCount (LoadSettings S_STEP_25_0kHz (SaveSettings flash s) s0)
     = stepsCount s
  /\ listenBw (LoadSettings S_STEP_25_0kHz (SaveSettings flash s) s0)
     = listenBw s
  /\ length (SaveSettings flash s) = length flash
  /\ (forall j : nat, j <> 3%nat -> SaveSettings flash s !! j = flash !! j).
Proof.
  intros Hlen Ha Hb Hc.
  assert (Hrest : length (SaveSettings flash s) = length flash
                  /\ (forall j : nat, j <> 3%nat ->
                      SaveSettings flash s !! j = flash !! j)).
  { unfold SaveSettings. split; [apply length_insert|].
    intros j Hj. apply list_lookup_insert_ne. congruence. }
  unfold LoadSettings, SaveSettings. cbv zeta.
  rewrite list_lookup_insert_eq by exact Hlen.
  unfold default; cbn [from_option]; unfold id.
  cbn [scanStepIndex stepsCount listenBw set_scanStepIndex set_stepsCount
       set_listenBw].
  destruct (settings_byte_roundtrip _ _ _ Ha Hb Hc) as (Ea & Eb & Ec).
  rewrite u8_idem, Ea, Eb, Ec.
  rewrite !Z.gtb_ltb.
  destruct (Z.ltb_spec 14 (scanStepIndex s)); [lia|].
  destruct (Z.ltb_spec 3 (stepsCount s)); [lia|].
  destruct (Z.ltb_spec 2 (listenBw s)); [lia|].
  cbn [scanStepIndex stepsCount listenBw set_scanStepIndex set_stepsCount
       set_listenBw].
  repeat split; try reflexivity; apply Hrest.
Qed.

(** Step index 10, 32 steps and the narrow filter, saved over an erased
    record. *)
Lemma LoadSettings_SaveSettings_witness :
  scanStepIndex
    (LoadSettings 10 (SaveSettings (replicate 8 255) (mkSettings 2 10 150 1 0 (-130) (-50)))
       settings0) = 10.
Proof.
  refine (proj1 (LoadSettings_SaveSettings 10 (replicate 8 255)
                   (mkSettings 2 10 150 1 0 (-130) (-50)) settings0 _ _ _ _)).
  - cbn. lia.
  - cbn. lia.
  - cbn. lia.
  - cbn. lia.
Defined.

(** ** Drawing scale *)

Lemma shiftl_1 (a : Z) : Z.shiftl a 1 = 2 * a.
Proof. rewrite Z.shiftl_mul_pow2 by lia. lia. Qed.

(** The pixel offset of [Rssi2PX] before [pxMin] is added, for a level
    [t] above the lower end of a range [R] and a pixel range [P]. *)
Lemma px_offset_range (t R P : Z) :
  0 < R -> 0 <= P -> 0 <= t <= R ->
  0 <= Z.quot (t * P + Z.quot R 2) R <= P.
Proof.
  intros HR HP Ht.
  rewrite (Z.quot_div_nonneg R 2) by lia.
  assert (0 <= R / 2 < R) by zlia.
  assert (0 <= t * P) by (apply Z.mul_nonneg_nonneg; lia).
  assert (t * P <= R * P) by (apply Z.mul_le_mono_nonneg_r; lia).
  rewrite Z.quot_div_nonneg by lia.
  split.
  - apply Z.div_pos; lia.
  - apply Z.lt_succ_r. apply Z.div_lt_upper_bound; lia.
Qed.

Lemma px_offset_mono (t1 t2 R P : Z) :
  0 < R -> 0 <= P -> 0 <= t1 <= t2 ->
  Z.quot (t1 * P + Z.quot R 2) R <= Z.quot (t2 * P + Z.quot R 2) R.
Proof.
  intros HR HP Ht.
  rewrite (Z.quot_div_nonneg R 2) by lia.
  assert (0 <= R / 2 < R) by zlia.
  assert (0 <= t1 * P) by (apply Z.mul_nonneg_nonneg; lia).
  assert (t1 * P <= t2 * P) by (apply Z.mul_le_mono_nonneg_r; lia).
  rewrite !Z.quot_div_nonneg by lia.
  apply Z.div_le_mono; [lia|]. lia.
Qed.

Lemma clamp_mono (v1 v2 lo hi : Z) :
  lo <= hi -> v1 <= v2 -> clamp v1 lo hi <= clamp v2 lo hi.
Proof. unfold clamp. intros. break_cmp; lia. Qed.

Lemma Rssi2DBm_mono (x : Extern) (r1 r2 : Z) :
  0 <= r1 <= r2 -> Rssi2DBm x r1 <= Rssi2DBm x r2.
Proof. unfold Rssi2DBm. intros. rewrite !Z.quot_div_nonneg by lia. zlia. Qed.

(** [Rssi2PX] without its 8-bit conversions: [pxMin] plus the rounded
    share of the pixel range that the clamped level takes of the
    window. *)
Lemma Rssi2PX_offset (x : Extern) (s : SpectrumSettings)
    (rssi pxMin pxMax : Z) :
  dbMin s < dbMax s ->
  0 <= pxMin <= pxMax -> pxMax <= 255 ->
  Rssi2PX x s rssi pxMin pxMax
  = pxMin
    + Z.quot ((clamp (2 * Rssi2DBm x rssi) (2 * dbMin s) (2 * dbMax s)
               - 2 * dbMin s) * (pxMax - pxMin)
              + Z.quot (2 * dbMax s - 2 * dbMin s) 2)
        (2 * dbMax s - 2 * dbMin s).
Proof.
  intros Hw Hpx Hmax.
  unfold Rssi2PX. cbv zeta. rewrite !shiftl_1.
  rewrite (u8_small (pxMax - pxMin)) by lia.
  pose proof (clamp_between (2 * Rssi2DBm x rssi) (2 * dbMin s) (2 * dbMax s))
    as Hc.
  pose proof (px_offset_range
                (clamp (2 * Rssi2DBm x rssi) (2 * dbMin s) (2 * dbMax s)
                 - 2 * dbMin s)
                (2 * dbMax s - 2 * dbMin s) (pxMax - pxMin)) as Hq.
  rewrite u8_small by lia. lia.
Qed.

(** X3. When the display window is not empty ([dbMin < dbMax]) and
    [pxMin <= pxMax] are pixel positions, [Rssi2PX] stays within
    [[pxMin, pxMax]], grows with the RSSI, gives [pxMin] for a level at
    or below [dbMin] and [pxMax] for a level at or above [dbMax]. *)
Theorem Rssi2PX_within_pixels (x : Extern) (s : SpectrumSettings)
    (rssi rssi' pxMin pxMax : Z) :
  dbMin s < dbMax s ->
  0 <= pxMin <= pxMax -> pxMax <= 255 ->
  0 <= rssi <= rssi' ->
  pxMin <= Rssi2PX x s rssi pxMin pxMax <= pxMax
  /\ Rssi2PX x s rssi pxMin pxMax <= Rssi2PX x s rssi' pxMin pxMax
  /\ (Rssi2DBm x rssi <= dbMin s -> Rssi2PX x s rssi pxMin pxMax = pxMin)
  /\ (dbMax s <= Rssi2DBm x rssi -> Rssi2PX x s rssi pxMin pxMax = pxMax).
Proof.
  intros Hw Hpx Hmax Hr.
  rewrite !Rssi2PX_offset by assumption.
  set (R := 2 * dbMax s - 2 * dbMin s).
  assert (HR : 0 < R) by (subst R; lia).
  pose proof (clamp_between (2 * Rssi2DBm x rssi) (2 * dbMin s) (2 * dbMax s))
    as Hc1.
  pose proof (clamp_between (2 * Rssi2DBm x rssi') (2 * dbMin s) (2 * dbMax s))
    as Hc2.
  pose proof (clamp_mono (2 * Rssi2DBm x rssi) (2 * Rssi2DBm x rssi')
                (2 * dbMin s) (2 * dbMax s)) as Hm.
  pose proof (Rssi2DBm_mono x rssi rssi' Hr) as Hd.
  set (t1 := clamp (2 * Rssi2DBm x rssi) (2 * dbMin s) (2 * dbMax s)) in *.
  set (t2 := clamp (2 * Rssi2DBm x rssi') (2 * dbMin s) (2 * dbMax s)) in *.
  pose proof (px_offset_range (t1 - 2 * dbMin s) R (pxMax - pxMin)) as H1.
  pose proof (px_offset_mono (t1 - 2 * dbMin s) (t2 - 2 * dbMin s) R
                (pxMax - pxMin)) as H12.
  split; [lia|]. split; [lia|].
  split.
  - intros Hlow.
    assert (Ht : t1 = 2 * dbMin s)
      by (subst t1; unfold clamp; break_cmp; lia).
    rewrite Ht. replace (2 * dbMin s - 2 * dbMin s) with 0 by lia.
    rewrite Z.mul_0_l, Z.add_0_l.
    rewrite (Z.quot_div_nonneg R 2) by lia.
    assert (0 <= R / 2 < R) by zlia.
    rewrite Z.quot_small by lia. lia.
  - intros Hhigh.
    assert (Ht : t1 = 2 * dbMax s)
      by (subst t1; unfold clamp; break_cmp; lia).
    rewrite Ht. fold R.
    rewrite (Z.quot_div_nonneg R 2) by lia.
    assert (0 <= R / 2 < R) by zlia.
    assert (0 <= R * (pxMax - pxMin)) by (apply Z.mul_nonneg_nonneg; lia).
    rewrite Z.quot_div_nonneg by lia.
    replace (R * (pxMax - pxMin) + R / 2) with (R / 2 + (pxMax - pxMin) * R)
      by lia.
    rewrite Z.div_add by lia. rewrite Z.div_small by lia. lia.
Qed.

(** The default window and the spectrum area: rssi 120 (-100 dBm). *)
Lemma Rssi2PX_within_pixels_witness :
  0 <= Rssi2PX extern0 settings0 120 0 40 <= 40.
Proof.
  refine (proj1 (Rssi2PX_within_pixels extern0 settings0 120 120 0 40 _ _ _ _)).
  - vm_compute. reflexivity.
  - lia.
  - lia.
  - lia.
Defined.

(** X4. [Rssi2Y] turns the scale upside down for the screen: with a
    window that is not empty, the row lies between 0 and [DrawingEndY],
    and a stronger signal is never drawn lower (its row is never
    larger). *)
Theorem Rssi2Y_within_screen (DrawingEndY : Z) (x : Extern)
    (s : SpectrumSettings) (rssi rssi' : Z) :
  dbMin s < dbMax s ->
  0 <= DrawingEndY <= 255 ->
  0 <= rssi <= rssi' ->
  0 <= Rssi2Y DrawingEndY x s rssi <= DrawingEndY
  /\ Rssi2Y DrawingEndY x s rssi' <= Rssi2Y DrawingEndY x s rssi.
Proof.
  intros Hw Hy Hr. unfold Rssi2Y.
  rewrite !Rssi2PX_offset by lia.
  set (R := 2 * dbMax s - 2 * dbMin s).
  assert (HR : 0 < R) by (subst R; lia).
  pose proof (clamp_between (2 * Rssi2DBm x rssi) (2 * dbMin s) (2 * dbMax s))
    as Hc1.
  pose proof (clamp_between (2 * Rssi2DBm x rssi') (2 * dbMin s) (2 * dbMax s))
    as Hc2.
  pose proof (clamp_mono (2 * Rssi2DBm x rssi) (2 * Rssi2DBm x rssi')
                (2 * dbMin s) (2 * dbMax s)) as Hm.
  pose proof (Rssi2DBm_mono x rssi rssi' Hr) as Hd.
  set (t1 := clamp (2 * Rssi2DBm x rssi) (2 * dbMin s) (2 * dbMax s)) in *.
  set (t2 := clamp (2 * Rssi2DBm x rssi') (2 * dbMin s) (2 * dbMax s)) in *.
  pose proof (px_offset_range (t1 - 2 * dbMin s) R (DrawingEndY - 0)) as H1.
  pose proof (px_offset_range (t2 - 2 * dbMin s) R (DrawingEndY - 0)) as H2.
  pose proof (px_offset_mono (t1 - 2 * dbMin s) (t2 - 2 * dbMin s) R
                (DrawingEndY - 0)) as H12.
  rewrite !u8_small by lia. lia.
Qed.

(** A spectrum area of 40 rows: rssi 120 and rssi 160. *)
Lemma Rssi2Y_within_screen_witness :
  Rssi2Y 40 extern0 settings0 160 <= Rssi2Y 40 extern0 settings0 120.
Proof.
  refine (proj2 (Rssi2Y_within_screen 40 extern0 settings0 120 160 _ _ _)).
  - vm_compute. reflexivity.
  - lia.
  - lia.
Defined.

(** ** Keyboard *)

Lemma held_counter_range (j : Z) : 0 <= j -> 0 <= held_counter j <= 16.
Proof. unfold held_counter. intros. break_cmp; zlia. Qed.

Lemma held_counter_next (j : Z) :
  0 <= j ->
  held_counter (j + 1)
  = if held_counter j <? 16 then held_counter j + 1 else held_counter j - 3.
Proof. unfold held_counter. intros. break_cmp; zlia. Qed.

Lemma held_fires_counter (j : Z) :
  0 <= j ->
  (held_counter j =? 3) || (held_counter j =? 16) = held_fires j.
Proof.
  unfold held_counter, held_fires. intros.
  break_cmp; cbn; try reflexivity; zlia.
Qed.

(** One more poll of the key that is already current. *)
Lemma HandleUserInput_same (KEY_INVALID key : Z) (k : KeyboardState) (j : Z) :
  key <> KEY_INVALID -> 0 <= j ->
  kbd_current k = key -> kbd_counter k = held_counter j ->
  HandleUserInput KEY_INVALID key k
  = (mkKbd key key (held_counter (j + 1)), held_fires (j + 1)).
Proof.
  intros Hk Hj Hc Hn.
  unfold HandleUserInput. cbv zeta. cbn [kbd_current kbd_prev kbd_counter].
  rewrite Hc, Hn.
  destruct (Z.eqb_spec key KEY_INVALID) as [|_]; [contradiction|].
  rewrite Z.eqb_refl. cbn [negb andb].
  pose proof (held_counter_range j Hj) as Hr.
  rewrite (held_counter_next j Hj).
  rewrite <- (held_fires_counter (j + 1)) by lia.
  rewrite (held_counter_next j Hj).
  destruct (Z.ltb_spec (held_counter j) 16);
    cbn [kbd_counter]; rewrite u8_small by lia; reflexivity.
Qed.

Lemma poll_keys_held (KEY_INVALID key : Z) (n : nat) :
  key <> KEY_INVALID ->
  forall (k : KeyboardState) (j : Z),
  0 <= j -> kbd_current k = key -> kbd_counter k = held_counter j ->
  snd (poll_keys KEY_INVALID (replicate n key) k)
  = map held_fires (seqZ (j + 1) (Z.of_nat n))
  /\ kbd_counter (fst (poll_keys KEY_INVALID (replicate n key) k))
     = held_counter (j + Z.of_nat n).
Proof.
  intros Hk. induction n as [|n IH]; intros k j Hj Hc Hn.
  - cbn. rewrite Z.add_0_r. split; [reflexivity|exact Hn].
  - cbn [replicate poll_keys].
    rewrite (HandleUserInput_same KEY_INVALID key k j Hk Hj Hc Hn).
    destruct (IH (mkKbd key key (held_counter (j + 1))) (j + 1)) as [IH1 IH2];
      [lia|reflexivity|reflexivity|].
    destruct (poll_keys KEY_INVALID (replicate n key)
                (mkKbd key key (held_counter (j + 1)))) as [k' rest].
    cbn [fst snd] in *.
    rewrite seqZ_cons by lia. cbn [map].
    replace (Z.succ (j + 1)) with (j + 1 + 1) by lia.
    replace (Z.pred (Z.of_nat (S n))) with (Z.of_nat n) by lia.
    rewrite IH1, IH2. split; [reflexivity|]. f_equal. lia.
Qed.

(** X5. Debouncing and auto-repeat of [HandleUserInput]: when a key is
    pressed (the previous poll saw another key or none) and held for [n]
    polls, the key handler is called on the fourth poll, on the
    seventeenth, and then on every fourth poll, and on no other; a key
    held for three polls or fewer never reaches the handler.  The counter
    stays within 0..16. *)
Theorem HandleUserInput_debounce (KEY_INVALID key : Z) (k0 : KeyboardState)
    (n : nat) :
  key <> KEY_INVALID -> kbd_current k0 <> key ->
  snd (poll_keys KEY_INVALID (replicate n key) k0)
  = map held_fires (seqZ 0 (Z.of_nat n))
  /\ 0 <= kbd_counter (fst (poll_keys KEY_INVALID (replicate (S n) key) k0)) <= 16
  /\ ((n <= 3)%nat ->
      Forall (fun fired => fired = false)
        (snd (poll_keys KEY_INVALID (replicate n key) k0))).
Proof.
  intros Hk H0.
  assert (Hfirst : HandleUserInput KEY_INVALID key k0
                   = (mkKbd key (kbd_current k0) 0, false)).
  { unfold HandleUserInput. cbv zeta. cbn [kbd_current kbd_prev kbd_counter].
    destruct (Z.eqb_spec key (kbd_current k0)) as [E|_];
      [symmetry in E; contradiction|].
    rewrite andb_false_r. reflexivity. }
  assert (Hlist : forall m : nat,
             snd (poll_keys KEY_INVALID (replicate m key) k0)
             = map held_fires (seqZ 0 (Z.of_nat m))).
  { intros [|m]; [reflexivity|].
    cbn [replicate poll_keys]. rewrite Hfirst.
    destruct (poll_keys_held KEY_INVALID key m Hk
                (mkKbd key (kbd_current k0) 0) 0) as [H1 _];
      [lia|reflexivity|reflexivity|].
    destruct (poll_keys KEY_INVALID (replicate m key)
                (mkKbd key (kbd_current k0) 0)) as [k' rest].
    cbn [fst snd] in *. rewrite H1.
    rewrite (seqZ_cons 0) by lia. cbn [map].
    replace (Z.pred (Z.of_nat (S m))) with (Z.of_nat m) by lia.
    reflexivity. }
  split; [apply Hlist|]. split.
  - cbn [replicate poll_keys]. rewrite Hfirst.
    destruct (poll_keys_held KEY_INVALID key n Hk
                (mkKbd key (kbd_current k0) 0) 0) as [_ H2];
      [lia|reflexivity|reflexivity|].
    destruct (poll_keys KEY_INVALID (replicate n key)
                (mkKbd key (kbd_current k0) 0)) as [k' rest].
    cbn [fst snd] in *. rewrite H2. apply held_counter_range. lia.
  - intros Hn. rewrite Hlist.
    destruct n as [|[|[|[|n]]]]; [| | | |lia]; cbn;
      repeat constructor.
Qed.

(** Key 5 pressed after no key (255) and held for 21 polls. *)
Lemma HandleUserInput_debounce_witness :
  snd (poll_keys 255 (replicate 21 5) (mkKbd 255 255 0))
  = map held_fires (seqZ 0 21).
Proof.
  refine (proj1 (HandleUserInput_debounce 255 5 (mkKbd 255 255 0) 21 _ _)).
  - lia.
  - cbn. lia.
Defined.

(** ** Blacklist *)

(** What the steps of [Blacklist] after the first leave alone. *)
Lemma blacklist_hist_set (idx v : Z) (e : Engine) :
  blacklistFreqs (hist_set idx v e) = blacklistFreqs e
  /\ blacklistFreqsIdx (hist_set idx v e) = blacklistFreqsIdx e.
Proof. unfold hist_set. destruct (in_hist e idx); split; reflexivity. Qed.

Lemma blacklist_SetRssiHistory (cfg : Config) (idx v : Z) (e : Engine) :
  blacklistFreqs (SetRssiHistory cfg idx v e) = blacklistFreqs e
  /\ blacklistFreqsIdx (SetRssiHistory cfg idx v e) = blacklistFreqsIdx e.
Proof.
  unfold SetRssiHistory.
  destruct (ENABLE_SCAN_RANGES cfg && _); [|apply blacklist_hist_set].
  unfold hist_get.
  match goal with
  | |- context [if ?b then _ else _] => destruct b
  end.
  - match goal with
    | |- context [hist_set ?i 0 (hist_set ?j ?w ?E)] =>
        destruct (blacklist_hist_set i 0 (hist_set j w E)) as [-> ->];
        destruct (blacklist_hist_set j w E) as [-> ->]
    end.
    split; reflexivity.
  - match goal with
    | |- context [hist_set ?i 0 ?E] =>
        destruct (blacklist_hist_set i 0 E) as [-> ->]
    end.
    split; reflexivity.
Qed.

Lemma blacklist_ToggleRX (cfg : Config) (on : bool) (e : Engine) :
  blacklistFreqs (ToggleRX cfg on e) = blacklistFreqs e
  /\ blacklistFreqsIdx (ToggleRX cfg on e) = blacklistFreqsIdx e
  /\ rssiHistory (ToggleRX cfg on e) = rssiHistory e
  /\ pastEnd (ToggleRX cfg on e) = pastEnd e
  /\ peak (ToggleRX cfg on e) = peak e.
Proof.
  unfold ToggleRX, ToggleAudio.
  destruct (ENABLE_FEAT_N7SIX_SPECTRUM cfg), (isListening e), on;
    cbn; try (repeat split; fail);
    repeat match goal with
    | |- context [if ?b then _ else _] => destruct b
    end; repeat split.
Qed.

(** [Scan] on a bin that holds the skip mark: nothing but the read. *)
Lemma Scan_skips_marked (cfg : Config) (x : Extern) (r : Z) (e : Engine) :
  hist_peek e (scanInfo_i (scanInfo e)) = RSSI_MAX_VALUE ->
  Scan cfg x r e
  = set_accesses (HistRead (scanInfo_i (scanInfo e)) :: accesses e) e.
Proof.
  intros Hv. unfold Scan, hist_get. rewrite Hv. reflexivity.
Qed.

Lemma hist_peek_hist_set (idx v : Z) (e : Engine) :
  hist_peek (hist_set idx v e) idx = v.
Proof.
  unfold hist_set, hist_peek, in_hist.
  destruct ((0 <=? idx) && (idx <? Z.of_nat (length (rssiHistory e)))) eqn:Hin.
  - cbn. rewrite length_insert, Hin.
    apply andb_true_iff in Hin. destruct Hin as [H0 H1].
    apply Z.leb_le in H0. apply Z.ltb_lt in H1.
    rewrite list_lookup_insert_eq by lia. reflexivity.
  - cbn. rewrite Hin, Z.eqb_refl. reflexivity.
Qed.

(** X6. [Blacklist] puts the skip mark on the bin of the held peak,
    leaves the signal lock and clears the held peak and the sweep
    statistics; from then on [Scan] on that bin neither tunes nor
    measures nor writes: it only reads the mark.  (Builds without the
    index scaling of scan ranges: [measurementsCount <= 128].) *)
Theorem Blacklist_bin_is_skipped (cfg : Config) (x : Extern) (r : Z)
    (e e2 : Engine) :
  ENABLE_SCAN_RANGES cfg
  && (scanInfo_measurementsCount (scanInfo e) >? 128) = false ->
  rssiHistory e2 = rssiHistory (Blacklist cfg e) ->
  pastEnd e2 = pastEnd (Blacklist cfg e) ->
  scanInfo_i (scanInfo e2) = peak_i (peak e) ->
  hist_peek (Blacklist cfg e) (peak_i (peak e)) = RSSI_MAX_VALUE
  /\ isListening (Blacklist cfg e) = false
  /\ peak_rssi (peak (Blacklist cfg e)) = 0
  /\ peak_t (peak (Blacklist cfg e)) = 0
  /\ scanInfo_rssiMax (scanInfo (Blacklist cfg e)) = 0
  /\ Scan cfg x r e2
     = set_accesses (HistRead (peak_i (peak e)) :: accesses e2) e2.
Proof.
  intros Hns Hh Hp Hi.
  assert (Hmark : hist_peek (Blacklist cfg e) (peak_i (peak e)) = RSSI_MAX_VALUE).
  { unfold Blacklist. cbv zeta.
    set (e0 := if ENABLE_SCAN_RANGES cfg then _ else e).
    assert (Hpk : peak e0 = peak e)
      by (subst e0; destruct (ENABLE_SCAN_RANGES cfg); reflexivity).
    assert (Hsc : scanInfo e0 = scanInfo e)
      by (subst e0; destruct (ENABLE_SCAN_RANGES cfg); reflexivity).
    rewrite Hpk.
    unfold SetRssiHistory. rewrite Hsc, Hns.
    set (e1 := hist_set (peak_i (peak e)) RSSI_MAX_VALUE e0).
    pose proof (hist_peek_hist_set (peak_i (peak e)) RSSI_MAX_VALUE e0) as Hs.
    fold e1 in Hs.
    destruct (blacklist_ToggleRX cfg false (ResetPeak e1)) as (_ & _ & Hr & Hq & _).
    unfold hist_peek, in_hist in *.
    change (rssiHistory (ResetScanStats ?E)) with (rssiHistory E).
    change (pastEnd (ResetScanStats ?E)) with (pastEnd E).
    rewrite Hr, Hq. exact Hs. }
  split; [exact Hmark|].
  split.
  { unfold Blacklist. cbv zeta.
    change (isListening (ResetScanStats ?E)) with (isListening E).
    apply isListening_ToggleRX. }
  split.
  { unfold Blacklist. cbv zeta.
    change (peak (ResetScanStats ?E)) with (peak E).
    rewrite peak_ToggleRX. reflexivity. }
  split.
  { unfold Blacklist. cbv zeta.
    change (peak (ResetScanStats ?E)) with (peak E).
    rewrite peak_ToggleRX. reflexivity. }
  split; [reflexivity|].
  rewrite <- Hi. apply Scan_skips_marked.
  rewrite Hi. unfold hist_peek, in_hist in *. rewrite Hh, Hp. exact Hmark.
Qed.

(** The held peak of bin 10 blacklisted in a plain build. *)
Lemma Blacklist_bin_is_skipped_witness :
  hist_peek (Blacklist cfg_plain engine_held_peak)
    (peak_i (peak engine_held_peak)) = RSSI_MAX_VALUE.
Proof.
  refine (proj1 (Blacklist_bin_is_skipped cfg_plain extern0 99 engine_held_peak
                   (set_scanInfo
                      (set_scanInfo_i 10
                         (scanInfo (Blacklist cfg_plain engine_held_peak)))
                      (Blacklist cfg_plain engine_held_peak)) _ _ _ _)).
  - reflexivity.
  - vm_compute. reflexivity.
  - vm_compute. reflexivity.
  - vm_compute. reflexivity.
Defined.

Lemma blacklist_Blacklist (cfg : Config) (e : Engine) :
  ENABLE_SCAN_RANGES cfg = true ->
  blacklistFreqs (Blacklist cfg e)
  = <[Z.to_nat (blacklistFreqsIdx e mod BLACKLIST_MAX_ENTRIES)
      := peak_i (peak e)]> (blacklistFreqs e)
  /\ blacklistFreqsIdx (Blacklist cfg e) = u8 (blacklistFreqsIdx e + 1).
Proof.
  intros Hsr. unfold Blacklist. cbv zeta. rewrite Hsr.
  change (blacklistFreqs (ResetScanStats ?E)) with (blacklistFreqs E).
  change (blacklistFreqsIdx (ResetScanStats ?E)) with (blacklistFreqsIdx E).
  match goal with
  | |- context [ToggleRX cfg false ?E] =>
      destruct (blacklist_ToggleRX cfg false E) as (-> & -> & _)
  end.
  change (blacklistFreqs (ResetPeak ?E)) with (blacklistFreqs E).
  change (blacklistFreqsIdx (ResetPeak ?E)) with (blacklistFreqsIdx E).
  match goal with
  | |- context [SetRssiHistory cfg ?i ?v ?E] =>
      destruct (blacklist_SetRssiHistory cfg i v E) as (-> & ->)
  end.
  split; reflexivity.
Qed.

Lemma Blacklist_bins_entries (cfg : Config) (e : Engine) (ps : list Z) :
  ENABLE_SCAN_RANGES cfg = true ->
  length (blacklistFreqs e) = 15%nat ->
  (length ps <= 15)%nat ->
  blacklistFreqs (Blacklist_bins cfg ps (ResetBlacklist cfg e))
  = ps ++ replicate (15 - length ps) 0
  /\ blacklistFreqsIdx (Blacklist_bins cfg ps (ResetBlacklist cfg e))
     = Z.of_nat (length ps).
Proof.
  intros Hsr Hlen.
  induction ps as [|p ps IH] using rev_ind; intros Hn.
  - unfold Blacklist_bins, ResetBlacklist. rewrite Hsr. cbn. rewrite Hlen.
    split; reflexivity.
  - rewrite length_app in *. cbn [length] in *.
    destruct IH as [I1 I2]; [lia|].
    unfold Blacklist_bins in *. rewrite fold_left_app. cbn [fold_left].
    set (e' := fold_left _ ps _) in *.
    unfold Blacklist_at.
    destruct (blacklist_Blacklist cfg (set_peak (set_peak_i p (peak e')) e') Hsr)
      as (-> & ->).
    cbn [blacklistFreqs blacklistFreqsIdx set_peak peak peak_i set_peak_i].
    rewrite I1, I2. unfold BLACKLIST_MAX_ENTRIES.
    rewrite Z.mod_small by lia. rewrite Nat2Z.id.
    split; [|rewrite u8_small by lia; lia].
    rewrite insert_app_r_alt by lia. rewrite Nat.sub_diag.
    replace (15 - length ps)%nat with (S (15 - (length ps + 1))) by lia.
    cbn [replicate]. rewrite <- app_assoc. reflexivity.
Qed.

(** X7. In a build with scan ranges, while the blacklist is not full
    the bins it reports are those put on it and bin 0: its unused
    entries hold 0 and [IsBlacklisted] compares with all 15, so from the
    first blacklisted bin until the fifteenth, [Scan] skips bin 0 as
    well.  With 15 bins on it, the blacklist reports exactly those. *)
Theorem Blacklist_unused_entries_block_bin_0 (cfg : Config) (e : Engine)
    (ps : list Z) (b : Z) :
  ENABLE_SCAN_RANGES cfg = true ->
  length (blacklistFreqs e) = 15%nat ->
  ps <> [] -> (length ps <= 15)%nat ->
  IsBlacklisted b (Blacklist_bins cfg ps (ResetBlacklist cfg e)) = true
  <-> In b ps \/ ((length ps < 15)%nat /\ b = 0).
Proof.
  intros Hsr Hlen Hne Hn.
  destruct (Blacklist_bins_entries cfg e ps Hsr Hlen Hn) as [Hf Hi].
  unfold IsBlacklisted. rewrite Hf, Hi.
  assert (Hpos : (0 < length ps)%nat) by (destruct ps; [congruence|cbn; lia]).
  destruct (Z.eqb_spec (Z.of_nat (length ps)) 0) as [|_]; [lia|].
  cbn [negb andb]. rewrite existsb_app, orb_true_iff, !existsb_exists.
  split.
  - intros [(v & Hin & Hv)|(v & Hin & Hv)].
    + apply Z.eqb_eq in Hv. subst v. left. exact Hin.
    + apply Z.eqb_eq in Hv. subst v. right.
      apply list_elem_of_In, elem_of_replicate in Hin. lia.
  - intros [Hin|[Hlt ->]].
    + left. exists b. split; [exact Hin|apply Z.eqb_refl].
    + right. exists 0. split; [|reflexivity].
      apply list_elem_of_In, elem_of_replicate. lia.
Qed.

(** Bin 37 blacklisted first: bin 0 is reported as well. *)
Lemma Blacklist_unused_entries_block_bin_0_witness :
  IsBlacklisted 0 (Blacklist_bins cfg_full [37] (ResetBlacklist cfg_full engine0))
  = true.
Proof.
  refine (proj2 (Blacklist_unused_entries_block_bin_0 cfg_full engine0 [37] 0
                   _ _ _ _) _).
  - reflexivity.
  - reflexivity.
  - discriminate.
  - cbn. lia.
  - right. split; [cbn; lia|reflexivity].
Defined.

(** X8. [ResetBlacklist] takes every skip mark off the first 128 entries
    of [rssiHistory] (a marked entry becomes 0, the others are kept, as
    is the number of entries) and, in a build with scan ranges, empties
    the blacklist: no bin is reported by [IsBlacklisted] afterwards. *)
Theorem ResetBlacklist_clears (cfg : Config) (e : Engine) :
  length (rssiHistory (ResetBlacklist cfg e)) = length (rssiHistory e)
  /\ (forall (j : nat) (v : Z),
        rssiHistory e !! j = Some v ->
        rssiHistory (ResetBlacklist cfg e) !! j
        = Some (if (j <? 128)%nat && (v =? RSSI_MAX_VALUE) then 0 else v))
  /\ (forall j : nat,
        (j < 128)%nat ->
        rssiHistory (ResetBlacklist cfg e) !! j <> Some RSSI_MAX_VALUE)
  /\ (forall b : Z,
        ENABLE_SCAN_RANGES cfg && IsBlacklisted b (ResetBlacklist cfg e) = false).
Proof.
  assert (Hh : rssiHistory (ResetBlacklist cfg e)
               = ((fun v => if v =? RSSI_MAX_VALUE then 0 else v)
                    <$> take 128 (rssiHistory e)) ++ drop 128 (rssiHistory e)).
  { unfold ResetBlacklist. destruct (ENABLE_SCAN_RANGES cfg); reflexivity. }
  assert (Hlk : forall (j : nat) (v : Z),
             rssiHistory e !! j = Some v ->
             rssiHistory (ResetBlacklist cfg e) !! j
             = Some (if (j <? 128)%nat && (v =? RSSI_MAX_VALUE) then 0 else v)).
  { intros j v Hj. rewrite Hh.
    pose proof (lookup_lt_Some _ _ _ Hj) as Hlt.
    destruct (Nat.ltb_spec j 128) as [Hlo|Hhi].
    - rewrite lookup_app_l
        by (rewrite length_fmap, length_take; lia).
      rewrite list_lookup_fmap, lookup_take_lt by lia.
      rewrite Hj. reflexivity.
    - rewrite lookup_app_r
        by (rewrite length_fmap, length_take; lia).
      rewrite length_fmap, length_take, lookup_drop.
      replace (128 + (j - 128 `min` length (rssiHistory e)))%nat with j by lia.
      exact Hj. }
  split.
  { rewrite Hh, length_app, length_fmap, length_take, length_drop. lia. }
  split; [exact Hlk|]. split.
  - intros j Hj Hm.
    destruct (rssiHistory e !! j) as [v|] eqn:Hv.
    + rewrite (Hlk j v Hv) in Hm.
      destruct (Nat.ltb_spec j 128); [|lia]. cbn in Hm.
      destruct (Z.eqb_spec v RSSI_MAX_VALUE); inversion Hm; congruence.
    + apply lookup_ge_None in Hv.
      assert (Hn : rssiHistory (ResetBlacklist cfg e) !! j = None).
      { apply lookup_ge_None.
        rewrite Hh, length_app, length_fmap, length_take, length_drop. lia. }
      congruence.
  - intros b. unfold ResetBlacklist, IsBlacklisted.
    destruct (ENABLE_SCAN_RANGES cfg); reflexivity.
Qed.

(** ** Restarting the sweep *)

Lemma RelaunchScan_settings (cfg : Config) (x : Extern) (e : Engine) :
  set_rssiTriggerLevel 0 (settings (RelaunchScan cfg x e))
  = set_rssiTriggerLevel 0 (settings e)
  /\ rssiTriggerLevel (settings (RelaunchScan cfg x e))
     = (if SPECTRUM_AUTOMATIC_SQUELCH cfg then RSSI_MAX_VALUE
        else rssiTriggerLevel (settings e))
  /\ currentFreq (RelaunchScan cfg x e) = currentFreq e
  /\ rssiHistory (RelaunchScan cfg x e) = rssiHistory e
  /\ isListening (RelaunchScan cfg x e) = false
  /\ peak (RelaunchScan cfg x e) = set_peak_rssi 0 (set_peak_t 0 (peak e)).
Proof.
  unfold RelaunchScan. cbv zeta.
  set (e1 := ResetPeak (InitScan cfg x e)).
  pose proof (settings_ToggleRX cfg false e1) as Hse.
  pose proof (peak_ToggleRX cfg false e1) as Hpk.
  pose proof (isListening_ToggleRX cfg false e1) as Hli.
  destruct (blacklist_ToggleRX cfg false e1) as (_ & _ & Hrh & _).
  assert (Hcf : currentFreq (ToggleRX cfg false e1) = currentFreq e1)
    by (unfold ToggleRX, ToggleAudio; cbn; frame).
  destruct (SPECTRUM_AUTOMATIC_SQUELCH cfg);
    cbn [settings peak isListening currentFreq rssiHistory set_scanInfo
         set_preventKeypress set_settings rssiTriggerLevel
         set_rssiTriggerLevel];
    rewrite ?Hse, ?Hpk, ?Hli, ?Hcf, ?Hrh; repeat split.
Qed.

Lemma RelaunchScan_scanInfo (cfg : Config) (x : Extern) (e : Engine) :
  scanInfo (RelaunchScan cfg x e)
  = mkScanInfo 0 RSSI_MAX_VALUE 0 0 0 (GetFStart cfg x e) 0 (GetScanStep x e)
      (GetStepsCount cfg x e).
Proof.
  unfold RelaunchScan. cbv zeta.
  set (e1 := ResetPeak (InitScan cfg x e)).
  pose proof (scanInfo_ToggleRX cfg false e1) as Hsc.
  destruct (SPECTRUM_AUTOMATIC_SQUELCH cfg);
    cbn [scanInfo set_scanInfo set_preventKeypress set_settings];
    rewrite Hsc; reflexivity.
Qed.

(** X9. [RelaunchScan] starts a sweep over: step 0 at [GetFStart()], the
    step and the step count of the current settings, the statistics
    cleared with the minimum at its start value, the held peak cleared,
    the signal lock left, key presses held off; the trigger level is
    back at the sentinel in a build with the automatic squelch and kept
    otherwise; the other settings, the centre frequency and the sweep
    on display are kept. *)
Theorem RelaunchScan_starts_sweep (cfg : Config) (x : Extern) (e : Engine) :
  scanInfo_i (scanInfo (RelaunchScan cfg x e)) = 0
  /\ scanInfo_f (scanInfo (RelaunchScan cfg x e)) = GetFStart cfg x e
  /\ scanInfo_scanStep (scanInfo (RelaunchScan cfg x e)) = GetScanStep x e
  /\ scanInfo_measurementsCount (scanInfo (RelaunchScan cfg x e))
     = GetStepsCount cfg x e
  /\ scanInfo_rssi (scanInfo (RelaunchScan cfg x e)) = 0
  /\ scanInfo_rssiMax (scanInfo (RelaunchScan cfg x e)) = 0
  /\ scanInfo_rssiMin (scanInfo (RelaunchScan cfg x e)) = RSSI_MAX_VALUE
  /\ peak_rssi (peak (RelaunchScan cfg x e)) = 0
  /\ peak_t (peak (RelaunchScan cfg x e)) = 0
  /\ isListening (RelaunchScan cfg x e) = false
  /\ preventKeypress (RelaunchScan cfg x e) = true
  /\ rssiTriggerLevel (settings (RelaunchScan cfg x e))
     = (if SPECTRUM_AUTOMATIC_SQUELCH cfg then RSSI_MAX_VALUE
        else rssiTriggerLevel (settings e))
  /\ set_rssiTriggerLevel 0 (settings (RelaunchScan cfg x e))
     = set_rssiTriggerLevel 0 (settings e)
  /\ currentFreq (RelaunchScan cfg x e) = currentFreq e
  /\ rssiHistory (RelaunchScan cfg x e) = rssiHistory e.
Proof.
  destruct (RelaunchScan_settings cfg x e) as (Hs & Ht & Hc & Hh & Hl & Hp).
  rewrite (RelaunchScan_scanInfo cfg x e), Hp, Hl, Ht, Hs, Hc, Hh.
  repeat split.
Qed.

(** ** Key handlers *)

Lemma ResetBlacklist_frame (cfg : Config) (e : Engine) :
  settings (ResetBlacklist cfg e) = settings e
  /\ scanInfo (ResetBlacklist cfg e) = scanInfo e
  /\ peak (ResetBlacklist cfg e) = peak e
  /\ isListening (ResetBlacklist cfg e) = isListening e
  /\ currentFreq (ResetBlacklist cfg e) = currentFreq e.
Proof.
  unfold ResetBlacklist. destruct (ENABLE_SCAN_RANGES cfg); repeat split.
Qed.

Lemma settings_ToggleStepsCount (cfg : Config) (x : Extern) (e : Engine) :
  0 <= stepsCount (settings e) <= 3 ->
  stepsCount (settings (snd (ToggleStepsCount cfg x e)))
  = (stepsCount (settings e) + 3) mod 4
  /\ scanStepIndex (settings (snd (ToggleStepsCount cfg x e)))
     = scanStepIndex (settings e).
Proof.
  intros Hr. unfold ToggleStepsCount. cbv zeta. cbn [snd].
  change (settings (set_redrawScreen true ?E)) with (settings E).
  match goal with
  | |- context [ResetBlacklist cfg ?E] =>
      destruct (ResetBlacklist_frame cfg E) as (-> & _)
  end.
  match goal with
  | |- context [RelaunchScan cfg x ?E] =>
      destruct (RelaunchScan_settings cfg x E) as (Hs & _)
  end.
  apply (f_equal stepsCount) in Hs as H1.
  apply (f_equal scanStepIndex) in Hs as H2.
  cbn [stepsCount scanStepIndex set_rssiTriggerLevel] in H1, H2.
  rewrite H1, H2. unfold STEPS_128, STEPS_16.
  destruct (Z.eqb_spec (stepsCount (settings e)) 0) as [E0|E0]; cbn.
  - rewrite E0. split; reflexivity.
  - split; [zlia|reflexivity].
Qed.

(** X10. [ToggleStepsCount] steps through 128, 16, 32, 64 steps and back
    to 128 ([stepsCount] goes 0, 3, 2, 1, 0): from a valid step count it
    gives a valid one, the sweep restarts with the step count of the new
    setting, the frequency change step becomes half the new bandwidth,
    and four presses bring the first setting back. *)
Theorem ToggleStepsCount_cycle (cfg : Config) (x : Extern) (e : Engine) :
  0 <= stepsCount (settings e) <= 3 ->
  stepsCount (settings (snd (ToggleStepsCount cfg x e)))
  = (stepsCount (settings e) + 3) mod 4
  /\ scanInfo_measurementsCount (scanInfo (snd (ToggleStepsCount cfg x e)))
     = GetStepsCount cfg x (snd (ToggleStepsCount cfg x e))
  /\ scanInfo_i (scanInfo (snd (ToggleStepsCount cfg x e))) = 0
  /\ fst (ToggleStepsCount cfg x e)
     = Z.shiftr (GetBW cfg x (snd (ToggleStepsCount cfg x e))) 1
  /\ stepsCount
       (settings (Nat.iter 4 (fun e => snd (ToggleStepsCount cfg x e)) e))
     = stepsCount (settings e).
Proof.
  intros Hr.
  destruct (settings_ToggleStepsCount cfg x e Hr) as [H1 H2].
  split; [exact H1|].
  assert (Hcount : forall e1 e2 : Engine,
             stepsCount (settings e1) = stepsCount (settings e2) ->
             scanStepIndex (settings e1) = scanStepIndex (settings e2) ->
             GetStepsCount cfg x e1 = GetStepsCount cfg x e2
             /\ GetBW cfg x e1 = GetBW cfg x e2).
  { intros e1 e2 Ha Hb. unfold GetBW, GetStepsCount, GetScanStep.
    rewrite Ha, Hb. split; reflexivity. }
  split; [|split; [|split]].
  - unfold ToggleStepsCount at 1. cbv zeta. cbn [snd].
    change (scanInfo (set_redrawScreen true ?E)) with (scanInfo E).
    match goal with
    | |- context [ResetBlacklist cfg ?E] =>
        destruct (ResetBlacklist_frame cfg E) as (_ & -> & _)
    end.
    rewrite RelaunchScan_scanInfo. cbn [scanInfo_measurementsCount].
    apply Hcount.
    + rewrite H1. unfold STEPS_128, STEPS_16.
      destruct (Z.eqb_spec (stepsCount (settings e)) 0) as [E0|E0]; cbn;
        [rewrite E0; reflexivity|zlia].
    + rewrite H2.
      destruct (stepsCount (settings e) =? STEPS_128); reflexivity.
  - unfold ToggleStepsCount. cbv zeta. cbn [snd].
    change (scanInfo (set_redrawScreen true ?E)) with (scanInfo E).
    match goal with
    | |- context [ResetBlacklist cfg ?E] =>
        destruct (ResetBlacklist_frame cfg E) as (_ & -> & _)
    end.
    rewrite RelaunchScan_scanInfo. reflexivity.
  - unfold ToggleStepsCount at 1. cbv zeta. cbn [fst].
    f_equal. apply Hcount.
    + rewrite H1. unfold STEPS_128, STEPS_16.
      destruct (Z.eqb_spec (stepsCount (settings e)) 0) as [E0|E0]; cbn;
        [rewrite E0; reflexivity|zlia].
    + rewrite H2.
      destruct (stepsCount (settings e) =? STEPS_128); reflexivity.
  - cbn [Nat.iter].
    set (T := fun e => snd (ToggleStepsCount cfg x e)).
    repeat change (snd (ToggleStepsCount cfg x ?E)) with (T E).
    assert (Hstep : forall e0, 0 <= stepsCount (settings e0) <= 3 ->
               stepsCount (settings (T e0))
               = (stepsCount (settings e0) + 3) mod 4)
      by (intros e0 H0; apply (settings_ToggleStepsCount cfg x e0 H0)).
    pose proof (Hstep e Hr) as A1.
    assert (R1 : 0 <= stepsCount (settings (T e)) <= 3) by zlia.
    pose proof (Hstep _ R1) as A2.
    assert (R2 : 0 <= stepsCount (settings (T (T e))) <= 3) by zlia.
    pose proof (Hstep _ R2) as A3.
    assert (R3 : 0 <= stepsCount (settings (T (T (T e)))) <= 3) by zlia.
    pose proof (Hstep _ R3) as A4.
    change (stepsCount (settings (T (T (T (T e))))) = stepsCount (settings e)).
    rewrite A4, A3, A2, A1. zlia.
Qed.

(** From 64 steps to 128. *)
Lemma ToggleStepsCount_cycle_witness :
  stepsCount (settings (snd (ToggleStepsCount cfg_plain extern0 engine0)))
  = (stepsCount (settings engine0) + 3) mod 4.
Proof.
  refine (proj1 (ToggleStepsCount_cycle cfg_plain extern0 engine0 _)).
  vm_compute. split; discriminate.
Defined.

(** X11. [ToggleListeningBW] steps through the three filters wide,
    narrow, narrower and back to wide: from a valid [listenBw] (0..2) it
    gives the next valid one, three presses bring the first one back,
    and nothing else of the settings changes. *)
Theorem ToggleListeningBW_cycle (e : Engine) :
  0 <= listenBw (settings e) <= 2 ->
  listenBw (settings (ToggleListeningBW e)) = (listenBw (settings e) + 1) mod 3
  /\ set_listenBw 0 (settings (ToggleListeningBW e))
     = set_listenBw 0 (settings e)
  /\ listenBw (settings (Nat.iter 3 ToggleListeningBW e))
     = listenBw (settings e)
  /\ redrawScreen (ToggleListeningBW e) = true.
Proof.
  intros Hr.
  assert (Hstep : forall e0, 0 <= listenBw (settings e0) <= 2 ->
             listenBw (settings (ToggleListeningBW e0))
             = (listenBw (settings e0) + 1) mod 3).
  { intros e0 H0. unfold ToggleListeningBW, BK4819_FILTER_BW_NARROWER,
      BK4819_FILTER_BW_WIDE.
    destruct (Z.eqb_spec (listenBw (settings e0)) 2) as [E2|E2]; cbn.
    - rewrite E2. reflexivity.
    - zlia. }
  split; [apply Hstep, Hr|]. split; [|split].
  - unfold ToggleListeningBW.
    destruct (listenBw (settings e) =? BK4819_FILTER_BW_NARROWER); reflexivity.
  - cbn [Nat.iter].
    pose proof (Hstep e Hr) as A1.
    assert (R1 : 0 <= listenBw (settings (ToggleListeningBW e)) <= 2) by zlia.
    pose proof (Hstep _ R1) as A2.
    assert (R2 : 0 <= listenBw (settings (ToggleListeningBW (ToggleListeningBW e))) <= 2)
      by zlia.
    pose proof (Hstep _ R2) as A3.
    change (Nat.iter 3 ToggleListeningBW e)
      with (ToggleListeningBW (ToggleListeningBW (ToggleListeningBW e))).
    rewrite A3, A2, A1. zlia.
  - reflexivity.
Qed.

Lemma ToggleListeningBW_cycle_witness :
  listenBw (settings (ToggleListeningBW engine0))
  = (listenBw (settings engine0) + 1) mod 3.
Proof.
  refine (proj1 (ToggleListeningBW_cycle engine0 _)).
  vm_compute. split; discriminate.
Defined.

(** X12. [UpdateCurrentFreq] does nothing at the band edge it moves
    towards (upwards at or above [F_MAX], downwards at or below
    [F_MIN]); otherwise it moves the centre frequency by exactly
    [frequencyChangeStep] as a 32-bit sum, without a clamp to the band,
    and restarts the sweep at step 0 from the start frequency of the new
    centre, with the signal lock left. *)
Theorem UpdateCurrentFreq_band_edges (cfg : Config) (x : Extern)
    (F_MIN F_MAX step : Z) (inc : bool) (e : Engine) :
  ((if inc then F_MAX <= currentFreq e else currentFreq e <= F_MIN) ->
   UpdateCurrentFreq cfg x F_MIN F_MAX step inc e = e)
  /\ ((if inc then currentFreq e < F_MAX else F_MIN < currentFreq e) ->
      currentFreq (UpdateCurrentFreq cfg x F_MIN F_MAX step inc e)
      = u32 (if inc then currentFreq e + step else currentFreq e - step)
      /\ scanInfo_i (scanInfo (UpdateCurrentFreq cfg x F_MIN F_MAX step inc e))
         = 0
      /\ scanInfo_f (scanInfo (UpdateCurrentFreq cfg x F_MIN F_MAX step inc e))
         = GetFStart cfg x (UpdateCurrentFreq cfg x F_MIN F_MAX step inc e)
      /\ isListening (UpdateCurrentFreq cfg x F_MIN F_MAX step inc e) = false
      /\ redrawScreen (UpdateCurrentFreq cfg x F_MIN F_MAX step inc e) = true).
Proof.
  assert (Hmove : forall f : Z,
             let e' := set_redrawScreen true
                         (ResetBlacklist cfg
                            (RelaunchScan cfg x (set_currentFreq f e))) in
             currentFreq e' = f
             /\ scanInfo_i (scanInfo e') = 0
             /\ scanInfo_f (scanInfo e') = GetFStart cfg x e'
             /\ isListening e' = false
             /\ redrawScreen e' = true).
  { intros f e'. subst e'.
    change (currentFreq (set_redrawScreen true ?E)) with (currentFreq E).
    change (scanInfo (set_redrawScreen true ?E)) with (scanInfo E).
    change (isListening (set_redrawScreen true ?E)) with (isListening E).
    change (GetFStart cfg x (set_redrawScreen true ?E)) with (GetFStart cfg x E).
    set (e1 := RelaunchScan cfg x (set_currentFreq f e)).
    destruct (ResetBlacklist_frame cfg e1) as (Hs & Hsc & _ & Hl & Hc).
    destruct (RelaunchScan_settings cfg x (set_currentFreq f e))
      as (Hs1 & _ & Hc1 & _ & Hl1 & _).
    fold e1 in Hs1, Hc1, Hl1.
    rewrite Hsc, Hl, Hc, Hc1, Hl1.
    unfold e1 at 1 2. rewrite RelaunchScan_scanInfo.
    cbn [scanInfo_i scanInfo_f currentFreq set_currentFreq].
    repeat split.
    unfold GetFStart, IsCenterMode, GetBW, GetStepsCount, GetScanStep.
    rewrite Hs, Hc, Hc1.
    apply (f_equal stepsCount) in Hs1 as H1.
    apply (f_equal scanStepIndex) in Hs1 as H2.
    cbn [stepsCount scanStepIndex set_rssiTriggerLevel] in H1, H2.
    rewrite H1, H2. reflexivity. }
  unfold UpdateCurrentFreq. cbv zeta.
  destruct inc; cbn [andb negb]; rewrite ?Z.gtb_ltb.
  - destruct (Z.ltb_spec (currentFreq e) F_MAX); split; intros; try lia;
      try reflexivity.
    apply Hmove.
  - destruct (Z.ltb_spec F_MIN (currentFreq e)); split; intros; try lia;
      try reflexivity.
    apply Hmove.
Qed.

(** X13. The window key: [UpdateDBMax] keeps [dbMin <= dbMax <= 10]
    and never touches [dbMin]; it moves [dbMax] by one, up while it is
    below 10 and down while it is above [dbMin], and does nothing at
    all at these two ends, so that pressing down long enough ends on
    the empty window [dbMax = dbMin]. *)
Theorem UpdateDBMax_window (x : Extern) (inc : bool) (e : Engine) :
  dbMin (settings e) <= dbMax (settings e) <= 10 ->
  dbMin (settings (UpdateDBMax x inc e)) = dbMin (settings e)
  /\ dbMin (settings e) <= dbMax (settings (UpdateDBMax x inc e)) <= 10
  /\ dbMax (settings (UpdateDBMax x inc e))
     = (if inc
        then if dbMax (settings e) <? 10
             then dbMax (settings e) + 1 else dbMax (settings e)
        else if dbMin (settings e) <? dbMax (settings e)
             then dbMax (settings e) - 1 else dbMax (settings e))
  /\ (dbMax (settings (UpdateDBMax x inc e)) = dbMax (settings e) ->
      UpdateDBMax x inc e = e)
  /\ dbMax (settings
              (Nat.iter (Z.to_nat (dbMax (settings e) - dbMin (settings e)))
                 (UpdateDBMax x false) e))
     = dbMin (settings e).
Proof.
  intros Hw.
  assert (Hone : forall (i : bool) (e0 : Engine),
             dbMin (settings (UpdateDBMax x i e0)) = dbMin (settings e0)
             /\ dbMax (settings (UpdateDBMax x i e0))
                = (if i
                   then if dbMax (settings e0) <? 10
                        then dbMax (settings e0) + 1 else dbMax (settings e0)
                   else if dbMin (settings e0) <? dbMax (settings e0)
                        then dbMax (settings e0) - 1 else dbMax (settings e0))).
  { intros i e0. unfold UpdateDBMax. cbv zeta. rewrite Z.gtb_ltb.
    destruct i; cbn [andb negb].
    - destruct (Z.ltb_spec (dbMax (settings e0)) 10); split; reflexivity.
    - destruct (Z.ltb_spec (dbMin (settings e0)) (dbMax (settings e0)));
        split; reflexivity. }
  destruct (Hone inc e) as [H1 H2].
  split; [exact H1|]. split.
  { rewrite H2. destruct inc; break_cmp; lia. }
  split; [exact H2|]. split.
  { intros Hsame. rewrite H2 in Hsame. unfold UpdateDBMax. cbv zeta.
    rewrite Z.gtb_ltb.
    destruct inc; cbn [andb negb].
    - destruct (Z.ltb_spec (dbMax (settings e)) 10); [lia|reflexivity].
    - destruct (Z.ltb_spec (dbMin (settings e)) (dbMax (settings e)));
        [lia|reflexivity]. }
  assert (Hiter : forall (n : nat) (e0 : Engine),
             dbMin (settings e0) <= dbMax (settings e0) ->
             Z.of_nat n <= dbMax (settings e0) - dbMin (settings e0) ->
             dbMin (settings (Nat.iter n (UpdateDBMax x false) e0))
             = dbMin (settings e0)
             /\ dbMax (settings (Nat.iter n (UpdateDBMax x false) e0))
                = dbMax (settings e0) - Z.of_nat n).
  { induction n as [|n IH]; intros e0 Hle Hn.
    - cbn. split; [reflexivity|lia].
    - change (Nat.iter (S n) (UpdateDBMax x false) e0)
        with (UpdateDBMax x false (Nat.iter n (UpdateDBMax x false) e0)).
      destruct (IH e0 Hle) as [I1 I2]; [lia|].
      destruct (Hone false (Nat.iter n (UpdateDBMax x false) e0)) as [J1 J2].
      rewrite J1, J2, I1, I2.
      destruct (Z.ltb_spec (dbMin (settings e0))
                  (dbMax (settings e0) - Z.of_nat n)); split; lia. }
  destruct (Hiter (Z.to_nat (dbMax (settings e) - dbMin (settings e))) e)
    as [_ K]; [lia|lia|].
  rewrite K. lia.
Qed.

(** The default window -130..-50, one step down. *)
Lemma UpdateDBMax_window_witness :
  dbMin (settings (UpdateDBMax extern0 false engine0))
  = dbMin (settings engine0).
Proof.
  refine (proj1 (UpdateDBMax_window extern0 false engine0 _)).
  vm_compute. split; discriminate.
Defined.

(** ** Receiver on and off *)

(** X14. [ToggleRX(on)] leaves [isListening] at [on] and, when the audio
    path followed the lock before, at [on] as well; it touches neither
    the settings nor the sweep nor the held peak.  In a build with
    [ENABLE_FEAT_N7SIX_SPECTRUM] a call for the state that is already
    current does nothing, so a second call changes nothing; when it
    turns the receiver on, the listen timer is 20 there and 100
    otherwise. *)
Theorem ToggleRX_follows (cfg : Config) (on : bool) (e : Engine) :
  audioState e = isListening e ->
  isListening (ToggleRX cfg on e) = on
  /\ audioState (ToggleRX cfg on e) = on
  /\ settings (ToggleRX cfg on e) = settings e
  /\ scanInfo (ToggleRX cfg on e) = scanInfo e
  /\ peak (ToggleRX cfg on e) = peak e
  /\ (ENABLE_FEAT_N7SIX_SPECTRUM cfg = true ->
      (isListening e = on -> ToggleRX cfg on e = e)
      /\ ToggleRX cfg on (ToggleRX cfg on e) = ToggleRX cfg on e)
  /\ (isListening e = negb on ->
      listenT (ToggleRX cfg on e)
      = if on then (if ENABLE_FEAT_N7SIX_SPECTRUM cfg then 20 else 100)
        else listenT e).
Proof.
  intros Hau.
  split; [apply isListening_ToggleRX|].
  split.
  { unfold ToggleRX, ToggleAudio.
    destruct (ENABLE_FEAT_N7SIX_SPECTRUM cfg), (isListening e) eqn:Hl,
      (audioState e) eqn:Ha, on; cbn; rewrite ?Ha; cbn;
      try reflexivity; try congruence. }
  split; [apply settings_ToggleRX|].
  split; [apply scanInfo_ToggleRX|].
  split; [apply peak_ToggleRX|].
  split.
  { intros Hn.
    assert (Hid : forall e0, isListening e0 = on -> ToggleRX cfg on e0 = e0).
    { intros e0 H0. unfold ToggleRX. rewrite Hn, H0.
      destruct on; reflexivity. }
    split; [apply Hid|]. apply Hid. apply isListening_ToggleRX. }
  intros Hl. unfold ToggleRX, ToggleAudio. rewrite Hl.
  destruct (ENABLE_FEAT_N7SIX_SPECTRUM cfg), on, (audioState e) eqn:Ha; cbn;
    rewrite ?Ha; reflexivity.
Qed.

(** Turning the receiver on from a sweep. *)
Lemma ToggleRX_follows_witness :
  isListening (ToggleRX cfg_full true engine0) = true.
Proof.
  refine (proj1 (ToggleRX_follows cfg_full true engine0 _)).
  reflexivity.
Defined.

(** ** Still screen *)

Lemma monitorMode_AutoTriggerLevel (e : Engine) :
  monitorMode (AutoTriggerLevel e) = monitorMode e
  /\ isListening (AutoTriggerLevel e) = isListening e.
Proof. unfold AutoTriggerLevel. split; frame. Qed.

(** X15. The still screen: [UpdateStill] shows the first sample as it
    is and afterwards the filter [(9 * displayRssi + rssi) / 10], which
    stays between the old value and the sample, falls whenever the
    sample is below it, rises only when the sample is at least 10 above
    it and holds when the sample is 0..9 above.  The sample becomes the
    held peak, and the receiver is on afterwards exactly when it was on
    before, or monitor mode is set, or the sample is at or above the
    trigger level that [AutoTriggerLevel] leaves. *)
Theorem UpdateStill_display_filter (cfg : Config) (r d : Z) (e : Engine) :
  is_u16 r -> is_u16 d ->
  Z.min d r <= fst (UpdateStill cfg r d e) <= Z.max d r
  /\ (d = 0 -> fst (UpdateStill cfg r d e) = r)
  /\ (0 < d -> d <= r <= d + 9 -> fst (UpdateStill cfg r d e) = d)
  /\ (r < d -> fst (UpdateStill cfg r d e) < d)
  /\ (0 < d -> d + 10 <= r -> d < fst (UpdateStill cfg r d e))
  /\ peak_rssi (peak (snd (UpdateStill cfg r d e))) = r
  /\ isListening (snd (UpdateStill cfg r d e))
     = (r >=? rssiTriggerLevel (settings (snd (UpdateStill cfg r d e))))
       || monitorMode e || isListening e.
Proof.
  intros Hr Hd. unfold is_u16 in *.
  destruct (Measure_listen cfg r e) as (Hs & Hl & Hm & _ & Hrssi).
  assert (Hfst : fst (UpdateStill cfg r d e)
                 = if d =? 0 then r else (d * 9 + r) / 10).
  { unfold UpdateStill. cbv zeta. cbn [fst]. rewrite Hrssi.
    destruct (Z.eqb_spec d 0); [reflexivity|].
    rewrite Z.quot_div_nonneg by lia.
    apply u16_small. unfold is_u16. zlia. }
  rewrite Hfst.
  split; [destruct (Z.eqb_spec d 0); zlia|].
  split; [intros ->; reflexivity|].
  split; [intros; destruct (Z.eqb_spec d 0); zlia|].
  split; [intros; destruct (Z.eqb_spec d 0); zlia|].
  split; [intros; destruct (Z.eqb_spec d 0); zlia|].
  unfold UpdateStill. cbv zeta. cbn [snd].
  set (e3 := set_peak _ _).
  assert (Hp3 : peak_rssi (peak (AutoTriggerLevel e3)) = r)
    by (rewrite peak_AutoTriggerLevel; subst e3; cbn; exact Hrssi).
  destruct (monitorMode_AutoTriggerLevel e3) as [Hm4 Hl4].
  assert (Hm3 : monitorMode e3 = monitorMode e) by (subst e3; cbn; exact Hm).
  assert (Hl3 : isListening e3 = isListening e) by (subst e3; cbn; exact Hl).
  unfold IsPeakOverLevel. rewrite Hp3, Hm4, Hm3.
  destruct ((r >=? rssiTriggerLevel (settings (AutoTriggerLevel e3)))
            || monitorMode e) eqn:Hlock.
  - rewrite peak_ToggleRX, settings_ToggleRX, isListening_ToggleRX.
    split; [exact Hp3|]. rewrite Hlock. reflexivity.
  - split; [exact Hp3|]. rewrite Hlock, Hl4, Hl3. reflexivity.
Qed.

(** A display value of 120 under a sample of 125: held at 120. *)
Lemma UpdateStill_display_filter_witness :
  fst (UpdateStill cfg_plain 125 120 engine0) = 120.
Proof.
  refine (proj1 (proj2 (proj2 (UpdateStill_display_filter cfg_plain 125 120
                                 engine0 _ _))) _ _).
  - unfold is_u16. lia.
  - unfold is_u16. lia.
  - lia.
  - lia.
Defined.

(** ** A sweep, bin by bin *)

(** Without the index scaling of scan ranges, [Measure] writes the
    sample at the step index. *)
Lemma Measure_plain (cfg : Config) (r : Z) (e : Engine) :
  ENABLE_SCAN_RANGES cfg
  && (scanInfo_measurementsCount (scanInfo e) >? 128) = false ->
  Measure cfg r e
  = hist_set (scanInfo_i (scanInfo e)) r
      (set_scanInfo (set_scanInfo_rssi r (scanInfo e)) e).
Proof.
  intros Hns. unfold Measure, SetRssiHistory. cbv zeta.
  cbn [scanInfo set_scanInfo scanInfo_measurementsCount set_scanInfo_rssi
       scanInfo_i].
  rewrite Hns. reflexivity.
Qed.

(** The statistics after [UpdateScanInfo]. *)
Lemma UpdateScanInfo_stats (x : Extern) (e : Engine) :
  scanInfo_rssiMax (scanInfo (UpdateScanInfo x e))
  = Z.max (scanInfo_rssiMax (scanInfo e)) (scanInfo_rssi (scanInfo e))
  /\ scanInfo_rssiMin (scanInfo (UpdateScanInfo x e))
     = Z.min (scanInfo_rssiMin (scanInfo e)) (scanInfo_rssi (scanInfo e))
  /\ scanInfo_iPeak (scanInfo (UpdateScanInfo x e))
     = (if scanInfo_rssi (scanInfo e) >? scanInfo_rssiMax (scanInfo e)
        then scanInfo_i (scanInfo e) else scanInfo_iPeak (scanInfo e))
  /\ scanInfo_fPeak (scanInfo (UpdateScanInfo x e))
     = (if scanInfo_rssi (scanInfo e) >? scanInfo_rssiMax (scanInfo e)
        then scanInfo_f (scanInfo e) else scanInfo_fPeak (scanInfo e))
  /\ scanInfo_rssi (scanInfo (UpdateScanInfo x e)) = scanInfo_rssi (scanInfo e)
  /\ scanInfo_f (scanInfo (UpdateScanInfo x e)) = scanInfo_f (scanInfo e)
  /\ scanInfo_scanStep (scanInfo (UpdateScanInfo x e))
     = scanInfo_scanStep (scanInfo e)
  /\ blacklistFreqs (UpdateScanInfo x e) = blacklistFreqs e
  /\ blacklistFreqsIdx (UpdateScanInfo x e) = blacklistFreqsIdx e
  /\ dbMin (settings (UpdateScanInfo x e))
     = (if scanInfo_rssi (scanInfo e) <? scanInfo_rssiMin (scanInfo e)
        then Rssi2DBm x (scanInfo_rssi (scanInfo e))
        else dbMin (settings e)).
Proof.
  unfold UpdateScanInfo. cbv zeta. rewrite Z.gtb_ltb.
  destruct (Z.ltb_spec (scanInfo_rssiMax (scanInfo e))
              (scanInfo_rssi (scanInfo e)));
    cbn [scanInfo set_scanInfo scanInfo_rssi scanInfo_rssiMin
         set_scanInfo_rssiMax set_scanInfo_fPeak set_scanInfo_iPeak
         scanInfo_f scanInfo_i];
    destruct (Z.ltb_spec (scanInfo_rssi (scanInfo e))
                (scanInfo_rssiMin (scanInfo e)));
    cbn; repeat split; lia.
Qed.

(** [Scan] on a bin inside [rssiHistory] that is neither marked nor
    blacklisted. *)
Lemma Scan_measures (cfg : Config) (x : Extern) (r : Z) (e : Engine) :
  in_hist e (scanInfo_i (scanInfo e)) = true ->
  hist_peek e (scanInfo_i (scanInfo e)) <> RSSI_MAX_VALUE ->
  ENABLE_SCAN_RANGES cfg && IsBlacklisted (scanInfo_i (scanInfo e)) e = false ->
  ENABLE_SCAN_RANGES cfg
  && (scanInfo_measurementsCount (scanInfo e) >? 128) = false ->
  rssiHistory (Scan cfg x r e)
  = <[Z.to_nat (scanInfo_i (scanInfo e)) := r]> (rssiHistory e)
  /\ scanInfo_rssiMax (scanInfo (Scan cfg x r e))
     = Z.max (scanInfo_rssiMax (scanInfo e)) r
  /\ scanInfo_rssiMin (scanInfo (Scan cfg x r e))
     = Z.min (scanInfo_rssiMin (scanInfo e)) r
  /\ scanInfo_iPeak (scanInfo (Scan cfg x r e))
     = (if r >? scanInfo_rssiMax (scanInfo e)
        then scanInfo_i (scanInfo e) else scanInfo_iPeak (scanInfo e))
  /\ scanInfo_fPeak (scanInfo (Scan cfg x r e))
     = (if r >? scanInfo_rssiMax (scanInfo e)
        then scanInfo_f (scanInfo e) else scanInfo_fPeak (scanInfo e))
  /\ scanInfo_rssi (scanInfo (Scan cfg x r e)) = r
  /\ scanInfo_f (scanInfo (Scan cfg x r e)) = scanInfo_f (scanInfo e)
  /\ scanInfo_scanStep (scanInfo (Scan cfg x r e))
     = scanInfo_scanStep (scanInfo e)
  /\ blacklistFreqs (Scan cfg x r e) = blacklistFreqs e
  /\ blacklistFreqsIdx (Scan cfg x r e) = blacklistFreqsIdx e
  /\ fMeasure (Scan cfg x r e) = scanInfo_f (scanInfo e).
Proof.
  intros Hin Hv Hb Hns.
  unfold Scan, hist_get. cbv beta iota zeta.
  set (e1 := set_accesses _ e).
  change (scanInfo e1) with (scanInfo e).
  change (IsBlacklisted (scanInfo_i (scanInfo e)) e1)
    with (IsBlacklisted (scanInfo_i (scanInfo e)) e).
  rewrite Hb.
  destruct (Z.eqb_spec (hist_peek e (scanInfo_i (scanInfo e))) RSSI_MAX_VALUE)
    as [|_]; [contradiction|].
  cbn [negb andb].
  unfold SetF. cbv zeta.
  set (e2 := set_radio _ (set_fMeasure _ e1)).
  assert (Hns2 : ENABLE_SCAN_RANGES cfg
                 && (scanInfo_measurementsCount (scanInfo e2) >? 128) = false)
    by exact Hns.
  rewrite (Measure_plain cfg r e2 Hns2).
  change (scanInfo e2) with (scanInfo e).
  set (e3 := set_scanInfo (set_scanInfo_rssi r (scanInfo e)) e2).
  assert (Hin3 : in_hist e3 (scanInfo_i (scanInfo e)) = true) by exact Hin.
  assert (Hset : hist_set (scanInfo_i (scanInfo e)) r e3
                 = set_accesses
                     (HistWrite (scanInfo_i (scanInfo e)) r :: accesses e3)
                     (set_rssiHistory
                        (<[Z.to_nat (scanInfo_i (scanInfo e)) := r]>
                           (rssiHistory e)) e3)).
  { unfold hist_set. rewrite Hin3. reflexivity. }
  rewrite Hset.
  match goal with
  | |- context [UpdateScanInfo x ?E] =>
      destruct (UpdateScanInfo_stats x E)
        as (-> & -> & -> & -> & -> & -> & -> & -> & -> & _);
      destruct (UpdateScanInfo_history x E) as (_ & _ & ->);
      assert (Hfm : fMeasure (UpdateScanInfo x E) = fMeasure E)
        by (unfold UpdateScanInfo; cbv zeta; frame)
  end.
  rewrite Hfm.
  repeat split.
Qed.

Lemma run_scan_snoc (cfg : Config) (x : Extern) (rs : list Z) (r : Z)
    (e : Engine) :
  run_scan cfg x (rs ++ [r]) e = UpdateScan cfg x r (run_scan cfg x rs e).
Proof. unfold run_scan. rewrite fold_left_app. reflexivity. Qed.

Lemma u32_add_l (a b : Z) : u32 (u32 a + b) = u32 (a + b).
Proof. unfold u32. zlia. Qed.

Lemma NextScanStep_spec (e : Engine) :
  scanInfo_f (scanInfo (NextScanStep e))
  = u32 (scanInfo_f (scanInfo e) + scanInfo_scanStep (scanInfo e))
  /\ scanInfo_scanStep (scanInfo (NextScanStep e))
     = scanInfo_scanStep (scanInfo e)
  /\ scanInfo_rssiMax (scanInfo (NextScanStep e)) = scanInfo_rssiMax (scanInfo e)
  /\ scanInfo_rssiMin (scanInfo (NextScanStep e)) = scanInfo_rssiMin (scanInfo e)
  /\ scanInfo_iPeak (scanInfo (NextScanStep e)) = scanInfo_iPeak (scanInfo e)
  /\ scanInfo_fPeak (scanInfo (NextScanStep e)) = scanInfo_fPeak (scanInfo e)
  /\ rssiHistory (NextScanStep e) = rssiHistory e
  /\ pastEnd (NextScanStep e) = pastEnd e
  /\ blacklistFreqs (NextScanStep e) = blacklistFreqs e
  /\ blacklistFreqsIdx (NextScanStep e) = blacklistFreqsIdx e.
Proof. repeat split. Qed.

(** The state of a sweep that has measured the bins 0 .. k-1 with the
    readings [rs]: every bin was inside [rssiHistory], unmarked and not
    blacklisted. *)
Lemma run_scan_invariant (cfg : Config) (x : Extern) (e : Engine) :
  scanInfo_i (scanInfo e) = 0 ->
  is_u16 (scanInfo_measurementsCount (scanInfo e)) ->
  ENABLE_SCAN_RANGES cfg
  && (scanInfo_measurementsCount (scanInfo e) >? 128) = false ->
  ENABLE_SCAN_RANGES cfg && negb (blacklistFreqsIdx e =? 0) = false ->
  0 <= scanInfo_f (scanInfo e) < 4294967296 ->
  forall rs : list Z,
  Z.of_nat (length rs) <= scanInfo_measurementsCount (scanInfo e) ->
  (length rs <= length (rssiHistory e))%nat ->
  Forall (fun v => v <> RSSI_MAX_VALUE) (take (length rs) (rssiHistory e)) ->
  scanInfo_i (scanInfo (run_scan cfg x rs e)) = Z.of_nat (length rs)
  /\ scanInfo_measurementsCount (scanInfo (run_scan cfg x rs e))
     = scanInfo_measurementsCount (scanInfo e)
  /\ scanInfo_scanStep (scanInfo (run_scan cfg x rs e))
     = scanInfo_scanStep (scanInfo e)
  /\ blacklistFreqsIdx (run_scan cfg x rs e) = blacklistFreqsIdx e
  /\ rssiHistory (run_scan cfg x rs e) = rs ++ drop (length rs) (rssiHistory e)
  /\ scanInfo_f (scanInfo (run_scan cfg x rs e))
     = u32 (scanInfo_f (scanInfo e)
            + Z.of_nat (length rs) * scanInfo_scanStep (scanInfo e))
  /\ scanInfo_rssiMax (scanInfo (run_scan cfg x rs e))
     = fold_left Z.max rs (scanInfo_rssiMax (scanInfo e))
  /\ scanInfo_rssiMin (scanInfo (run_scan cfg x rs e))
     = fold_left Z.min rs (scanInfo_rssiMin (scanInfo e))
  /\ Forall (fun v => v <= scanInfo_rssiMax (scanInfo (run_scan cfg x rs e))) rs
  /\ ((scanInfo_rssiMax (scanInfo (run_scan cfg x rs e))
       = scanInfo_rssiMax (scanInfo e)
       /\ scanInfo_iPeak (scanInfo (run_scan cfg x rs e))
          = scanInfo_iPeak (scanInfo e)
       /\ scanInfo_fPeak (scanInfo (run_scan cfg x rs e))
          = scanInfo_fPeak (scanInfo e))
      \/ (scanInfo_rssiMax (scanInfo e)
          < scanInfo_rssiMax (scanInfo (run_scan cfg x rs e))
          /\ 0 <= scanInfo_iPeak (scanInfo (run_scan cfg x rs e))
             < Z.of_nat (length rs)
          /\ rs !! Z.to_nat (scanInfo_iPeak (scanInfo (run_scan cfg x rs e)))
             = Some (scanInfo_rssiMax (scanInfo (run_scan cfg x rs e)))
          /\ scanInfo_fPeak (scanInfo (run_scan cfg x rs e))
             = u32 (scanInfo_f (scanInfo e)
                    + scanInfo_iPeak (scanInfo (run_scan cfg x rs e))
                      * scanInfo_scanStep (scanInfo e))
          /\ (forall (j : nat) (v : Z),
                Z.of_nat j < scanInfo_iPeak (scanInfo (run_scan cfg x rs e)) ->
                rs !! j = Some v ->
                v < scanInfo_rssiMax (scanInfo (run_scan cfg x rs e))))).
Proof.
  intros Hi0 Hcount Hns Hbl Hf rs.
  induction rs as [|r rs IH] using rev_ind; intros Hk Hlen Hmark.
  { cbn [length run_scan fold_left app drop]. rewrite Hi0.
    change (Z.of_nat 0) with 0. rewrite Z.mul_0_l, Z.add_0_r.
    assert (Hu : u32 (scanInfo_f (scanInfo e)) = scanInfo_f (scanInfo e))
      by (unfold u32; apply Z.mod_small; lia).
    rewrite Hu.
    do 8 (split; [reflexivity|]).
    split; [constructor|]. left. repeat split. }
  rewrite length_app in *. cbn [length] in *.
  assert (Hmark' : Forall (fun v => v <> RSSI_MAX_VALUE)
                     (take (length rs) (rssiHistory e))).
  { rewrite Forall_lookup in *. intros j v Hj.
    apply lookup_take_Some in Hj as [Hj Hlt].
    apply (Hmark j v). apply lookup_take_Some. split; [exact Hj|lia]. }
  destruct IH as (Ii & Ic & Is & Ib & Ih & If & IM & Im & Ile & Ipk);
    [lia|lia|exact Hmark'|].
  rewrite run_scan_snoc.
  set (e' := run_scan cfg x rs e) in *.
  destruct (UpdateScan_advance cfg x r e') as (Eu & Ei & Ec & _).
  { rewrite Ic. exact Hcount. }
  { rewrite Ii, Ic. lia. }
  rewrite Eu.
  destruct (NextScanStep_spec (Scan cfg x r e'))
    as (-> & -> & -> & -> & -> & -> & -> & _ & _ & ->).
  rewrite <- Eu, Ei, Ec, Ii, Ic.
  assert (Hin : in_hist e' (scanInfo_i (scanInfo e')) = true).
  { unfold in_hist. rewrite Ii, Ih, length_app, length_drop.
    apply andb_true_iff. split; [apply Z.leb_le|apply Z.ltb_lt]; lia. }
  assert (Hval : hist_peek e' (scanInfo_i (scanInfo e')) <> RSSI_MAX_VALUE).
  { unfold hist_peek. rewrite Hin, Ii, Nat2Z.id, Ih.
    rewrite lookup_app_r by lia. rewrite Nat.sub_diag, lookup_drop, Nat.add_0_r.
    destruct (rssiHistory e !! length rs) as [v|] eqn:Hv.
    - cbn. rewrite Forall_lookup in Hmark. apply (Hmark (length rs) v).
      apply lookup_take_Some. split; [exact Hv|lia].
    - apply lookup_ge_None in Hv. lia. }
  assert (Hnb : ENABLE_SCAN_RANGES cfg
                && IsBlacklisted (scanInfo_i (scanInfo e')) e' = false).
  { unfold IsBlacklisted. rewrite Ib.
    destruct (ENABLE_SCAN_RANGES cfg); [|reflexivity].
    cbn [andb] in Hbl |- *. rewrite Hbl. reflexivity. }
  assert (Hns' : ENABLE_SCAN_RANGES cfg
                 && (scanInfo_measurementsCount (scanInfo e') >? 128) = false)
    by (rewrite Ic; exact Hns).
  destruct (Scan_measures cfg x r e' Hin Hval Hnb Hns')
    as (-> & -> & -> & -> & -> & _ & -> & -> & _ & -> & _).
  rewrite Is, Ib, Ii, Nat2Z.id, Ih, IM, Im, !fold_left_app.
  cbn [fold_left].
  split; [lia|]. split; [reflexivity|]. split; [reflexivity|].
  split; [reflexivity|].
  split.
  { rewrite insert_app_r_alt by lia. rewrite Nat.sub_diag.
    rewrite <- app_assoc. f_equal.
    destruct (drop (length rs) (rssiHistory e)) as [|v tl] eqn:Hd.
    - apply (f_equal length) in Hd. rewrite length_drop in Hd. cbn in Hd. lia.
    - cbn. f_equal.
      rewrite <- (drop_drop _ 1 (length rs)). rewrite Hd. reflexivity. }
  assert (Efreq : u32 (scanInfo_f (scanInfo e')
                       + scanInfo_scanStep (scanInfo e))
                  = u32 (scanInfo_f (scanInfo e)
                         + Z.of_nat (length rs + 1)
                           * scanInfo_scanStep (scanInfo e))).
  { rewrite If, u32_add_l. f_equal. lia. }
  split; [exact Efreq|].
  split; [reflexivity|]. split; [reflexivity|].
  rewrite IM in Ile, Ipk.
  set (M := fold_left Z.max rs (scanInfo_rssiMax (scanInfo e))) in *.
  split.
  { apply Forall_app. split.
    - eapply Forall_impl; [exact Ile|]. cbn. intros; lia.
    - repeat constructor. lia. }
  rewrite Z.gtb_ltb.
  destruct (Z.ltb_spec M r) as [Hgt|Hle].
  - right. rewrite Z.max_r by lia. rewrite ?Nat2Z.id.
    assert (M0 : scanInfo_rssiMax (scanInfo e) <= M)
      by (destruct Ipk as [(P1 & _)|(P1 & _)]; lia).
    split; [lia|]. split; [lia|].
    split; [rewrite lookup_app_r by lia; rewrite Nat.sub_diag; reflexivity|].
    split; [exact If|].
    intros j v Hj Hv.
    rewrite lookup_app_l in Hv by lia.
    rewrite Forall_lookup in Ile. specialize (Ile j v Hv). lia.
  - rewrite Z.max_l by lia.
    destruct Ipk as [(P1 & P2 & P3)|(P1 & P2 & P3 & P4 & P5)].
    + left. repeat split; assumption.
    + right. split; [exact P1|]. split; [lia|].
      split; [rewrite lookup_app_l by lia; exact P3|].
      split; [exact P4|].
      intros j v Hj Hv. apply (P5 j v Hj).
      rewrite lookup_app_l in Hv by lia. exact Hv.
Qed.

Lemma fold_left_min_le (rs : list Z) (m : Z) :
  fold_left Z.min rs m <= m
  /\ Forall (fun v => fold_left Z.min rs m <= v) rs.
Proof.
  revert m. induction rs as [|r rs IH]; intros m; cbn [fold_left].
  - split; [lia|constructor].
  - destruct (IH (Z.min m r)) as [H1 H2]. split; [lia|].
    constructor; [lia|exact H2].
Qed.

(** X16. A sweep writes its readings into [rssiHistory] in order: after
    [k] calls of [UpdateScan] from step 0, over bins that lie inside the
    array and are neither marked as skipped nor blacklisted, the first
    [k] entries are the [k] readings and the entries behind them are
    untouched; the step index is [k] and the sweep frequency is the
    start frequency plus [k] scan steps (as a 32-bit sum). *)
Theorem run_scan_fills_history (cfg : Config) (x : Extern) (e : Engine)
    (rs : list Z) :
  scanInfo_i (scanInfo e) = 0 ->
  is_u16 (scanInfo_measurementsCount (scanInfo e)) ->
  ENABLE_SCAN_RANGES cfg
  && (scanInfo_measurementsCount (scanInfo e) >? 128) = false ->
  ENABLE_SCAN_RANGES cfg && negb (blacklistFreqsIdx e =? 0) = false ->
  0 <= scanInfo_f (scanInfo e) < 4294967296 ->
  Z.of_nat (length rs) <= scanInfo_measurementsCount (scanInfo e) ->
  (length rs <= length (rssiHistory e))%nat ->
  Forall (fun v => v <> RSSI_MAX_VALUE) (take (length rs) (rssiHistory e)) ->
  rssiHistory (run_scan cfg x rs e) = rs ++ drop (length rs) (rssiHistory e)
  /\ length (rssiHistory (run_scan cfg x rs e)) = length (rssiHistory e)
  /\ scanInfo_i (scanInfo (run_scan cfg x rs e)) = Z.of_nat (length rs)
  /\ scanInfo_f (scanInfo (run_scan cfg x rs e))
     = u32 (scanInfo_f (scanInfo e)
            + Z.of_nat (length rs) * scanInfo_scanStep (scanInfo e)).
Proof.
  intros Hi0 Hcount Hns Hbl Hf Hk Hlen Hmark.
  destruct (run_scan_invariant cfg x e Hi0 Hcount Hns Hbl Hf rs Hk Hlen Hmark)
    as (Ii & _ & _ & _ & Ih & If & _).
  split; [exact Ih|]. split; [|split; [exact Ii|exact If]].
  rewrite Ih, length_app, length_drop. lia.
Qed.

(** Three bins of a sweep of 64 from 145 MHz in steps of 25 kHz. *)
Lemma run_scan_fills_history_witness :
  rssiHistory
    (run_scan cfg_plain extern0 [100; 120; 110]
       (RelaunchScan cfg_plain extern0 engine0))
  = [100; 120; 110]
    ++ drop 3 (rssiHistory (RelaunchScan cfg_plain extern0 engine0)).
Proof.
  refine (proj1 (run_scan_fills_history cfg_plain extern0
                   (RelaunchScan cfg_plain extern0 engine0) [100; 120; 110]
                   _ _ _ _ _ _ _ _)).
  - reflexivity.
  - vm_compute. split; discriminate.
  - reflexivity.
  - reflexivity.
  - vm_compute. split; [discriminate|reflexivity].
  - vm_compute. discriminate.
  - vm_compute. lia.
  - vm_compute. repeat (constructor; [discriminate|]). constructor.
Defined.

(** X17. The statistics of a sweep: after [k] measured bins,
    [scanInfo.rssiMax] is the largest of its start value and the
    readings and [scanInfo.rssiMin] the smallest, so every reading lies
    between them; and when a reading has beaten the start value of the
    maximum, [iPeak] is the first bin that holds the maximum and [fPeak]
    is the frequency of that bin. *)
Theorem run_scan_statistics (cfg : Config) (x : Extern) (e : Engine)
    (rs : list Z) :
  scanInfo_i (scanInfo e) = 0 ->
  is_u16 (scanInfo_measurementsCount (scanInfo e)) ->
  ENABLE_SCAN_RANGES cfg
  && (scanInfo_measurementsCount (scanInfo e) >? 128) = false ->
  ENABLE_SCAN_RANGES cfg && negb (blacklistFreqsIdx e =? 0) = false ->
  0 <= scanInfo_f (scanInfo e) < 4294967296 ->
  Z.of_nat (length rs) <= scanInfo_measurementsCount (scanInfo e) ->
  (length rs <= length (rssiHistory e))%nat ->
  Forall (fun v => v <> RSSI_MAX_VALUE) (take (length rs) (rssiHistory e)) ->
  scanInfo_rssiMax (scanInfo (run_scan cfg x rs e))
  = fold_left Z.max rs (scanInfo_rssiMax (scanInfo e))
  /\ scanInfo_rssiMin (scanInfo (run_scan cfg x rs e))
     = fold_left Z.min rs (scanInfo_rssiMin (scanInfo e))
  /\ Forall (fun v => scanInfo_rssiMin (scanInfo (run_scan cfg x rs e)) <= v
                      <= scanInfo_rssiMax (scanInfo (run_scan cfg x rs e))) rs
  /\ (scanInfo_rssiMax (scanInfo e)
      < scanInfo_rssiMax (scanInfo (run_scan cfg x rs e)) ->
      0 <= scanInfo_iPeak (scanInfo (run_scan cfg x rs e))
      < Z.of_nat (length rs)
      /\ rs !! Z.to_nat (scanInfo_iPeak (scanInfo (run_scan cfg x rs e)))
         = Some (scanInfo_rssiMax (scanInfo (run_scan cfg x rs e)))
      /\ scanInfo_fPeak (scanInfo (run_scan cfg x rs e))
         = u32 (scanInfo_f (scanInfo e)
                + scanInfo_iPeak (scanInfo (run_scan cfg x rs e))
                  * scanInfo_scanStep (scanInfo e))
      /\ (forall (j : nat) (v : Z),
            Z.of_nat j < scanInfo_iPeak (scanInfo (run_scan cfg x rs e)) ->
            rs !! j = Some v ->
            v < scanInfo_rssiMax (scanInfo (run_scan cfg x rs e))))
  /\ (scanInfo_rssiMax (scanInfo (run_scan cfg x rs e))
      = scanInfo_rssiMax (scanInfo e) ->
      scanInfo_iPeak (scanInfo (run_scan cfg x rs e))
      = scanInfo_iPeak (scanInfo e)
      /\ scanInfo_fPeak (scanInfo (run_scan cfg x rs e))
         = scanInfo_fPeak (scanInfo e)).
Proof.
  intros Hi0 Hcount Hns Hbl Hf Hk Hlen Hmark.
  destruct (run_scan_invariant cfg x e Hi0 Hcount Hns Hbl Hf rs Hk Hlen Hmark)
    as (_ & _ & _ & _ & _ & _ & IM & Im & Ile & Ipk).
  split; [exact IM|]. split; [exact Im|]. split.
  { destruct (fold_left_min_le rs (scanInfo_rssiMin (scanInfo e))) as [_ Hmin].
    rewrite Im. rewrite Forall_lookup in *. intros j v Hv.
    specialize (Hmin j v Hv). specialize (Ile j v Hv). cbn in *. lia. }
  split.
  - intros Hbeat.
    destruct Ipk as [(P1 & _)|(_ & P2 & P3 & P4 & P5)]; [lia|].
    repeat split; try assumption; lia.
  - intros Hsame.
    destruct Ipk as [(_ & P2 & P3)|(P1 & _)]; [|lia].
    split; assumption.
Qed.

(** The same three bins: the maximum 120 is at bin 1. *)
Lemma run_scan_statistics_witness :
  scanInfo_rssiMax
    (scanInfo (run_scan cfg_plain extern0 [100; 120; 110]
                 (RelaunchScan cfg_plain extern0 engine0)))
  = fold_left Z.max [100; 120; 110]
      (scanInfo_rssiMax (scanInfo (RelaunchScan cfg_plain extern0 engine0))).
Proof.
  refine (proj1 (run_scan_statistics cfg_plain extern0
                   (RelaunchScan cfg_plain extern0 engine0) [100; 120; 110]
                   _ _ _ _ _ _ _ _)).
  - reflexivity.
  - vm_compute. split; discriminate.
  - reflexivity.
  - reflexivity.
  - vm_compute. split; [discriminate|reflexivity].
  - vm_compute. discriminate.
  - vm_compute. lia.
  - vm_compute. repeat (constructor; [discriminate|]). constructor.
Defined.

(** ** The end of a sweep *)

Lemma rssiHistory_UpdatePeakInfo (e : Engine) :
  rssiHistory (UpdatePeakInfo e) = rssiHistory e.
Proof.
  unfold UpdatePeakInfo, UpdatePeakInfoForce, AutoTriggerLevel.
  cbv zeta. frame.
Qed.

Lemma rssiHistory_UpdateScan_finish (cfg : Config) (e : Engine) :
  rssiHistory (UpdateScan_finish cfg e)
  = if Z.shiftr (scanInfo_measurementsCount (scanInfo e)) 7 =? 0
    then take (Z.to_nat (scanInfo_measurementsCount (scanInfo e)))
           (rssiHistory e)
         ++ replicate (length (rssiHistory e)
                       - Z.to_nat (scanInfo_measurementsCount (scanInfo e)))%nat
              0
    else rssiHistory e.
Proof.
  unfold UpdateScan_finish. cbv zeta.
  set (e1 := if Z.shiftr _ 7 =? 0 then _ else e).
  assert (H1 : rssiHistory e1
               = if Z.shiftr (scanInfo_measurementsCount (scanInfo e)) 7 =? 0
                 then take (Z.to_nat (scanInfo_measurementsCount (scanInfo e)))
                        (rssiHistory e)
                      ++ replicate
                           (length (rssiHistory e)
                            - Z.to_nat (scanInfo_measurementsCount (scanInfo e)))%nat
                           0
                 else rssiHistory e)
    by (subst e1; destruct (Z.shiftr _ 7 =? 0); reflexivity).
  rewrite <- H1.
  set (e2 := UpdatePeakInfo (set_preventKeypress false (set_redrawScreen true e1))).
  assert (H2 : rssiHistory e2 = rssiHistory e1)
    by (subst e2; rewrite rssiHistory_UpdatePeakInfo; reflexivity).
  set (e3 := set_scanWaterfallCounter (u8 (scanWaterfallCounter e2 + 1)) e2).
  set (e4 := if scanWaterfallCounter e3 >=? 2 then _ else e3).
  assert (H4 : rssiHistory e4 = rssiHistory e1)
    by (subst e4; destruct (scanWaterfallCounter e3 >=? 2); exact H2).
  destruct (IsPeakOverLevel e4).
  - unfold TuneToPeak, SetF. cbn.
    destruct (blacklist_ToggleRX cfg true e4) as (_ & _ & -> & _).
    exact H4.
  - exact H4.
Qed.

(** X18. With fewer than 128 steps, the call of [UpdateScan] that ends
    the sweep leaves the bins below the step count as they were and
    every entry of [rssiHistory] from the step count on at 0: the sample
    that the same call has just written at the bin after the last one
    is erased again. *)
Theorem UpdateScan_clears_unused_bins (cfg : Config) (x : Extern) (r : Z)
    (e : Engine) :
  0 <= scanInfo_measurementsCount (scanInfo e) < 128 ->
  scanInfo_i (scanInfo e) = scanInfo_measurementsCount (scanInfo e) ->
  length (rssiHistory e) = 128%nat ->
  rssiHistory (UpdateScan cfg x r e)
  = take (Z.to_nat (scanInfo_measurementsCount (scanInfo e))) (rssiHistory e)
    ++ replicate (128 - Z.to_nat (scanInfo_measurementsCount (scanInfo e)))%nat 0.
Proof.
  intros Hn Hi Hlen.
  destruct (UpdateScan_complete cfg x r e) as [_ ->]; [lia|].
  rewrite rssiHistory_UpdateScan_finish.
  destruct (Scan_frame cfg x r e) as (_ & -> & _ & _ & _ & Hl & _).
  rewrite Hl, Hlen.
  assert (Hsh : (Z.shiftr (scanInfo_measurementsCount (scanInfo e)) 7 =? 0) = true).
  { apply Z.eqb_eq. rewrite Z.shiftr_div_pow2 by lia.
    apply Z.div_small. change (2 ^ 7) with 128. lia. }
  rewrite Hsh. f_equal.
  assert (Hns : ENABLE_SCAN_RANGES cfg
                && (scanInfo_measurementsCount (scanInfo e) >? 128) = false).
  { rewrite Z.gtb_ltb.
    destruct (Z.ltb_spec 128 (scanInfo_measurementsCount (scanInfo e)));
      [lia|apply andb_false_r]. }
  assert (Hin : in_hist e (scanInfo_i (scanInfo e)) = true).
  { unfold in_hist. rewrite Hi, Hlen.
    apply andb_true_iff. split; [apply Z.leb_le|apply Z.ltb_lt]; lia. }
  destruct (negb (hist_peek e (scanInfo_i (scanInfo e)) =? RSSI_MAX_VALUE)
            && negb (ENABLE_SCAN_RANGES cfg
                     && IsBlacklisted (scanInfo_i (scanInfo e)) e)) eqn:Hc.
  - apply andb_true_iff in Hc. destruct Hc as [Hv Hb].
    apply negb_true_iff in Hv, Hb. apply Z.eqb_neq in Hv.
    destruct (Scan_measures cfg x r e Hin Hv Hb Hns) as (-> & _).
    rewrite Hi. apply take_insert_ge. lia.
  - unfold Scan, hist_get. cbv beta iota zeta.
    set (e1 := set_accesses _ e).
    change (scanInfo e1) with (scanInfo e).
    change (IsBlacklisted (scanInfo_i (scanInfo e)) e1)
      with (IsBlacklisted (scanInfo_i (scanInfo e)) e).
    rewrite Hc. reflexivity.
Qed.

(** The end of a sweep of 64 steps over a history that still holds the
    128 entries of an earlier, wider sweep. *)
Lemma UpdateScan_clears_unused_bins_witness :
  rssiHistory
    (UpdateScan cfg_plain extern0 77
       (set_rssiHistory (replicate 128 90) engine_held_peak))
  = take 64 (replicate 128 90) ++ replicate 64 0.
Proof.
  refine (UpdateScan_clears_unused_bins cfg_plain extern0 77
            (set_rssiHistory (replicate 128 90) engine_held_peak) _ _ _).
  - vm_compute. split; [discriminate|reflexivity].
  - reflexivity.
  - reflexivity.
Defined.

(** ** The scaled history of scan ranges *)

(** X19. With more than 128 steps (scan ranges), [SetRssiHistory] maps
    step [idx] to entry [128000 / count * idx / 1000], which lies inside
    the 128 entries for every step below the step count; the entry
    keeps the larger of its old value and the sample (the sample itself
    while listening) and the entry after it, cyclically, is set to 0.
    Nothing is written outside the array. *)
Theorem SetRssiHistory_scaled (cfg : Config) (idx rssi : Z) (e : Engine) :
  ENABLE_SCAN_RANGES cfg = true ->
  128 < scanInfo_measurementsCount (scanInfo e) <= 65535 ->
  0 <= idx < scanInfo_measurementsCount (scanInfo e) ->
  length (rssiHistory e) = 128%nat ->
  0 <= 128000 / scanInfo_measurementsCount (scanInfo e) * idx / 1000 <= 127
  /\ rssiHistory (SetRssiHistory cfg idx rssi e)
     = <[Z.to_nat ((128000 / scanInfo_measurementsCount (scanInfo e) * idx
                    / 1000 + 1) mod 128) := 0]>
         (<[Z.to_nat (128000 / scanInfo_measurementsCount (scanInfo e) * idx
                      / 1000)
            := if (default 0
                     (rssiHistory e
                      !! Z.to_nat (128000
                                   / scanInfo_measurementsCount (scanInfo e)
                                   * idx / 1000)) <? rssi)
                  || isListening e
               then rssi
               else default 0
                      (rssiHistory e
                       !! Z.to_nat (128000
                                    / scanInfo_measurementsCount (scanInfo e)
                                    * idx / 1000))]>
            (rssiHistory e))
  /\ pastEnd (SetRssiHistory cfg idx rssi e) = pastEnd e.
Proof.
  intros Hsr Hn Hidx Hlen.
  set (n := scanInfo_measurementsCount (scanInfo e)) in *.
  set (i := 128000 / n * idx / 1000).
  assert (Hq : 0 <= 128000 / n) by (apply Z.div_pos; lia).
  assert (Hqn : 128000 / n * n <= 128000)
    by (rewrite Z.mul_comm; apply Z.mul_div_le; lia).
  assert (Hprod : 0 <= 128000 / n * idx < 128000) by nia.
  assert (Hi : 0 <= i <= 127) by (subst i; zlia).
  split; [exact Hi|].
  unfold SetRssiHistory. rewrite Hsr. fold n.
  assert (Hgt : (n >? 128) = true) by (apply Z.gtb_lt; lia).
  rewrite Hgt. cbn [andb]. cbv zeta.
  change (128 * 1000) with 128000.
  assert (Ei : u8 (u32 (u32 (128000 / n) * idx) / 1000) = i).
  { assert (E1 : u32 (128000 / n) = 128000 / n)
      by (unfold u32; apply Z.mod_small; zlia).
    rewrite E1.
    assert (E2 : u32 (128000 / n * idx) = 128000 / n * idx)
      by (unfold u32; apply Z.mod_small; lia).
    rewrite E2. apply u8_small. fold i. lia. }
  rewrite Ei.
  unfold hist_get. cbv beta iota zeta.
  set (e1 := set_accesses _ e).
  assert (Hin1 : forall (j : Z) (e0 : Engine),
             length (rssiHistory e0) = 128%nat -> 0 <= j <= 127 ->
             in_hist e0 j = true).
  { intros j e0 Hl Hj. unfold in_hist. rewrite Hl.
    apply andb_true_iff. split; [apply Z.leb_le|apply Z.ltb_lt]; lia. }
  assert (Hset : forall (j v : Z) (e0 : Engine),
             length (rssiHistory e0) = 128%nat -> 0 <= j <= 127 ->
             rssiHistory (hist_set j v e0) = <[Z.to_nat j := v]> (rssiHistory e0)
             /\ pastEnd (hist_set j v e0) = pastEnd e0).
  { intros j v e0 Hl Hj. unfold hist_set. rewrite (Hin1 j e0 Hl Hj).
    split; reflexivity. }
  assert (Hpeek : hist_peek e i = default 0 (rssiHistory e !! Z.to_nat i)).
  { unfold hist_peek. rewrite (Hin1 i e Hlen Hi). reflexivity. }
  rewrite Hpeek.
  change (isListening e1) with (isListening e).
  assert (Hj : 0 <= (i + 1) mod 128 <= 127) by zlia.
  destruct ((default 0 (rssiHistory e !! Z.to_nat i) <? rssi) || isListening e).
  - destruct (Hset i rssi e1 Hlen Hi) as [Ha Hb].
    destruct (Hset ((i + 1) mod 128) 0 (hist_set i rssi e1)) as [Hc Hd];
      [rewrite Ha, length_insert; exact Hlen|exact Hj|].
    rewrite Hc, Hd, Ha, Hb. split; reflexivity.
  - destruct (Hset ((i + 1) mod 128) 0 e1 Hlen Hj) as [Hc Hd].
    rewrite Hc, Hd. split; [|reflexivity].
    change (rssiHistory e1) with (rssiHistory e).
    f_equal. symmetry. apply list_insert_id.
    destruct (rssiHistory e !! Z.to_nat i) as [v|] eqn:Hv; [reflexivity|].
    apply lookup_ge_None in Hv. lia.
Qed.

(** Step 100 of 200 lands on entry 64. *)
Lemma SetRssiHistory_scaled_witness :
  0 <= 128000 / 200 * 100 / 1000 <= 127.
Proof.
  refine (proj1 (SetRssiHistory_scaled cfg_full 100 120
                   (set_scanInfo (mkScanInfo 0 65535 0 100 0 14500000 0 2500 200)
                      engine0) _ _ _ _)).
  - reflexivity.
  - vm_compute. split; [reflexivity|discriminate].
  - vm_compute. split; [discriminate|reflexivity].
  - reflexivity.
Defined.

(** ** The second variant of the file *)

Lemma Part000_AutoTriggerLevel_step (e : Engine) :
  is_u16 (rssiTriggerLevel (settings e)) ->
  rssiTriggerLevel (settings e) <> RSSI_MAX_VALUE ->
  0 <= scanInfo_rssiMin (scanInfo e) <= 65523 ->
  rssiTriggerLevel (settings (Part000.AutoTriggerLevel e))
  = Z.max 40 (rssiTriggerLevel (settings e)
              + Z.sgn (scanInfo_rssiMin (scanInfo e) + 12
                       - rssiTriggerLevel (settings e)))
  /\ scanInfo (Part000.AutoTriggerLevel e) = scanInfo e.
Proof.
  unfold is_u16, RSSI_MAX_VALUE. intros Hl Hs Hm.
  unfold Part000.AutoTriggerLevel. cbv zeta.
  destruct (Z.eqb_spec (rssiTriggerLevel (settings e)) RSSI_MAX_VALUE)
    as [E|_]; [contradiction|].
  rewrite (u16_small (scanInfo_rssiMin (scanInfo e) + 12))
    by (unfold is_u16; lia).
  rewrite Z.gtb_ltb.
  split; [|reflexivity].
  cbn [settings set_settings rssiTriggerLevel set_rssiTriggerLevel].
  destruct (Z.ltb_spec (rssiTriggerLevel (settings e))
              (scanInfo_rssiMin (scanInfo e) + 12)) as [Hup|Hnu].
  - rewrite u16_small by (unfold is_u16; lia).
    rewrite Z.sgn_pos by lia. break_cmp; lia.
  - destruct (Z.ltb_spec (scanInfo_rssiMin (scanInfo e) + 12)
                (rssiTriggerLevel (settings e))) as [Hdn|Hnd].
    + rewrite u16_small by (unfold is_u16; lia).
      rewrite Z.sgn_neg by lia. break_cmp; lia.
    + replace (scanInfo_rssiMin (scanInfo e) + 12
               - rssiTriggerLevel (settings e)) with 0 by lia.
      cbn [Z.sgn]. break_cmp; lia.
Qed.

(** X20. The trigger estimator of the second variant (part_000) follows
    the noise floor: with the level armed, one call moves it by exactly
    one unit towards [scanInfo.rssiMin + 12], holds it there, and never
    leaves it below 40; as many calls as the level is away from that
    target bring it onto the target and keep it there. *)
Theorem Part000_AutoTriggerLevel_tracks_floor (e : Engine) :
  40 <= rssiTriggerLevel (settings e) <= 65534 ->
  28 <= scanInfo_rssiMin (scanInfo e) <= 65522 ->
  rssiTriggerLevel (settings (Part000.AutoTriggerLevel e))
  = rssiTriggerLevel (settings e)
    + Z.sgn (scanInfo_rssiMin (scanInfo e) + 12 - rssiTriggerLevel (settings e))
  /\ (forall n : nat,
        (Z.to_nat (Z.abs (scanInfo_rssiMin (scanInfo e) + 12
                          - rssiTriggerLevel (settings e))) <= n)%nat ->
        rssiTriggerLevel (settings (Nat.iter n Part000.AutoTriggerLevel e))
        = scanInfo_rssiMin (scanInfo e) + 12).
Proof.
  intros Hl Hm.
  assert (Hone : forall e0 : Engine,
             40 <= rssiTriggerLevel (settings e0) <= 65534 ->
             28 <= scanInfo_rssiMin (scanInfo e0) <= 65522 ->
             rssiTriggerLevel (settings (Part000.AutoTriggerLevel e0))
             = rssiTriggerLevel (settings e0)
               + Z.sgn (scanInfo_rssiMin (scanInfo e0) + 12
                        - rssiTriggerLevel (settings e0))
             /\ scanInfo (Part000.AutoTriggerLevel e0) = scanInfo e0).
  { intros e0 H1 H2.
    destruct (Part000_AutoTriggerLevel_step e0) as [Hs Hsc].
    - unfold is_u16. lia.
    - unfold RSSI_MAX_VALUE. lia.
    - lia.
    - split; [|exact Hsc]. rewrite Hs.
      pose proof (Z.sgn_spec (scanInfo_rssiMin (scanInfo e0) + 12
                              - rssiTriggerLevel (settings e0))). lia. }
  split; [apply Hone; assumption|].
  set (t := scanInfo_rssiMin (scanInfo e) + 12).
  assert (Hiter : forall (n : nat) (e0 : Engine),
             scanInfo_rssiMin (scanInfo e0) + 12 = t ->
             40 <= rssiTriggerLevel (settings e0) <= 65534 ->
             (Z.to_nat (Z.abs (t - rssiTriggerLevel (settings e0))) <= n)%nat ->
             rssiTriggerLevel
               (settings (Nat.iter n Part000.AutoTriggerLevel e0)) = t
             /\ scanInfo (Nat.iter n Part000.AutoTriggerLevel e0) = scanInfo e0).
  { induction n as [|n IH]; intros e0 Ht H1 Hd.
    - cbn. split; [lia|reflexivity].
    - rewrite Nat.iter_succ_r.
      destruct (Hone e0 H1) as [Hs Hsc]; [subst t; lia|].
      rewrite Ht in Hs.
      pose proof (Z.sgn_spec (t - rssiTriggerLevel (settings e0))) as Hsg.
      destruct (IH (Part000.AutoTriggerLevel e0)) as [I1 I2].
      + rewrite Hsc. exact Ht.
      + rewrite Hs. subst t. lia.
      + rewrite Hs. lia.
      + split; [exact I1|]. rewrite I2. exact Hsc. }
  intros n Hn. apply (Hiter n e); [reflexivity|exact Hl|exact Hn].
Qed.

(** Level 150 over a noise floor of 100: 151 after one call, 112 after
    38. *)
Lemma Part000_AutoTriggerLevel_tracks_floor_witness :
  rssiTriggerLevel
    (settings (Part000.AutoTriggerLevel
                 (set_scanInfo (mkScanInfo 0 100 0 0 0 0 0 0 64) engine0)))
  = rssiTriggerLevel
      (settings (set_scanInfo (mkScanInfo 0 100 0 0 0 0 0 0 64) engine0))
    + Z.sgn (scanInfo_rssiMin
               (scanInfo (set_scanInfo (mkScanInfo 0 100 0 0 0 0 0 0 64)
                            engine0)) + 12
             - rssiTriggerLevel
                 (settings (set_scanInfo (mkScanInfo 0 100 0 0 0 0 0 0 64)
                              engine0))).
Proof.
  refine (proj1 (Part000_AutoTriggerLevel_tracks_floor
                   (set_scanInfo (mkScanInfo 0 100 0 0 0 0 0 0 64) engine0)
                   _ _)).
  - vm_compute. split; discriminate.
  - vm_compute. split; discriminate.
Defined.

(** X21. The lock test of the second variant (part_000) has a
    hysteresis of 4: a peak opens the lock when it is above the trigger
    level and keeps it while it is above the level minus 4, so whatever
    opens the lock also keeps it.  This holds from a level of 4 on;
    below, the subtraction wraps in 16 bits and no 16-bit peak up to
    65532 keeps the lock. *)
Theorem Part000_lock_hysteresis (e : Engine) :
  is_u16 (rssiTriggerLevel (settings e)) ->
  Part000.IsPeakOverLevel e
  = (peak_rssi (peak e)
     >? (if isListening e
         then if rssiTriggerLevel (settings e) <? 4
              then rssiTriggerLevel (settings e) + 65532
              else rssiTriggerLevel (settings e) - 4
         else rssiTriggerLevel (settings e)))
  /\ (4 <= rssiTriggerLevel (settings e) ->
      Part000.IsPeakOverLevel (set_isListening false e) = true ->
      Part000.IsPeakOverLevel (set_isListening true e) = true)
  /\ (rssiTriggerLevel (settings e) < 4 ->
      peak_rssi (peak e) <= 65532 ->
      Part000.IsPeakOverLevel (set_isListening true e) = false).
Proof.
  unfold is_u16. intros Hl.
  assert (Hth : forall e0 : Engine,
             rssiTriggerLevel (settings e0) = rssiTriggerLevel (settings e) ->
             Part000.IsPeakOverLevel e0
             = (peak_rssi (peak e0)
                >? (if isListening e0
                    then if rssiTriggerLevel (settings e) <? 4
                         then rssiTriggerLevel (settings e) + 65532
                         else rssiTriggerLevel (settings e) - 4
                    else rssiTriggerLevel (settings e)))).
  { intros e0 He. unfold Part000.IsPeakOverLevel. cbv zeta. rewrite He.
    f_equal. destruct (isListening e0).
    - destruct (Z.ltb_spec (rssiTriggerLevel (settings e)) 4);
        unfold u16; zlia.
    - apply u16_small. unfold is_u16. lia. }
  split; [apply Hth; reflexivity|]. split.
  - intros H4. rewrite !Hth by reflexivity.
    cbn [isListening set_isListening peak].
    destruct (Z.ltb_spec (rssiTriggerLevel (settings e)) 4); [lia|].
    rewrite !Z.gtb_ltb. intros Hopen. apply Z.ltb_lt in Hopen.
    apply Z.ltb_lt. lia.
  - intros H4 Hp. rewrite Hth by reflexivity.
    cbn [isListening set_isListening peak].
    destruct (Z.ltb_spec (rssiTriggerLevel (settings e)) 4); [|lia].
    rewrite Z.gtb_ltb. apply Z.ltb_ge. lia.
Qed.

(** Trigger level 150: a peak of 147 keeps the lock that 151 opened. *)
Lemma Part000_lock_hysteresis_witness :
  Part000.IsPeakOverLevel (set_peak (mkPeakInfo 0 147 0 0) engine_listening)
  = (147 >? 146).
Proof.
  refine (proj1 (Part000_lock_hysteresis
                   (set_peak (mkPeakInfo 0 147 0 0) engine_listening) _)).
  vm_compute. split; discriminate.
Defined.

(** ** Frequency entry *)

Lemma digits_value_app (ds : list Z) (d : Z) :
  digits_value (ds ++ [d]) = 10 * digits_value ds + d.
Proof. unfold digits_value. rewrite fold_left_app. reflexivity. Qed.

Lemma digits_fold_init (ds : list Z) (a : Z) :
  fold_left (fun a d => 10 * a + d) ds a
  = a * 10 ^ Z.of_nat (length ds) + digits_value ds.
Proof.
  unfold digits_value. revert a.
  induction ds as [|d ds IH]; intros a.
  - cbn. lia.
  - cbn [fold_left length]. rewrite IH, (IH (10 * 0 + d)).
    rewrite Nat2Z.inj_succ, Z.pow_succ_r by lia. ring.
Qed.

Lemma digits_value_cons (d : Z) (ds : list Z) :
  digits_value (d :: ds) = d * 10 ^ Z.of_nat (length ds) + digits_value ds.
Proof.
  unfold digits_value at 1. cbn [fold_left].
  rewrite digits_fold_init. ring.
Qed.

Lemma digits_value_bound (ds : list Z) :
  Forall (fun d => 0 <= d <= 9) ds ->
  0 <= digits_value ds < 10 ^ Z.of_nat (length ds).
Proof.
  induction ds as [|d ds IH] using rev_ind; intros Hd.
  - cbn. lia.
  - apply Forall_app in Hd. destruct Hd as [Hd Hl].
    apply Forall_cons in Hl. destruct Hl as [Hl _].
    specialize (IH Hd).
    rewrite digits_value_app, length_app. cbn [length].
    rewrite Nat2Z.inj_add, Z.pow_add_r by lia.
    change (10 ^ Z.of_nat 1) with 10. lia.
Qed.

Lemma u32_id (v : Z) : 0 <= v < 4294967296 -> u32 v = v.
Proof. unfold u32. intros. apply Z.mod_small. lia. Qed.

Lemma u32_range (v : Z) : 0 <= u32 v < 4294967296.
Proof. unfold u32. zlia. Qed.

Lemma u32_step (t a b c : Z) :
  u32 (u32 (t + a) + u32 b * c) = u32 (t + a + b * c).
Proof.
  unfold u32.
  rewrite Zplus_mod_idemp_l.
  rewrite <- (Zplus_mod_idemp_r (b mod 4294967296 * c)).
  rewrite Zmult_mod_idemp_l.
  rewrite Zplus_mod_idemp_r. reflexivity.
Qed.

(** The loop over the digits before the dot adds the number they write,
    in units of the base. *)
Lemma freq_int_loop_value (K : Keys) (ds : list Z) :
  forall t b : Z,
  0 <= t < 4294967296 ->
  fst (fold_left
         (fun '(t, base) key => (u32 (t + (key - KEY_0 K) * base),
                                 u32 (base * 10)))
         (rev (map (fun d => KEY_0 K + d) ds)) (t, b))
  = u32 (t + b * digits_value ds).
Proof.
  induction ds as [|d ds IH] using rev_ind; intros t b Ht.
  - cbn. rewrite Z.mul_0_r, Z.add_0_r. symmetry. apply u32_id. exact Ht.
  - rewrite map_app, rev_app_distr. cbn [map rev app fold_left].
    rewrite IH by apply u32_range.
    rewrite digits_value_app.
    replace (KEY_0 K + d - KEY_0 K) with d by lia.
    rewrite u32_step. f_equal. ring.
Qed.

Lemma freq_frac_loop_base0 (K : Keys) (ks : list Z) (t : Z) :
  0 <= t < 4294967296 ->
  fst (fold_left
         (fun '(t, base) key => (u32 (t + (key - KEY_0 K) * base), base / 10))
         ks (t, 0)) = t.
Proof.
  revert t. induction ks as [|k ks IH]; intros t Ht.
  - reflexivity.
  - cbn [fold_left]. rewrite Z.mul_0_r, Z.add_0_r.
    change (0 / 10) with 0. rewrite (u32_id t Ht). apply IH. exact Ht.
Qed.

(** The loop over the digits after the dot, from the base [10 ^ m]: the
    first [m + 1] digits count. *)
Lemma freq_frac_loop_value (K : Keys) (fs : list Z) :
  forall (m : nat) (t : Z),
  0 <= t < 4294967296 ->
  fst (fold_left
         (fun '(t, base) key => (u32 (t + (key - KEY_0 K) * base), base / 10))
         (map (fun d => KEY_0 K + d) fs) (t, 10 ^ Z.of_nat m))
  = u32 (t + digits_value (take (S m) fs)
             * 10 ^ Z.of_nat (S m - length (take (S m) fs))).
Proof.
  induction fs as [|d fs IH]; intros m t Ht.
  - cbn [map fold_left fst take]. unfold digits_value. cbn [fold_left].
    rewrite Z.mul_0_l, Z.add_0_r. symmetry. apply u32_id. exact Ht.
  - cbn [map fold_left].
    replace (KEY_0 K + d - KEY_0 K) with d by lia.
    destruct m as [|m].
    + change (10 ^ Z.of_nat 0 / 10) with 0.
      rewrite freq_frac_loop_base0 by apply u32_range.
      cbn [take length]. rewrite take_0.
      unfold digits_value. cbn [fold_left length Nat.sub].
      f_equal; lia.
    + assert (Hdiv : 10 ^ Z.of_nat (S m) / 10 = 10 ^ Z.of_nat m).
      { rewrite Nat2Z.inj_succ, Z.pow_succ_r by lia.
        rewrite Z.mul_comm. apply Z.div_mul. lia. }
      rewrite Hdiv, IH by apply u32_range.
      cbn [take length]. rewrite digits_value_cons.
      set (l := take (S m) fs).
      assert (Hl : (length l <= S m)%nat)
        by (subst l; rewrite length_take; lia).
      replace (S (S m) - S (length l))%nat with (S m - length l)%nat by lia.
      unfold u32. rewrite Zplus_mod_idemp_l. f_equal.
      rewrite Z.mul_add_distr_r, <- Z.mul_assoc, <- Z.pow_add_r by lia.
      replace (Z.of_nat (length l) + Z.of_nat (S m - length l))
        with (Z.of_nat (S m)) by lia.
      ring.
Qed.

Lemma fraction_value_bound (fs : list Z) :
  Forall (fun d => 0 <= d <= 9) fs -> 0 <= fraction_value fs < 100000.
Proof.
  intros Hd. unfold fraction_value.
  set (l := take 5 fs).
  assert (Hl : (length l <= 5)%nat) by (subst l; rewrite length_take; lia).
  assert (Hv : 0 <= digits_value l < 10 ^ Z.of_nat (length l)).
  { apply digits_value_bound. subst l.
    rewrite Forall_lookup in *. intros j v Hj.
    apply lookup_take_Some in Hj as [Hj _]. apply (Hd j v Hj). }
  assert (Hp : 10 ^ Z.of_nat (length l) * 10 ^ Z.of_nat (5 - length l) = 100000).
  { rewrite <- Z.pow_add_r by lia.
    replace (Z.of_nat (length l) + Z.of_nat (5 - length l)) with 5 by lia.
    reflexivity. }
  assert (Hq : 0 < 10 ^ Z.of_nat (5 - length l)) by (apply Z.pow_pos_nonneg; lia).
  nia.
Qed.

(** [tempFreq] for a buffer that holds digits only. *)
Lemma freq_value_digits (K : Keys) (arr : list Z) (ds : list Z) :
  take (length ds) arr = map (fun d => KEY_0 K + d) ds ->
  freq_value K arr (Z.of_nat (length ds)) 0
  = u32 (digits_value ds * 100000).
Proof.
  intros Harr. unfold freq_value. cbv zeta.
  change (0 =? 0) with true. cbv iota.
  rewrite Z.ltb_irrefl, Nat2Z.id, Harr.
  unfold freq_int_loop. rewrite freq_int_loop_value by lia.
  f_equal. lia.
Qed.

(** [tempFreq] for a buffer that holds digits, the dot and digits. *)
Lemma freq_value_dot (K : Keys) (arr : list Z) (ds fs : list Z) :
  ds <> [] ->
  take (length ds + 1 + length fs) arr
  = map (fun d => KEY_0 K + d) ds
    ++ KEY_STAR K :: map (fun d => KEY_0 K + d) fs ->
  freq_value K arr (Z.of_nat (length ds + 1 + length fs))
    (Z.of_nat (length ds))
  = u32 (digits_value ds * 100000 + fraction_value fs).
Proof.
  intros Hne Harr. unfold freq_value. cbv zeta.
  assert (Hn : (0 < length ds)%nat) by (destruct ds; [congruence|cbn; lia]).
  destruct (Z.eqb_spec (Z.of_nat (length ds)) 0) as [E|_]; [lia|].
  destruct (Z.ltb_spec (Z.of_nat (length ds))
              (Z.of_nat (length ds + 1 + length fs))) as [_|E]; [|lia].
  rewrite !Nat2Z.id.
  replace (Z.to_nat (Z.of_nat (length ds) + 1)) with (length ds + 1)%nat by lia.
  rewrite Harr.
  assert (Hint : take (length ds) arr = map (fun d => KEY_0 K + d) ds).
  { replace (length ds) with (length ds `min` (length ds + 1 + length fs))%nat
      at 1 by lia.
    rewrite <- take_take, Harr.
    apply take_app_length'. rewrite length_map. reflexivity. }
  rewrite Hint.
  unfold freq_int_loop. rewrite freq_int_loop_value by lia.
  rewrite drop_app_ge by (rewrite length_map; lia).
  rewrite length_map.
  replace (length ds + 1 - length ds)%nat with 1%nat by lia.
  cbn [drop]. rewrite drop_0.
  unfold freq_frac_loop.
  change 10000 with (10 ^ Z.of_nat 4).
  rewrite freq_frac_loop_value by apply u32_range.
  unfold fraction_value, u32. rewrite Zplus_mod_idemp_l.
  f_equal. lia.
Qed.

(** A key that is taken: not [KEY_EXIT], room left, and a dot only
    behind a digit and only once. *)
Lemma UpdateFreqInput_accepts (K : Keys) (k : Z) (st : FreqEntry) :
  k <> KEY_EXIT K ->
  0 <= freqInputIndex st < 10 ->
  (k = KEY_STAR K -> freqInputIndex st <> 0 /\ freqInputDotIndex st = 0) ->
  UpdateFreqInput K k st
  = mkFreqEntry (freqInputIndex st + 1)
      (if k =? KEY_STAR K then freqInputIndex st else freqInputDotIndex st)
      (<[Z.to_nat (freqInputIndex st) := k]> (freqInputArr st))
      (freq_string K (<[Z.to_nat (freqInputIndex st) := k]> (freqInputArr st))
         (freqInputIndex st + 1)
       ++ drop 10 (freqInputString st))
      (freq_value K (<[Z.to_nat (freqInputIndex st) := k]> (freqInputArr st))
         (freqInputIndex st + 1)
         (if k =? KEY_STAR K then freqInputIndex st else freqInputDotIndex st)).
Proof.
  intros Hk Hi Hs. unfold UpdateFreqInput.
  destruct (Z.eqb_spec k (KEY_EXIT K)) as [|_]; [contradiction|].
  rewrite Z.geb_leb.
  destruct (Z.leb_spec 10 (freqInputIndex st)) as [|_]; [lia|].
  cbn [negb andb].
  rewrite (u8_small (freqInputIndex st + 1)) by lia.
  destruct (Z.eqb_spec k (KEY_STAR K)) as [E|_]; [|reflexivity].
  destruct (Hs E) as [H0 Hd]. rewrite Hd.
  destruct (Z.eqb_spec (freqInputIndex st) 0) as [|_]; [contradiction|].
  reflexivity.
Qed.

Lemma type_keys_cons (K : Keys) (k : Z) (ks : list Z) (st : FreqEntry) :
  type_keys K (k :: ks) st = type_keys K ks (UpdateFreqInput K k st).
Proof. reflexivity. Qed.

Lemma type_keys_app (K : Keys) (ks1 ks2 : list Z) (st : FreqEntry) :
  type_keys K (ks1 ++ ks2) st = type_keys K ks2 (type_keys K ks1 st).
Proof. unfold type_keys. apply fold_left_app. Qed.

(** Digits typed one after the other. *)
Lemma type_keys_digits (K : Keys) (ds : list Z) :
  (KEY_STAR K < KEY_0 K \/ KEY_0 K + 9 < KEY_STAR K) ->
  (KEY_EXIT K < KEY_0 K \/ KEY_0 K + 9 < KEY_EXIT K) ->
  Forall (fun d => 0 <= d <= 9) ds ->
  forall st : FreqEntry,
  length (freqInputArr st) = 10%nat ->
  0 <= freqInputIndex st ->
  freqInputIndex st + Z.of_nat (length ds) <= 10 ->
  freqInputIndex (type_keys K (map (fun d => KEY_0 K + d) ds) st)
  = freqInputIndex st + Z.of_nat (length ds)
  /\ freqInputDotIndex (type_keys K (map (fun d => KEY_0 K + d) ds) st)
     = freqInputDotIndex st
  /\ length (freqInputArr (type_keys K (map (fun d => KEY_0 K + d) ds) st))
     = 10%nat
  /\ take (Z.to_nat (freqInputIndex st) + length ds)
       (freqInputArr (type_keys K (map (fun d => KEY_0 K + d) ds) st))
     = take (Z.to_nat (freqInputIndex st)) (freqInputArr st)
       ++ map (fun d => KEY_0 K + d) ds
  /\ (ds <> [] ->
      tempFreq (type_keys K (map (fun d => KEY_0 K + d) ds) st)
      = freq_value K
          (freqInputArr (type_keys K (map (fun d => KEY_0 K + d) ds) st))
          (freqInputIndex st + Z.of_nat (length ds))
          (freqInputDotIndex st)).
Proof.
  intros Hstar Hexit Hd.
  induction Hd as [|d ds Hd0 Hd IH]; intros st Hlen H0 Hroom.
  - cbn [map length type_keys fold_left]. rewrite Nat.add_0_r, app_nil_r.
    change (Z.of_nat 0) with 0. rewrite Z.add_0_r.
    repeat split; try assumption; try reflexivity. congruence.
  - cbn [map length] in *. rewrite type_keys_cons.
    rewrite UpdateFreqInput_accepts by lia.
    destruct (Z.eqb_spec (KEY_0 K + d) (KEY_STAR K)) as [|_]; [lia|].
    set (st1 := mkFreqEntry _ _ _ _ _).
    destruct (IH st1) as (I1 & I2 & I3 & I4 & I5).
    { subst st1. cbn. rewrite length_insert. exact Hlen. }
    { subst st1. cbn. lia. }
    { subst st1. cbn. lia. }
    assert (Hst1 : freqInputIndex st1 = freqInputIndex st + 1) by reflexivity.
    rewrite I1, I2, I3, Hst1.
    split; [lia|]. split; [reflexivity|]. split; [reflexivity|].
    split.
    { rewrite Hst1 in I4.
      replace (Z.to_nat (freqInputIndex st) + S (length ds))%nat
        with (Z.to_nat (freqInputIndex st + 1) + length ds)%nat by lia.
      rewrite I4. subst st1. cbn [freqInputArr].
      replace (Z.to_nat (freqInputIndex st + 1))
        with (S (Z.to_nat (freqInputIndex st))) by lia.
      rewrite (take_S_r _ _ (KEY_0 K + d))
        by (apply list_lookup_insert_eq; lia).
      rewrite take_insert_ge by lia.
      rewrite <- app_assoc. reflexivity. }
    intros _.
    destruct ds as [|d' ds'].
    + cbn [map type_keys fold_left length]. subst st1. cbn [tempFreq freqInputArr].
      reflexivity.
    + rewrite I5 by discriminate. rewrite Hst1. f_equal. cbn [length]. lia.
Qed.

(** X22. The frequency entry reads decimal MHz: from a fresh entry, the
    digits [ds] give [tempFreq] = their number times 100000 (units of
    10 Hz), and the digits [ds], the dot and the digits [fs] give that
    plus the fraction, of which the first five digits count and any
    further ones are dropped; both as 32-bit sums, which are exact for
    up to four digits before the dot. *)
Theorem UpdateFreqInput_parses (K : Keys) (st : FreqEntry) (ds fs : list Z) :
  (KEY_STAR K < KEY_0 K \/ KEY_0 K + 9 < KEY_STAR K) ->
  (KEY_EXIT K < KEY_0 K \/ KEY_0 K + 9 < KEY_EXIT K) ->
  KEY_STAR K <> KEY_EXIT K ->
  freqInputIndex st = 0 -> freqInputDotIndex st = 0 ->
  length (freqInputArr st) = 10%nat ->
  Forall (fun d => 0 <= d <= 9) ds ->
  Forall (fun d => 0 <= d <= 9) fs ->
  ds <> [] ->
  (length ds + 1 + length fs <= 10)%nat ->
  tempFreq (type_keys K (map (fun d => KEY_0 K + d) ds) st)
  = u32 (digits_value ds * 100000)
  /\ tempFreq
       (type_keys K
          (map (fun d => KEY_0 K + d) ds
           ++ KEY_STAR K :: map (fun d => KEY_0 K + d) fs) st)
     = u32 (digits_value ds * 100000 + fraction_value fs)
  /\ ((length ds <= 4)%nat ->
      tempFreq
        (type_keys K
           (map (fun d => KEY_0 K + d) ds
            ++ KEY_STAR K :: map (fun d => KEY_0 K + d) fs) st)
      = digits_value ds * 100000 + fraction_value fs).
Proof.
  intros Hstar Hexit Hse Hi0 Hd0 Hlen Hds Hfs Hne Hroom.
  assert (Hn : (0 < length ds)%nat) by (destruct ds; [congruence|cbn; lia]).
  destruct (type_keys_digits K ds Hstar Hexit Hds st Hlen)
    as (A1 & A2 & A3 & A4 & A5); [lia|lia|].
  set (st1 := type_keys K (map (fun d => KEY_0 K + d) ds) st) in *.
  rewrite Hi0 in A1, A4, A5. rewrite Hd0 in A2, A5.
  change (Z.to_nat 0) with 0%nat in A4.
  change (0 + length ds)%nat with (length ds) in A4.
  rewrite take_0, app_nil_l in A4. rewrite Z.add_0_l in A1, A5.
  assert (Hint : tempFreq st1 = u32 (digits_value ds * 100000)).
  { rewrite A5 by exact Hne. apply freq_value_digits. exact A4. }
  split; [exact Hint|].
  assert (Hdot : tempFreq
                   (type_keys K
                      (map (fun d => KEY_0 K + d) ds
                       ++ KEY_STAR K :: map (fun d => KEY_0 K + d) fs) st)
                 = u32 (digits_value ds * 100000 + fraction_value fs)).
  { rewrite type_keys_app. fold st1. rewrite type_keys_cons.
    rewrite UpdateFreqInput_accepts by (rewrite ?A1, ?A2; lia).
    rewrite Z.eqb_refl, A1.
    set (st2 := mkFreqEntry _ _ _ _ _).
    destruct (type_keys_digits K fs Hstar Hexit Hfs st2)
      as (B1 & B2 & B3 & B4 & B5).
    { subst st2. cbn. rewrite length_insert. exact A3. }
    { subst st2. cbn. lia. }
    { subst st2. cbn. lia. }
    assert (Hi2 : freqInputIndex st2 = Z.of_nat (length ds) + 1) by reflexivity.
    assert (Hd2 : freqInputDotIndex st2 = Z.of_nat (length ds)) by reflexivity.
    assert (Ha2 : take (length ds + 1) (freqInputArr st2)
                  = map (fun d => KEY_0 K + d) ds ++ [KEY_STAR K]).
    { subst st2. cbn [freqInputArr]. rewrite Nat2Z.id.
      replace (length ds + 1)%nat with (S (length ds)) by lia.
      rewrite (take_S_r _ _ (KEY_STAR K))
        by (apply list_lookup_insert_eq; lia).
      rewrite take_insert_ge by lia. rewrite A4. reflexivity. }
    rewrite Hi2 in B4.
    replace (Z.to_nat (Z.of_nat (length ds) + 1)) with (length ds + 1)%nat
      in B4 by lia.
    rewrite Ha2, <- app_assoc in B4. cbn [app] in B4.
    destruct fs as [|f fs'].
    - cbn [map type_keys fold_left].
      change (tempFreq st2)
        with (freq_value K (freqInputArr st2) (Z.of_nat (length ds) + 1)
                (Z.of_nat (length ds))).
      rewrite <- (freq_value_dot K (freqInputArr st2) ds []); [|exact Hne|].
      + f_equal. cbn [length]. lia.
      + cbn [length map]. rewrite Nat.add_0_r. exact Ha2.
    - rewrite B5 by discriminate. rewrite Hi2, Hd2.
      set (arr3 := freqInputArr (type_keys K _ st2)) in *.
      rewrite <- (freq_value_dot K arr3 ds (f :: fs') Hne B4).
      f_equal. lia. }
  split; [exact Hdot|].
  intros H4. rewrite Hdot. apply u32_id.
  pose proof (digits_value_bound ds Hds) as Hv.
  pose proof (fraction_value_bound fs Hfs) as Hf.
  assert (Hp : 10 ^ Z.of_nat (length ds) <= 10 ^ 4)
    by (apply Z.pow_le_mono_r; lia).
  change (10 ^ 4) with 10000 in Hp. lia.
Qed.

(** 145.5 MHz typed as 1 4 5 * 5. *)
Lemma UpdateFreqInput_parses_witness :
  tempFreq (type_keys keys0 [1; 4; 5; 14; 5] entry0) = 14550000.
Proof.
  refine (proj2 (proj2 (UpdateFreqInput_parses keys0 entry0 [1; 4; 5] [5]
                          _ _ _ _ _ _ _ _ _ _)) _).
  - right. vm_compute. reflexivity.
  - right. vm_compute. reflexivity.
  - discriminate.
  - reflexivity.
  - reflexivity.
  - reflexivity.
  - repeat (constructor; [lia|]). constructor.
  - repeat (constructor; [lia|]). constructor.
  - discriminate.
  - cbn. lia.
  - cbn. lia.
Defined.

Lemma freq_value_insert (K : Keys) (arr : list Z) (n dot k : Z) :
  0 <= n -> (dot = 0 \/ 1 <= dot < n) ->
  freq_value K (<[Z.to_nat n := k]> arr) n dot = freq_value K arr n dot.
Proof.
  intros Hn Hdot. unfold freq_value. cbv zeta.
  assert (Hdi : 0 <= (if dot =? 0 then n else dot) <= n)
    by (destruct (Z.eqb_spec dot 0); lia).
  rewrite !take_insert_ge by lia. reflexivity.
Qed.

Lemma freq_string_insert (K : Keys) (arr : list Z) (n k : Z) :
  0 <= n ->
  freq_string K (<[Z.to_nat n := k]> arr) n = freq_string K arr n.
Proof.
  intros Hn. unfold freq_string. apply map_ext_in. intros i Hi.
  apply list_elem_of_In, elem_of_seqZ in Hi.
  destruct (Z.ltb_spec i n); [|reflexivity].
  rewrite list_lookup_insert_ne by lia. reflexivity.
Qed.

(** X23. Backspace: [KEY_EXIT] after a key that was taken brings back
    the index and the dot index that were there before the key, and
    [tempFreq] and the text are those of the keys before it; only the
    erased key stays behind in the buffer, beyond the index. *)
Theorem UpdateFreqInput_backspace (K : Keys) (k : Z) (st : FreqEntry) :
  KEY_STAR K <> KEY_EXIT K ->
  k <> KEY_EXIT K ->
  0 <= freqInputIndex st < 10 ->
  freqInputDotIndex st = 0 \/ 1 <= freqInputDotIndex st < freqInputIndex st ->
  (k = KEY_STAR K -> freqInputIndex st <> 0 /\ freqInputDotIndex st = 0) ->
  UpdateFreqInput K (KEY_EXIT K) (UpdateFreqInput K k st)
  = mkFreqEntry (freqInputIndex st) (freqInputDotIndex st)
      (<[Z.to_nat (freqInputIndex st) := k]> (freqInputArr st))
      (freq_string K (freqInputArr st) (freqInputIndex st)
       ++ drop 10 (freqInputString st))
      (freq_value K (freqInputArr st) (freqInputIndex st)
         (freqInputDotIndex st)).
Proof.
  intros Hse Hk Hi Hdot Hs.
  rewrite (UpdateFreqInput_accepts K k st Hk Hi Hs).
  unfold UpdateFreqInput at 1.
  cbn [freqInputIndex freqInputDotIndex freqInputArr freqInputString].
  rewrite Z.eqb_refl. cbn [negb andb].
  destruct (Z.eqb_spec (KEY_EXIT K) (KEY_STAR K)) as [E|_]; [congruence|].
  cbn [andb].
  replace (freqInputIndex st + 1 - 1) with (freqInputIndex st) by lia.
  rewrite (u8_small (freqInputIndex st)) by lia.
  assert (Hd : (if (if k =? KEY_STAR K then freqInputIndex st
                    else freqInputDotIndex st) =? freqInputIndex st
                then 0
                else if k =? KEY_STAR K then freqInputIndex st
                     else freqInputDotIndex st)
               = freqInputDotIndex st).
  { destruct (Z.eqb_spec k (KEY_STAR K)) as [Ek|_].
    - destruct (Hs Ek) as [_ ->]. rewrite Z.eqb_refl. reflexivity.
    - destruct (Z.eqb_spec (freqInputDotIndex st) (freqInputIndex st)); lia. }
  rewrite Hd.
  rewrite freq_string_insert, freq_value_insert by lia.
  rewrite drop_app_length'
    by (unfold freq_string; rewrite length_map, length_seqZ; reflexivity).
  reflexivity.
Qed.

(** The 5 of 145.5 erased again. *)
Lemma UpdateFreqInput_backspace_witness :
  UpdateFreqInput keys0 13
    (UpdateFreqInput keys0 5 (type_keys keys0 [1; 4; 5; 14] entry0))
  = mkFreqEntry
      (freqInputIndex (type_keys keys0 [1; 4; 5; 14] entry0))
      (freqInputDotIndex (type_keys keys0 [1; 4; 5; 14] entry0))
      (<[Z.to_nat (freqInputIndex (type_keys keys0 [1; 4; 5; 14] entry0))
         := 5]> (freqInputArr (type_keys keys0 [1; 4; 5; 14] entry0)))
      (freq_string keys0
         (freqInputArr (type_keys keys0 [1; 4; 5; 14] entry0))
         (freqInputIndex (type_keys keys0 [1; 4; 5; 14] entry0))
       ++ drop 10 (freqInputString (type_keys keys0 [1; 4; 5; 14] entry0)))
      (freq_value keys0
         (freqInputArr (type_keys keys0 [1; 4; 5; 14] entry0))
         (freqInputIndex (type_keys keys0 [1; 4; 5; 14] entry0))
         (freqInputDotIndex (type_keys keys0 [1; 4; 5; 14] entry0))).
Proof.
  refine (UpdateFreqInput_backspace keys0 5
            (type_keys keys0 [1; 4; 5; 14] entry0) _ _ _ _ _).
  - discriminate.
  - discriminate.
  - vm_compute. split; [discriminate|reflexivity].
  - right. vm_compute. split; [discriminate|reflexivity].
  - discriminate.
Defined.

(** X24. The entry never leaves its buffer: whatever key is passed
    ([KEY_EXIT] only with something to erase, as [OnKeyDownFreqInput]
    guarantees), the index stays within the ten keys, the buffer keeps
    its ten entries, and the dot stays behind at least one digit and
    before the index; with ten keys in the buffer every key but
    [KEY_EXIT] is ignored, and so is a dot in first place or a second
    dot. *)
Theorem UpdateFreqInput_keeps_bounds (K : Keys) (k : Z) (st : FreqEntry) :
  KEY_STAR K <> KEY_EXIT K ->
  entry_ok st ->
  (k = KEY_EXIT K -> 1 <= freqInputIndex st) ->
  entry_ok (UpdateFreqInput K k st)
  /\ (k <> KEY_EXIT K -> freqInputIndex st = 10 -> UpdateFreqInput K k st = st)
  /\ (k = KEY_STAR K ->
      freqInputIndex st = 0 \/ freqInputDotIndex st <> 0 ->
      UpdateFreqInput K k st = st).
Proof.
  unfold entry_ok. intros Hse (Hi & Hlen & Hdot) Hex.
  split; [|split].
  - unfold UpdateFreqInput.
    rewrite Z.geb_leb.
    destruct (Z.eqb_spec k (KEY_EXIT K)) as [Ee|Ee]; cbn [negb andb].
    + specialize (Hex Ee).
      destruct (Z.eqb_spec k (KEY_STAR K)) as [Es|_]; [congruence|].
      cbn [andb freqInputIndex freqInputDotIndex freqInputArr].
      rewrite (u8_small (freqInputIndex st - 1)) by lia.
      split; [lia|]. split; [exact Hlen|].
      destruct (Z.eqb_spec (freqInputDotIndex st) (freqInputIndex st - 1));
        [left; reflexivity|lia].
    + destruct (Z.leb_spec 10 (freqInputIndex st)) as [Hfull|Hroom].
      { split; [exact Hi|]. split; [exact Hlen|exact Hdot]. }
      destruct (Z.eqb_spec k (KEY_STAR K)) as [Es|_]; cbn [andb].
      * destruct (Z.eqb_spec (freqInputIndex st) 0) as [E0|E0]; cbn [orb].
        { split; [exact Hi|]. split; [exact Hlen|exact Hdot]. }
        destruct (Z.eqb_spec (freqInputDotIndex st) 0) as [D0|D0]; cbn [negb].
        { cbn [freqInputIndex freqInputDotIndex freqInputArr].
          rewrite (u8_small (freqInputIndex st + 1)) by lia.
          rewrite length_insert. split; [lia|]. split; [exact Hlen|]. lia. }
        split; [exact Hi|]. split; [exact Hlen|exact Hdot].
      * cbn [freqInputIndex freqInputDotIndex freqInputArr].
        rewrite (u8_small (freqInputIndex st + 1)) by lia.
        rewrite length_insert. split; [lia|]. split; [exact Hlen|]. lia.
  - intros Ee H10. unfold UpdateFreqInput.
    destruct (Z.eqb_spec k (KEY_EXIT K)) as [|_]; [contradiction|].
    rewrite H10. reflexivity.
  - intros Es Hrej. unfold UpdateFreqInput.
    destruct (Z.eqb_spec k (KEY_EXIT K)) as [Ee|_]; [congruence|].
    destruct (negb false && (freqInputIndex st >=? 10)); [reflexivity|].
    destruct (Z.eqb_spec k (KEY_STAR K)) as [_|]; [|contradiction].
    destruct Hrej as [E0|D0].
    + rewrite E0. reflexivity.
    + destruct (Z.eqb_spec (freqInputDotIndex st) 0) as [|_]; [contradiction|].
      rewrite orb_true_r. reflexivity.
Qed.

(** A second dot after 145.5 is ignored. *)
Lemma UpdateFreqInput_keeps_bounds_witness :
  entry_ok (UpdateFreqInput keys0 14 (type_keys keys0 [1; 4; 5; 14; 5] entry0)).
Proof.
  refine (proj1 (UpdateFreqInput_keeps_bounds keys0 14
                   (type_keys keys0 [1; 4; 5; 14; 5] entry0) _ _ _)).
  - discriminate.
  - vm_compute. split; [split; discriminate|]. split; [reflexivity|].
    right. split; [discriminate|reflexivity].
  - discriminate.
Defined.

(** ** S-meter *)

Lemma DBm2S_from_spec (map : list Z) (dbm : Z) :
  forall i : Z,
  0 <= i -> i + Z.of_nat (length map) <= 255 ->
  i <= DBm2S_from map dbm i <= i + Z.of_nat (length map)
  /\ (forall (j : nat) (m : Z),
        map !! j = Some m ->
        (i + Z.of_nat j < DBm2S_from map dbm i -> dbm < m)
        /\ (i + Z.of_nat j = DBm2S_from map dbm i -> m <= dbm)).
Proof.
  induction map as [|m0 map IH]; intros i Hi Hlen.
  - cbn. split; [lia|]. intros j m Hj. rewrite lookup_nil in Hj. discriminate.
  - cbn [DBm2S_from length] in *. rewrite Z.geb_leb.
    destruct (Z.leb_spec m0 dbm) as [Hge|Hlt].
    + split; [lia|]. intros [|j] m Hj; cbn in Hj.
      * inversion Hj; subst. split; lia.
      * split; lia.
    + rewrite u8_small by lia.
      destruct (IH (i + 1)) as [Hr Hc]; [lia|lia|].
      split; [lia|]. intros [|j] m Hj; cbn in Hj.
      * inversion Hj; subst. split; lia.
      * destruct (Hc j m Hj) as [H1 H2]. split; intros; [apply H1|apply H2]; lia.
Qed.

Lemma DBm2S_from_mono (map : list Z) (d1 d2 : Z) :
  d2 <= d1 ->
  forall i : Z,
  0 <= i -> i + Z.of_nat (length map) <= 255 ->
  DBm2S_from map d1 i <= DBm2S_from map d2 i.
Proof.
  intros Hd. induction map as [|m0 map IH]; intros i Hi Hlen.
  - cbn. lia.
  - cbn [DBm2S_from length] in *. rewrite !Z.geb_leb.
    destruct (Z.leb_spec m0 d1), (Z.leb_spec m0 d2); try lia.
    + rewrite u8_small by lia.
      destruct (DBm2S_from_spec map d2 (i + 1)) as [Hr _]; lia.
    + rewrite u8_small by lia. apply IH; lia.
Qed.

(** X25. The S-meter reading of [DBm2S] is the first index of
    [U8RssiMap] whose entry is at most [-dbm], or the number of entries
    when there is none; whatever the table holds, a stronger signal
    never gets a smaller reading. *)
Theorem DBm2S_first_index (U8RssiMap : list Z) (dbm dbm' : Z) :
  (length U8RssiMap <= 255)%nat ->
  dbm <= dbm' ->
  0 <= DBm2S U8RssiMap dbm <= Z.of_nat (length U8RssiMap)
  /\ (forall (j : nat) (m : Z),
        U8RssiMap !! j = Some m ->
        (Z.of_nat j < DBm2S U8RssiMap dbm -> - dbm < m)
        /\ (Z.of_nat j = DBm2S U8RssiMap dbm -> m <= - dbm))
  /\ DBm2S U8RssiMap dbm <= DBm2S U8RssiMap dbm'.
Proof.
  intros Hlen Hd. unfold DBm2S. cbv zeta.
  destruct (DBm2S_from_spec U8RssiMap (dbm * -1) 0) as [Hr Hc]; [lia|lia|].
  split; [lia|]. split.
  - intros j m Hj. destruct (Hc j m Hj) as [H1 H2].
    split; intros H; [specialize (H1 H)|specialize (H2 H)]; lia.
  - apply DBm2S_from_mono; lia.
Qed.

(** A table in steps of 6 dB from S0 at 121: -100 dBm reads 4, -50 dBm
    reads 10. *)
Lemma DBm2S_first_index_witness :
  DBm2S [121; 115; 109; 103; 97; 91; 85; 79; 73; 67] (-100)
  <= DBm2S [121; 115; 109; 103; 97; 91; 85; 79; 73; 67] (-50).
Proof.
  refine (proj2 (proj2 (DBm2S_first_index
                          [121; 115; 109; 103; 97; 91; 85; 79; 73; 67]
                          (-100) (-50) _ _))).
  - cbn. lia.
  - lia.
Defined.

(** ** Register menu *)

Lemma u16_testbit (v i : Z) :
  0 <= i -> Z.testbit (u16 v) i = (i <? 16) && Z.testbit v i.
Proof.
  intros Hi. unfold u16. change 65536 with (2 ^ 16).
  apply Z.testbit_mod_pow2. lia.
Qed.

Lemma testbit_below (v w j : Z) :
  0 <= w -> 0 <= v < 2 ^ w -> w <= j -> Z.testbit v j = false.
Proof.
  intros Hw Hv Hj. rewrite <- (Z.mod_small v (2 ^ w)) by lia.
  rewrite Z.testbit_mod_pow2 by lia.
  destruct (Z.ltb_spec j w); [lia|reflexivity].
Qed.

Lemma field_range (s : RegisterSpec) (reg w : Z) :
  0 <= w <= 16 -> reg_mask s = Z.ones w ->
  0 <= GetRegMenuValue s reg <= reg_mask s /\ reg_mask s = 2 ^ w - 1.
Proof.
  intros Hw Hm. unfold GetRegMenuValue. rewrite Hm.
  rewrite Z.land_ones by lia.
  assert (Hp : 0 < 2 ^ w) by (apply Z.pow_pos_nonneg; lia).
  assert (Hp16 : 2 ^ w <= 2 ^ 16) by (apply Z.pow_le_mono_r; lia).
  change (2 ^ 16) with 65536 in Hp16.
  rewrite Z.ones_equiv, <- Z.sub_1_r.
  pose proof (Z.mod_pos_bound (Z.shiftr reg (reg_offset s)) (2 ^ w) Hp).
  rewrite u16_small by (unfold is_u16; lia). lia.
Qed.

Lemma reg_step_range (s : RegisterSpec) (add : bool) (v : Z) :
  0 <= reg_inc s -> reg_mask s <= 65535 -> 0 <= v <= reg_mask s ->
  0 <= reg_step s add v <= reg_mask s
  /\ reg_step s add v
     = (if add
        then if v + reg_inc s <=? reg_mask s then v + reg_inc s else v
        else if reg_inc s <=? v then v - reg_inc s else v).
Proof.
  intros Hinc Hm Hv. unfold reg_step. rewrite Z.geb_leb.
  destruct add; cbn [andb negb].
  - destruct (Z.leb_spec v (reg_mask s - reg_inc s)),
      (Z.leb_spec (v + reg_inc s) (reg_mask s)); try lia;
      rewrite ?u16_small by (unfold is_u16; lia); lia.
  - destruct (Z.leb_spec (reg_inc s) v);
      rewrite ?u16_small by (unfold is_u16; lia); lia.
Qed.

(** X26. The register menu changes one field: for a field of [w] bits
    at [offset] inside the 16 bits of the register (mask [2^w - 1], as
    in every entry of [registerSpecs]), the value that [SetRegMenuValue]
    writes has, read back with [GetRegMenuValue], the field value of
    the first read stepped by [inc] (kept when the step would leave
    [0 .. mask]), and outside the field the bits of the second read,
    the one made after [LockAGC()].  [LockAGC()] is called, with the
    AGC set up from the modulation and the old [lockAGC], exactly for
    the entries of [BK4819_REG_13], and [lockAGC] is set from then
    on. *)
Theorem SetRegMenuValue_updates_field (BK4819_REG_13 : Z) (s : RegisterSpec)
    (add : bool) (modulation : Z) (lockAGC : bool) (reg1 reg2 w : Z) :
  0 <= w -> reg_mask s = Z.ones w ->
  0 <= reg_offset s -> reg_offset s + w <= 16 ->
  0 <= reg2 < 65536 -> 0 <= reg_inc s ->
  GetRegMenuValue s
    (reg_written
       (SetRegMenuValue BK4819_REG_13 s add modulation lockAGC reg1 reg2))
  = reg_step s add (GetRegMenuValue s reg1)
  /\ 0 <= reg_step s add (GetRegMenuValue s reg1) <= reg_mask s
  /\ reg_step s add (GetRegMenuValue s reg1)
     = (if add
        then if GetRegMenuValue s reg1 + reg_inc s <=? reg_mask s
             then GetRegMenuValue s reg1 + reg_inc s
             else GetRegMenuValue s reg1
        else if reg_inc s <=? GetRegMenuValue s reg1
             then GetRegMenuValue s reg1 - reg_inc s
             else GetRegMenuValue s reg1)
  /\ (forall i : Z,
        0 <= i -> ~ (reg_offset s <= i < reg_offset s + w) ->
        Z.testbit
          (reg_written
             (SetRegMenuValue BK4819_REG_13 s add modulation lockAGC reg1 reg2))
          i
        = Z.testbit reg2 i)
  /\ setup_agc
       (SetRegMenuValue BK4819_REG_13 s add modulation lockAGC reg1 reg2)
     = (if reg_num s =? BK4819_REG_13
        then Some (modulation =? MODULATION_AM, lockAGC) else None)
  /\ lockAGC_after
       (SetRegMenuValue BK4819_REG_13 s add modulation lockAGC reg1 reg2)
     = (reg_num s =? BK4819_REG_13) || lockAGC.
Proof.
  intros Hw Hm Hoff Hfit Hreg Hinc.
  destruct (field_range s reg1 w) as [Hv Hmv]; [lia|exact Hm|].
  assert (Hp16 : 2 ^ w <= 2 ^ 16) by (apply Z.pow_le_mono_r; lia).
  change (2 ^ 16) with 65536 in Hp16.
  destruct (reg_step_range s add (GetRegMenuValue s reg1) Hinc) as [Hv' Hcase];
    [lia|exact Hv|].
  set (v' := reg_step s add (GetRegMenuValue s reg1)) in *.
  set (W := reg_written
              (SetRegMenuValue BK4819_REG_13 s add modulation lockAGC reg1 reg2)).
  assert (Hbit : forall i : Z,
             0 <= i ->
             Z.testbit W i
             = (i <? 16)
               && (Z.testbit reg2 i
                   && negb ((0 <=? i - reg_offset s) && (i - reg_offset s <? w))
                   || Z.testbit v' (i - reg_offset s))).
  { intros i Hi. subst W. unfold SetRegMenuValue. cbv zeta.
    cbn [reg_written]. fold v'.
    rewrite u16_testbit, Z.lor_spec, u16_testbit, Z.land_spec by lia.
    rewrite Z.lnot_spec, !Z.shiftl_spec by lia.
    rewrite Hm, Z.testbit_ones by lia.
    destruct (i <? 16); reflexivity. }
  assert (Hregbit : forall i : Z, 16 <= i -> Z.testbit reg2 i = false)
    by (intros i Hi; apply (testbit_below reg2 16 i); [lia|exact Hreg|exact Hi]).
  assert (Hvbit : forall j : Z, w <= j -> Z.testbit v' j = false)
    by (intros j Hj; apply (testbit_below v' w j); lia).
  split; [|split; [exact Hv'|split; [exact Hcase|split; [|split; reflexivity]]]].
  - apply Z.bits_inj'. intros j Hj.
    unfold GetRegMenuValue.
    rewrite u16_testbit, Z.land_spec, Z.shiftr_spec by lia.
    rewrite Hbit, Hm, Z.testbit_ones_nonneg by lia.
    replace (j + reg_offset s - reg_offset s) with j by lia.
    destruct (Z.ltb_spec j w) as [Hin|Hout].
    + destruct (Z.ltb_spec j 16); [|lia].
      destruct (Z.ltb_spec (j + reg_offset s) 16); [|lia].
      destruct (Z.leb_spec 0 j); [|lia].
      cbn [andb negb]. rewrite andb_false_r, andb_true_r. reflexivity.
    + rewrite (Hvbit j Hout), !andb_false_r. reflexivity.
  - intros i Hi Hout. rewrite (Hbit i Hi).
    destruct (Z.ltb_spec i 16) as [H16|H16].
    + cbn [andb].
      destruct (Z.leb_spec 0 (i - reg_offset s)) as [Hge|Hlt].
      * destruct (Z.ltb_spec (i - reg_offset s) w); [lia|].
        cbn [andb negb]. rewrite (Hvbit (i - reg_offset s)) by lia.
        rewrite andb_true_r, orb_false_r. reflexivity.
      * cbn [andb negb].
        rewrite (Z.testbit_neg_r v' (i - reg_offset s)) by lia.
        rewrite andb_true_r, orb_false_r. reflexivity.
    + cbn [andb]. symmetry. apply Hregbit. lia.
Qed.

(** Every entry of [registerSpecs] is such a field. *)
Lemma registerSpecs_fields (BK4819_REG_13 BK4819_REG_3D : Z) :
  Forall (fun s => exists w : Z,
            0 <= w /\ reg_mask s = Z.ones w /\ 0 <= reg_offset s
            /\ reg_offset s + w <= 16 /\ 0 <= reg_inc s)
    (registerSpecs BK4819_REG_13 BK4819_REG_3D).
Proof.
  unfold registerSpecs.
  repeat constructor.
  - exists 0. cbn. repeat split; lia.
  - exists 2. cbn. repeat split; lia.
  - exists 3. cbn. repeat split; lia.
  - exists 3. cbn. repeat split; lia.
  - exists 16. cbn. repeat split; lia.
Qed.

(** The LNA field (3 bits at offset 5) of the AGC register, read as
    0x03BE before [LockAGC()] and as 0x035E after it, stepped up: the
    field goes from 5 to 6 and the other bits are those of 0x035E. *)
Lemma SetRegMenuValue_updates_field_witness :
  GetRegMenuValue (mkRegisterSpec 19 5 7 1)
    (reg_written
       (SetRegMenuValue 19 (mkRegisterSpec 19 5 7 1) true 0 false 958 862))
  = reg_step (mkRegisterSpec 19 5 7 1) true
      (GetRegMenuValue (mkRegisterSpec 19 5 7 1) 958).
Proof.
  refine (proj1 (SetRegMenuValue_updates_field 19 (mkRegisterSpec 19 5 7 1)
                   true 0 false 958 862 3 _ _ _ _ _ _)).
  - lia.
  - reflexivity.
  - cbn. lia.
  - cbn. lia.
  - lia.
  - cbn. lia.
Defined.
